(* ===== verification/_CoqProject ===== *)
-Q . S2P
Prelude.v
Crypto.v
Errors.v
Base64.v
Revocation.v
Authority.v
Jws.v
Config.v
Thumbprint.v
AcmeRevoke.v
AcmeRevokeTests.v
SshRevoke.v
SshRevokeProps.v
System.v
Concurrency.v
SameSerial.v
Templates.v
Release.v
ReleaseNotes.v
