(* ===== verification/Prelude.v ===== *)
(** * Verification of the smallstep certificate authority: revocation

    This development models the revocation subsystem of the certificate
    authority of the repository: the SSH endpoint [POST /ssh/revoke]
    ([src/api/sshRevoke.go]), the ACME [revoke-cert] handler and its
    test-suite ([src/acme/api/revoke_test.go]), the authority's revocation
    core they both call, and the helpers they share.  Code that is not
    under [src/] (the ACME handler [acme/api/revoke.go], the authority, the
    [errs] and [acme] error packages) is modelled from the specification
    and from the expectations of the tests; library code the sources only
    call (DER parsing, signature verification) is an interface, except
    SHA-256, which is executable so that the key ids can be checked.

    ** How the parts interact

    A client revokes a certificate either through ACME (a JWS signed with
    its account key or with the certificate's own key) or through
    [/ssh/revoke] (a one-time token).  Both handlers validate the request,
    then call the authority's [Revoke], which authenticates the request
    (consuming the token, if any), refuses a serial that already has a
    record, and writes the record (put-if-absent).  The ACME handler reads
    the ACME database (certificate owner) and asks the authority whether
    the serial is revoked before committing.  Requests run concurrently
    (section 5 of the specification): the store is the one shared
    resource.  The [templates] package ([src/unnamed/part_002]) renders
    the SSH configuration files; it shares no state with revocation.
    The test configuration ([src/unnamed/part_000]) declares the JWK
    provisioners whose keys the JWS helpers encode, each named by the
    SHA-256 thumbprint of that encoding; the release
    configuration ([src/unnamed/part_001]) names the archives a release
    publishes, signs them, and documents how to verify them.

    ** Files, in dependency order, and the claims they prove

    - [Prelude.v] (this file): Go's [(T, error)] as [result E A] with
      stdpp's monad notation, byte strings, bit lemmas, strings, the
      notation scope [cert_scope], the hint database [certs], tactics
      ([zlia], [decide_goal], [split_bind]).
    - [Crypto.v]: keys, curves, certificates, JWS values; the interfaces
      [X509] (DER parsing, with the law that [Raw] is the input) and
      [JWSVerifier].
    - [Errors.v]: Module [Errs] (the [errs] package: status and message)
      and Module [Acme] (problem types, statuses, [NewError], [WrapError],
      [NewErrorISE], [WrapErrorISE]).
    - [Base64.v]: Go's [encoding/base64] encoder and decoder
      ([EncodeToString], [DecodeString] with newline filtering), for the
      standard and URL alphabets, padded or raw.  Lemmas: the round trip,
      which standard encodings the URL decoder accepts (only unpadded
      ones, then as the same bytes), when the two alphabets give the same
      text, and the encoded length; [AcmeRevoke.v] applies them to the
      certificate of the payload.
    - [Revocation.v]: the OCSP reason codes, [authority.RevokeOptions],
      [reason], [validateReasonCode], [revokeOptions] and the test tables
      [Test_validateReasonCode], [Test_reason], [Test_revokeOptions].
      The accepted codes, the fields of the options, the reason table
      and the test tables are theorems of the file.
    - [Authority.v]: the store ([AuthState]: a [gmap] of revocation
      records by serial and a [gset] of consumed tokens), [authorizeRevoke]
      and [Revoke] (section 4.E of the specification); the ACME package's
      interfaces [CertificateAuthority] (with the laws [CALaws] a real
      store satisfies) and [AcmeDB], implemented by the store, by the
      tests' [mockCA] and [MockDB], and by a [gmap].  Lemmas: records are
      never changed once written, the invariant [store_wf] holds of every
      [reachable] store (rule induction), a token authorizes at most one
      revocation.
    - [Jws.v]: the JWS helpers of the ACME tests ([jwsHasher], [jwsSign],
      [jwkEncode], [jwsHead], [jwsFinal], [jwsEncodeJSON], the last with
      [json.Marshal] of the claim set as a parameter that may fail), with
      [big.Int.Bytes] (absolute value, minimal big-endian; enough fuel is
      a lemma) and [strconv.Quote].  C23-C25: the signature half-size of
      a curve of any bit size against the field length (wrong for P-224
      and for a 160-bit curve), [jwsEncodeJSON] end to end (the header
      and payload decode back, the signature halves read back as [r] and
      [s]), the JWK coordinates.
    - [Config.v]: the test configuration [src/unnamed/part_000]
      ([ca.json]) as a value, and the reading of its provisioner keys
      ([jwk_public], as [go-jose] reads an EC key).  C26: [jwkEncode]
      writes a key read from a JWK back as that JWK.  That every
      provisioner of the file is well formed (keys [jwsHasher] accepts
      under the named [alg], canonical coordinates, distinct names and
      key ids) is an [Example] evaluated on the file.
    - [Thumbprint.v]: SHA-256 of FIPS 180-4 over bytes ([sha256]:
      padding, message schedule, the 64 rounds on 32-bit words with
      explicit wrap-around), checked on the standard test vectors; the
      RFC 7638 thumbprint of the JWK [jwkEncode] writes ([Thumbprint]);
      and the reading of a JWK object's members as go-jose's
      case-sensitive decoder reads them (last member of a name wins).
      That every [kid] of [ca.json] is the thumbprint of its key is an
      [Example]; that a thumbprint depends on [crv], [kty], [x] and [y]
      only, not on the order of distinct members, is a lemma.
    - [AcmeRevoke.v]: [Handler.RevokeCert] as [revokeCertChecks] (steps
      1-8 of section 4.F: context values, payload, base64url and X.509
      decoding, database lookup, authentication by account key or
      certificate key, reason code, revocation status, provisioner hook)
      and [RevokeCert] (commit and response).  C1-C6: every 200 is
      authorized, a commit adds exactly the record the payload and the
      context determine ([commit_effect]), a replay is refused as
      [alreadyRevoked] against any authority obeying [CALaws], a refusal
      changes nothing, every problem carries its type's status, and a
      standard-base64 certificate is refused only when its encoding is
      padded.
    - [AcmeRevokeTests.v]: the 23 cases of [TestHandler_RevokeCert] with
      their fixtures and the handler run on a case; the scenarios of
      section 8 run against the store; the witnesses of C1-C6 are these
      concrete cases.
    - [SshRevoke.v]: [SSHRevokeRequest], [Validate], [SSHRevoke] and
      [logSSHRevoke] of [src/api/sshRevoke.go], with the context method
      the handler authorizes and revokes under and the log fields of [logOtt] and
      [logSSHRevoke] in the order the handler adds them, against the
      interface [SSHAuthority] that the store implements; its lemmas
      are the handler's four outcomes and the store after a success or
      a refusal, which [System.v] and [Concurrency.v] build on.
    - [SshRevokeProps.v]: the properties of the endpoint.  C14-C18:
      what an ok answer certifies, the status of every refusal, the
      record an ok revocation writes, the token a refused revocation
      still consumes, and which bodies reach the authority at all: the
      others are refused with 400, or 501 when only the passive flag is
      missing, whatever the token (the order of [Validate]'s checks).
    - [System.v]: both endpoints served in sequence against one store
      ([serve], [run]).  C7-C9, by induction on the request sequence:
      records are terminal, a consumed token is refused afterwards (the
      store invariant [store_wf], preserved by every request, is a
      lemma); and each request is, for every serial, one
      transition of the certificate state machine of section 4.G
      ([CertState], [cert_step]), a serial becoming revoked only by a
      request answered with success.
    - [Concurrency.v]: requests to both endpoints as threads of two
      atomic steps each (the checks, or [Validate] and [Authorize]; then
      the commit), run by any schedule.  C10-C12: identical ACME requests
      end with exactly one 200 and otherwise [alreadyRevoked], whatever
      the interleaving; identical SSH requests with exactly one ok and
      otherwise a token-replay refusal (401 or 403); at most one thread
      commits a serial.  Lemma: run one after the other, the threads are
      the sequential [System.run].
    - [SameSerial.v]: different requests for one serial (ACME by account
      key or certificate key, SSH with different tokens) run as threads
      of [Concurrency.v].  C13: if each alone would commit the serial,
      every interleaving ends with exactly one commit and exactly one
      success, and every losing ACME request is answered
      [alreadyRevoked], by invariants of the scheduler (until the first
      commit the store is untouched).
    - [Templates.v]: [Template], [SSHTemplates], [Templates], [Output]
      with [Validate], [Load], [LoadAll], [Render], [Output] and [Write],
      over the interfaces [FileSystem], [StepPaths] and [TemplateEngine];
      the loops over slices copy their elements, as Go's [range] does,
      and a method with a pointer receiver returns the updated receiver.
      C19-C22: [LoadAll] does not cache and [SSHTemplates.Validate] loses
      the default comment (both because of the copies); [Render] loads,
      keeps and executes the template; the write/read round trip on an
      in-memory file system.
    - [Release.v]: the release configuration [src/unnamed/part_001]
      ([.goreleaser.yml]) as values, the Go templates it contains
      rendered by a model of [text/template] ([lex], [exec], [render]),
      and archive names as goreleaser forms them.  C27-C28: for every
      version the nine archives have distinct names; the links of the
      release notes point at the archives they name, except the Windows
      link, whose text names a [windows] [arm64] archive that is never
      built.
    - [ReleaseNotes.v]: the [signs] entry of the same file as the
      command goreleaser runs per artifact ([sign_command], with
      [${artifact}] and [${signature}] expanded), and the [cosign
      verify-blob] example of the release notes, rendered and read as a
      POSIX shell reads it ([shell_lines]).  C29: the example names the
      signature the pipe writes for the macOS [amd64] archive, but a
      missing backslash splits it into two commands, the blob path
      becoming a command of its own.  The [footer] renders with the tag
      of the release.

    ** Bounds and evaluation

    Integers are unbounded [Z] where Go uses [int] (reason codes, serials:
    [big.Int]); bytes are [Z] in [0, 256) ([bytes_ok]), the base64 sextets
    are computed with [Z.shiftr] and [Z.land] as in the Go source.  Every
    definition is executable.  Recursion is structural (base64 by groups
    of three bytes, [list_ind3]; schedules by the list of thread indices)
    except [big.Int.Bytes] ([Jws.Bytes]), which recurses with fuel: the
    bit length of the number, which [be_fuel_spec] shows is enough.
    Threads make at most two steps ([phase]).  SHA-256 works on
    32-bit words kept in [0, 2^32) by [Z.land] with [Z.ones 32] after
    every addition and rotation, as Go's [uint32] wraps; its constants
    are computed from the first primes by trial division (fuel [n * n +
    2], more than the 311 candidates the 64 primes need) and bisection
    (40 halvings of [[0, 2^36)]), and the standard test vectors and the
    tables of FIPS 180-4 are checked by [vm_compute].

    ** Not modelled

    The prose of the release notes and the commented-out [dockers]
    block of [.goreleaser.yml] carry no behaviour; logging,
    HTTP plumbing ([ReadJSON], [WriteError]) are represented by the values
    they carry; cryptographic primitives (hashing, ECDSA and RSA, DER
    parsing) are interfaces, except SHA-256, which the key ids rest on; [text/template] and the file system are
    interfaces with a toy engine and an in-memory instance for concrete
    runs.  Cancellation of a request context (section 5) is not modelled:
    a thread of [Concurrency.v] always completes its commit. *)

From stdpp Require Export base gmap strings list pretty.
From Stdlib Require Export ZArith Lia Ascii.

Declare Scope cert_scope.
Delimit Scope cert_scope with cert.
Open Scope cert_scope.

Create HintDb certs.
Create Rewrite HintDb certs.

(** ** Go's [(T, error)] pair as a sum *)

(** A Go function returning [(T, error)] either returns a value with a
    [nil] error ([Ok]) or a non-[nil] error ([Err]).  The error type comes
    first so that [result E] is a monad. *)
Inductive result (E A : Type) : Type :=
| Ok (a : A)
| Err (e : E).
Arguments Ok {E A} a.
Arguments Err {E A} e.

#[export] Instance result_ret E : MRet (result E) := fun A a => Ok a.
#[export] Instance result_bind E : MBind (result E) :=
  fun A B f r => match r with Ok a => f a | Err e => Err e end.
#[export] Instance result_fmap E : FMap (result E) :=
  fun A B f r => match r with Ok a => Ok (f a) | Err e => Err e end.

Definition is_ok {E A} (r : result E A) : bool :=
  match r with Ok _ => true | Err _ => false end.

(** [if err != nil { return ..., wrap(err) }]: map the error, keep the value. *)
Definition map_err {E E' A} (f : E -> E') (r : result E A) : result E' A :=
  match r with Ok a => Ok a | Err e => Err (f e) end.

Lemma bind_Ok {E A B} (a : A) (f : A -> result E B) : (Ok a ≫= f) = f a.
Proof. reflexivity. Qed.

Lemma bind_Err {E A B} (e : E) (f : A -> result E B) : (Err e ≫= f) = Err e.
Proof. reflexivity. Qed.

Lemma bind_eq_Ok {E A B} (r : result E A) (f : A -> result E B) b :
  (r ≫= f) = Ok b <-> exists a, r = Ok a /\ f a = Ok b.
Proof.
  destruct r as [a|e]; simpl; split.
  - intros H. eauto.
  - intros (a' & [= ->] & H). exact H.
  - discriminate.
  - intros (a' & ? & _). discriminate.
Qed.

Lemma bind_eq_Err {E A B} (r : result E A) (f : A -> result E B) e :
  (r ≫= f) = Err e <-> r = Err e \/ exists a, r = Ok a /\ f a = Err e.
Proof.
  destruct r as [a|e']; simpl; split.
  - intros H. eauto.
  - intros [H | (a' & [= ->] & H)]; [discriminate | exact H].
  - intros [= ->]. by left.
  - intros [[= ->] | (a' & ? & _)]; [reflexivity | discriminate].
Qed.

#[export] Hint Rewrite @bind_Ok @bind_Err : certs.

(** ** Byte strings *)

(** A Go [[]byte] is a list of integers, each in [0, 256). *)
Abbreviation bytes := (list Z).

Definition byte_ok (b : Z) : Prop := (0 <= b < 256)%Z.
Definition bytes_ok (bs : bytes) : Prop := Forall byte_ok bs.

#[export] Instance byte_ok_dec b : Decision (byte_ok b).
Proof. unfold byte_ok. apply _. Defined.
#[export] Instance bytes_ok_dec bs : Decision (bytes_ok bs).
Proof. unfold bytes_ok. apply _. Defined.

Lemma bytes_ok_app bs1 bs2 : bytes_ok (bs1 ++ bs2) <-> bytes_ok bs1 /\ bytes_ok bs2.
Proof. apply Forall_app. Qed.

Lemma bytes_ok_cons b bs : bytes_ok (b :: bs) <-> byte_ok b /\ bytes_ok bs.
Proof. apply Forall_cons. Qed.

#[export] Hint Rewrite bytes_ok_app bytes_ok_cons : certs.

(** ** Bit operations on unbounded integers *)

(** Or-ing a value shifted past the width of a small one is addition. *)
Lemma land_shiftl_small a b k :
  (0 <= k -> 0 <= b < 2 ^ k -> Z.land (Z.shiftl a k) b = 0)%Z.
Proof.
  intros Hk Hb. apply Z.bits_inj_0. intros i. rewrite Z.land_spec.
  destruct (Z.lt_ge_cases i 0) as [Hi|Hi]; [by rewrite Z.testbit_neg_r|].
  destruct (Z.lt_ge_cases i k) as [Hik|Hik].
  - rewrite Z.shiftl_spec_low by lia. reflexivity.
  - rewrite <- (Z.mod_small b (2 ^ k)) by lia.
    rewrite Z.mod_pow2_bits_high by lia. apply andb_false_r.
Qed.

Lemma lor_shiftl_small a b k :
  (0 <= k -> 0 <= b < 2 ^ k -> Z.lor (Z.shiftl a k) b = a * 2 ^ k + b)%Z.
Proof.
  intros Hk Hb. pose proof (Z.add_lor_land (Z.shiftl a k) b) as E.
  rewrite land_shiftl_small in E by lia. rewrite Z.shiftl_mul_pow2 in E |- * by lia. lia.
Qed.

(** [x >> k & (2^w - 1)] is a division and a remainder. *)
Lemma shiftr_land_ones x k w :
  (0 <= k -> 0 <= w -> Z.land (Z.shiftr x k) (Z.ones w) = (x / 2 ^ k) mod 2 ^ w)%Z.
Proof. intros. rewrite Z.land_ones, Z.shiftr_div_pow2 by lia. reflexivity. Qed.

(** ** Induction over a list by groups of three *)

(** The recursion scheme of code that consumes a buffer three bytes at a
    time and then handles a remainder of one or two. *)
Lemma list_ind3 {A} (P : list A -> Prop) :
  P [] -> (forall a, P [a]) -> (forall a b, P [a; b]) ->
  (forall a b c l, P l -> P (a :: b :: c :: l)) -> forall l, P l.
Proof.
  intros H0 H1 H2 H3 l. induction l as [l IH] using (induction_ltof1 _ (@length A)).
  destruct l as [|a [|b [|c l]]]; auto.
  apply H3, IH. unfold ltof. simpl. lia.
Qed.

(** ** Association lists *)

(** Lookup in an association list, first binding first. *)
Fixpoint assoc {K V} `{EqDecision K} (k : K) (l : list (K * V)) : option V :=
  match l with
  | [] => None
  | (k', v) :: l' => if decide (k = k') then Some v else assoc k l'
  end.

(** ** Strings *)

(** The double quote character, written without a doubled quote. *)
Definition dq : string := String (Ascii.ascii_of_nat 34) EmptyString.

(** stdpp makes [String.append] [simpl never]; these are its equations. *)
Lemma string_app_cons c (s1 s2 : string) :
  (String c s1 ++ s2)%string = String c (s1 ++ s2)%string.
Proof. reflexivity. Qed.

Lemma string_app_empty (s : string) : ("" ++ s)%string = s.
Proof. reflexivity. Qed.

Lemma string_app_nil_r (s : string) : (s ++ "")%string = s.
Proof. induction s as [|c s IH]; [reflexivity|]. rewrite string_app_cons. congruence. Qed.

Lemma string_app_assoc (s1 s2 s3 : string) :
  (s1 ++ (s2 ++ s3))%string = ((s1 ++ s2) ++ s3)%string.
Proof.
  induction s1 as [|c s IH]; [reflexivity|]. rewrite !string_app_cons. congruence.
Qed.

#[export] Hint Rewrite string_app_cons string_app_empty string_app_nil_r : certs.

(** [strings.Split(s, sep)] for a one-character separator. *)
Fixpoint split_on (sep : Ascii.ascii) (s : string) : list string :=
  match s with
  | EmptyString => [EmptyString]
  | String c s' =>
      let parts := split_on sep s' in
      if Ascii.eqb sep c then EmptyString :: parts
      else match parts with
           | p :: ps => String c p :: ps
           | [] => [String c EmptyString]
           end
  end.

(** [strings.HasPrefix(s, p)] *)
Fixpoint has_prefix (p s : string) : bool :=
  match p, s with
  | EmptyString, _ => true
  | String c p', String c' s' => bool_decide (c = c') && has_prefix p' s'
  | String _ _, EmptyString => false
  end.

(** [strings.Contains(s, sub)] *)
Fixpoint contains (sub s : string) : bool :=
  has_prefix sub s || match s with EmptyString => false | String _ s' => contains sub s' end.

Lemma has_prefix_app p s : has_prefix p (p ++ s)%string = true.
Proof.
  induction p as [|c p IH]; [reflexivity|].
  rewrite string_app_cons. simpl. rewrite bool_decide_true by reflexivity. exact IH.
Qed.

Lemma contains_unfold sub s :
  contains sub s =
    has_prefix sub s || match s with EmptyString => false | String _ s' => contains sub s' end.
Proof. destruct s; reflexivity. Qed.

Lemma contains_app sub a b : contains sub (a ++ sub ++ b)%string = true.
Proof.
  induction a as [|c a IH].
  - rewrite string_app_empty, contains_unfold, has_prefix_app. reflexivity.
  - rewrite string_app_cons, contains_unfold, IH. apply orb_true_r.
Qed.

Lemma contains_suffix sub a : contains sub (a ++ sub)%string = true.
Proof. rewrite <- (string_app_nil_r sub) at 2. apply contains_app. Qed.

Lemma string_get_In n (s : string) c :
  String.get n s = Some c -> In c (String.list_ascii_of_string s).
Proof.
  revert n. induction s as [|c' s IH]; intros [|n]; simpl; try discriminate.
  - intros [= ->]. by left.
  - intros H. right. exact (IH n H).
Qed.

(** ** Tactics *)

(** Invert a hypothesis and clean up ([inv] is taken by stdpp). *)
Ltac invc H := inversion H; subst; clear H.

(** Evaluate the powers of two with constant exponents, for [lia]. *)
Ltac zpow_consts :=
  repeat match goal with
  | |- context [(2 ^ ?n)%Z] =>
      let x := eval vm_compute in (2 ^ n)%Z in change (2 ^ n)%Z with x
  | H : context [(2 ^ ?n)%Z] |- _ =>
      let x := eval vm_compute in (2 ^ n)%Z in change (2 ^ n)%Z with x in H
  end.

(** [lia] after turning divisions and remainders by constants into
    equations (this [lia] does not do it by itself). *)
Ltac zlia := zpow_consts; Z.div_mod_to_equations; lia.

(** Close a decidable goal by evaluating its decision procedure. *)
Ltac decide_goal := apply (bool_decide_unpack _); vm_compute; exact I.

(** Split the [result] binds of a hypothesis [H : (c ≫= f) = Ok _]. *)
Ltac split_bind H :=
  repeat match type of H with
  | (_ ≫= _) = Ok _ =>
      let a := fresh "a" in let Ha := fresh "Ha" in
      apply bind_eq_Ok in H as (a & Ha & H)
  end.
