(* ===== verification/Crypto.v ===== *)
(** Keys, curves, hashes and X.509 certificates: the values of Go's
    [crypto], [crypto/ecdsa], [crypto/rsa] and [crypto/x509] packages that
    the revocation code inspects.  Parsing a DER certificate is an
    interface ([X509]) whose one law is that a parsed certificate keeps the
    bytes it was parsed from ([Certificate.Raw]). *)

From S2P Require Import Prelude.

(** ** Elliptic curves: [elliptic.Curve] and its [Params()] *)

Inductive Curve := P224 | P256 | P384 | P521.

#[export] Instance Curve_eq_dec : EqDecision Curve.
Proof. solve_decision. Defined.

(** [Params().Name] *)
Definition curve_name (c : Curve) : string :=
  match c with
  | P224 => "P-224" | P256 => "P-256" | P384 => "P-384" | P521 => "P-521"
  end.

(** [Params().BitSize] *)
Definition curve_bitsize (c : Curve) : Z :=
  match c with P224 => 224 | P256 => 256 | P384 => 384 | P521 => 521 end.

(** The byte length of a field element, [ceil(BitSize / 8)]. *)
Definition curve_bytes (c : Curve) : Z := (curve_bitsize c + 7) / 8.

(** ** Hash functions: [crypto.Hash]; [0] is the missing hash *)

Inductive Hash := HashNone | SHA256 | SHA384 | SHA512.

#[export] Instance Hash_eq_dec : EqDecision Hash.
Proof. solve_decision. Defined.

(** [crypto.Hash.Available()]: the hash [0] is never available; the SHA-2
    hashes are linked into every binary that imports [crypto/sha256] and
    [crypto/sha512]. *)
Definition hash_available (h : Hash) : bool :=
  match h with HashNone => false | _ => true end.

(** ** Public and private keys *)

(** The dynamic type of a [crypto.PublicKey]: [*rsa.PublicKey],
    [*ecdsa.PublicKey], or any other key type ([ed25519.PublicKey], ...). *)
Inductive PublicKey :=
| RSAPublicKey (N : Z) (E : Z)
| ECDSAPublicKey (crv : Curve) (X Y : Z)
| OtherPublicKey (tag : string).

#[export] Instance PublicKey_eq_dec : EqDecision PublicKey.
Proof. solve_decision. Defined.

(** A [crypto.Signer]: its dynamic type decides how [jwsSign] signs. *)
Inductive PrivateKey :=
| RSAPrivateKey (N E D : Z)
| ECDSAPrivateKey (crv : Curve) (X Y D : Z)
| OtherSigner (tag : string).

#[export] Instance PrivateKey_eq_dec : EqDecision PrivateKey.
Proof. solve_decision. Defined.

(** [key.Public()] *)
Definition Public (k : PrivateKey) : PublicKey :=
  match k with
  | RSAPrivateKey n e _ => RSAPublicKey n e
  | ECDSAPrivateKey c x y _ => ECDSAPublicKey c x y
  | OtherSigner t => OtherPublicKey t
  end.

(** ** X.509 certificates *)

(** The fields of [*x509.Certificate] that revocation reads.  [Subject]
    is the already formatted [Subject.String()] (RFC 2253 form, e.g.
    ["CN=Test ACME Revoke Certificate"]). *)
Record Certificate := mkCertificate {
  SerialNumber : Z;
  Subject : string;
  CrtPublicKey : PublicKey;
  Raw : bytes;
}.

#[export] Instance Certificate_eq_dec : EqDecision Certificate.
Proof. solve_decision. Defined.

(** [serial.String()]: the decimal form of a [*big.Int]. *)
Definition serial_string (n : Z) : string := pretty n.

(** [x509.ParseCertificate]: DER parsing is a library the code only calls;
    it is an interface whose law is that the parsed certificate's [Raw]
    field is the input. *)
Class X509 := {
  ParseCertificate : bytes -> option Certificate;
  ParseCertificate_raw : forall der c, ParseCertificate der = Some c -> Raw c = der;
}.

Lemma serial_string_inj n m : serial_string n = serial_string m -> n = m.
Proof. apply pretty_Z_inj. Qed.

(** ** JSON Web Signatures ([go.step.sm/crypto/jose]) *)

(** The protected header names the signing key either by reference ([kid],
    an ACME account URL) or by value ([jwk]); the two are exclusive, so the
    reference is a two-variant union (specification section 9). *)
Inductive KeyRef :=
| KID (kid : string)
| JWK (jwk : PublicKey).

(** [jose.Header]: [alg], the key reference, the optional [nonce] and the
    [url] extra header. *)
Record Header := mkHeader {
  Algorithm : string;
  HeaderKey : KeyRef;
  Nonce : option string;
  Url : string;
}.

(** A parsed [*jose.JSONWebSignature] with one signature: the header, the
    base64url text of the protected header and of the payload as received,
    and the raw signature bytes. *)
Record JSONWebSignature := mkJSONWebSignature {
  Protected : Header;
  ProtectedB64 : string;
  PayloadB64 : string;
  Signature : bytes;
}.

(** [jws.Verify(key)]: check the signature with [key] and return the
    payload.  The ACME handler is proved against this interface;
    [Jose.v] gives the model of the library's verification. *)
Class JWSVerifier := { jws_Verify : JSONWebSignature -> PublicKey -> result string bytes }.
