(* ===== verification/Errors.v ===== *)
(** The two error vocabularies of the revocation endpoints.

    - [Errs]: the [errs] package of the CA API ([errs.BadRequest],
      [errs.NotImplemented], [errs.UnauthorizedErr], [errs.ForbiddenErr]),
      an HTTP status with a message; used by [/ssh/revoke].
    - [Acme]: the ACME problem documents of RFC 8555 ([acme.Error],
      [acme.NewError], [acme.NewErrorISE], [acme.WrapErrorISE]), with the
      taxonomy of the specification's section 7; used by [revoke-cert].

    Both packages are outside [src/]; they are modelled from the
    specification and from the expectations of [revoke_test.go]. *)

From S2P Require Import Prelude.

Module Errs.

(** [*errs.Error]: the HTTP status and the message. *)
Record Error := mkError { Status : Z; Msg : string }.

Definition BadRequest (msg : string) : Error := mkError 400 msg.
Definition BadRequestErr (err msg : string) : Error := mkError 400 (msg +:+ ": " +:+ err).
Definition UnauthorizedErr (err : string) : Error := mkError 401 err.
Definition ForbiddenErr (err msg : string) : Error := mkError 403 (msg +:+ ": " +:+ err).
Definition NotImplemented (msg : string) : Error := mkError 501 msg.

End Errs.

Module Acme.

(** The ACME problem types the revocation handler emits (section 7). *)
Inductive ProblemType :=
| ErrorMalformedType
| ErrorBadRevocationReasonType
| ErrorAlreadyRevokedType
| ErrorAccountDoesNotExistType
| ErrorUnauthorizedType
| ErrorServerInternalType.

#[global] Instance ProblemType_eq_dec : EqDecision ProblemType.
Proof. solve_decision. Defined.

Definition type_name (t : ProblemType) : string :=
  match t with
  | ErrorMalformedType => "malformed"
  | ErrorBadRevocationReasonType => "badRevocationReason"
  | ErrorAlreadyRevokedType => "alreadyRevoked"
  | ErrorAccountDoesNotExistType => "accountDoesNotExist"
  | ErrorUnauthorizedType => "unauthorized"
  | ErrorServerInternalType => "serverInternal"
  end.

(** The [type] member of the problem document. *)
Definition type_urn (t : ProblemType) : string :=
  "urn:ietf:params:acme:error:" +:+ type_name t.

(** The HTTP status of each kind (section 7 table). *)
Definition default_status (t : ProblemType) : Z :=
  match t with
  | ErrorUnauthorizedType => 403
  | ErrorServerInternalType => 500
  | _ => 400
  end.

(** The [detail] member a new error of each kind carries. *)
Definition default_detail (t : ProblemType) : string :=
  match t with
  | ErrorMalformedType => "The request message was malformed"
  | ErrorBadRevocationReasonType =>
      "The revocation reason provided is not allowed by the server"
  | ErrorAlreadyRevokedType => "Certificate already revoked"
  | ErrorAccountDoesNotExistType =>
      "The request specified an account that does not exist"
  | ErrorUnauthorizedType => "The client lacks sufficient authorization"
  | ErrorServerInternalType => "The server experienced an internal error"
  end.

(** [*acme.Error]: [Err] is the inner cause kept for the logs. *)
Record Error := mkError {
  Type_ : ProblemType;
  Detail : string;
  Status : Z;
  Err : string;
}.

Definition NewError (t : ProblemType) (msg : string) : Error :=
  mkError t (default_detail t) (default_status t) msg.

Definition NewErrorISE (msg : string) : Error :=
  NewError ErrorServerInternalType msg.

Definition WrapError (t : ProblemType) (err msg : string) : Error :=
  NewError t (msg +:+ ": " +:+ err).

Definition WrapErrorISE (err msg : string) : Error :=
  WrapError ErrorServerInternalType err msg.

End Acme.
