(* ===== verification/Base64.v ===== *)
(** Go's [encoding/base64], as far as the revocation path uses it.

    The ACME payload carries the certificate as [base64.RawURLEncoding]
    (URL alphabet, no padding); the tests also build a payload with
    [base64.StdEncoding] and expect it to be refused.  [EncodeToString] is
    Go's [Encoding.Encode]: three bytes at a time, combined with shifts and
    ors into a 24-bit value cut into four 6-bit indices, then a remainder
    of one or two bytes, padded with ['='] when the encoding has padding.
    [DecodeString] is the decoder of an unpadded encoding: line breaks are
    skipped, every other character must be in the alphabet, groups of four
    characters give three bytes, a final group of two or three gives one or
    two bytes (the trailing bits are ignored, as Go does when not [Strict]),
    and a final group of one is an error.  Errors are [None]; the offset Go
    reports is not modelled.

    Lemmas: decoding inverts encoding (round trip) and the encoded length
    is [ceil(8n/6)] without padding and [4 ceil(n/3)] with it; a standard
    encoding is accepted by the URL decoder only when it has no padding
    (and then decodes to the same bytes), and one without ['+'], ['/'] and
    ['='] is the URL encoding itself ([std_url_same]).  [AcmeRevoke.v]
    draws the consequence for the handler: the specification's "standard
    base64 is malformed" holds only for some certificates. *)

From S2P Require Import Prelude.

Open Scope Z_scope.

(** ** Encodings *)

Record Encoding := mkEncoding { alphabet : string; padded : bool }.

Definition encodeStd : string :=
  "ABCDEFGHIJKLMNOPQRSTUVWXYZabcdefghijklmnopqrstuvwxyz0123456789+/".
Definition encodeURL : string :=
  "ABCDEFGHIJKLMNOPQRSTUVWXYZabcdefghijklmnopqrstuvwxyz0123456789-_".

Definition StdEncoding : Encoding := mkEncoding encodeStd true.
Definition URLEncoding : Encoding := mkEncoding encodeURL true.
Definition RawStdEncoding : Encoding := mkEncoding encodeStd false.
Definition RawURLEncoding : Encoding := mkEncoding encodeURL false.

(** [enc.encode[i]] *)
Definition enc_char (enc : Encoding) (i : Z) : Ascii.ascii :=
  default "A"%char (String.get (Z.to_nat i) (alphabet enc)).

Arguments enc_char : simpl never.

(** [val >> k & 0x3F] *)
Definition sextet (val k : Z) : Z := Z.land (Z.shiftr val k) 63.

(** [Encoding.EncodeToString]. *)
Fixpoint EncodeToString (enc : Encoding) (src : bytes) : string :=
  match src with
  | b0 :: b1 :: b2 :: rest =>
      let val := Z.lor (Z.shiftl b0 16) (Z.lor (Z.shiftl b1 8) b2) in
      String (enc_char enc (sextet val 18)) (String (enc_char enc (sextet val 12))
        (String (enc_char enc (sextet val 6)) (String (enc_char enc (Z.land val 63))
          (EncodeToString enc rest))))
  | [b0; b1] =>
      let val := Z.lor (Z.shiftl b0 16) (Z.shiftl b1 8) in
      String (enc_char enc (sextet val 18)) (String (enc_char enc (sextet val 12))
        (String (enc_char enc (sextet val 6)) (if padded enc then "=" else "")))
  | [b0] =>
      let val := Z.shiftl b0 16 in
      String (enc_char enc (sextet val 18)) (String (enc_char enc (sextet val 12))
        (if padded enc then "==" else ""))
  | [] => ""
  end.

(** [Encoding.EncodedLen]. *)
Definition EncodedLen (enc : Encoding) (n : nat) : nat :=
  if padded enc then (n + 2) / 3 * 4 else (n * 8 + 5) / 6.

(** ** Decoding an unpadded encoding *)

(** [enc.decodeMap[c]]: the index of [c] in the alphabet, or [0xFF]. *)
Fixpoint index_of (c : Ascii.ascii) (s : string) : option Z :=
  match s with
  | EmptyString => None
  | String c' s' => if decide (c = c') then Some 0 else Z.succ <$> index_of c s'
  end.

Definition dec_char (enc : Encoding) (c : Ascii.ascii) : option Z := index_of c (alphabet enc).

Arguments dec_char : simpl never.

(** The padding character is not in the URL alphabet. *)
Lemma dec_char_pad : dec_char RawURLEncoding "=" = None.
Proof. reflexivity. Qed.

(** [byte(x)]: truncation to the low eight bits. *)
Definition byte (x : Z) : Z := Z.land x 255.

(** Line breaks are skipped wherever they appear. *)
Definition is_newline (c : Ascii.ascii) : bool :=
  bool_decide (c = "010"%char) || bool_decide (c = "013"%char).

Fixpoint decode_quanta (enc : Encoding) (cs : list Ascii.ascii) : option bytes :=
  match cs with
  | [] => Some []
  | [_] => None
  | [c0; c1] =>
      d0 ← dec_char enc c0; d1 ← dec_char enc c1;
      let val := Z.lor (Z.shiftl d0 18) (Z.shiftl d1 12) in
      Some [byte (Z.shiftr val 16)]
  | [c0; c1; c2] =>
      d0 ← dec_char enc c0; d1 ← dec_char enc c1; d2 ← dec_char enc c2;
      let val := Z.lor (Z.shiftl d0 18) (Z.lor (Z.shiftl d1 12) (Z.shiftl d2 6)) in
      Some [byte (Z.shiftr val 16); byte (Z.shiftr val 8)]
  | c0 :: c1 :: c2 :: c3 :: rest =>
      d0 ← dec_char enc c0; d1 ← dec_char enc c1; d2 ← dec_char enc c2;
      d3 ← dec_char enc c3;
      let val := Z.lor (Z.shiftl d0 18) (Z.lor (Z.shiftl d1 12) (Z.lor (Z.shiftl d2 6) d3)) in
      bs ← decode_quanta enc rest;
      Some (byte (Z.shiftr val 16) :: byte (Z.shiftr val 8) :: byte val :: bs)
  end.

(** [Encoding.DecodeString] for an encoding without padding. *)
Definition DecodeString (enc : Encoding) (s : string) : option bytes :=
  decode_quanta enc (filter (fun c => negb (is_newline c)) (String.list_ascii_of_string s)).

(** ** Decoded bytes are bytes *)

Lemma byte_ok_byte x : byte_ok (byte x).
Proof. unfold byte_ok, byte. change 255 with (Z.ones 8). rewrite Z.land_ones by lia. apply Z.mod_pos_bound. lia. Qed.

Lemma decode_quanta_ok enc cs bs : decode_quanta enc cs = Some bs -> bytes_ok bs.
Proof.
  remember (length cs) as n eqn:Hn. revert cs bs Hn.
  induction n as [n IH] using lt_wf_ind. intros cs bs Hn.
  destruct cs as [|c0 [|c1 [|c2 [|c3 rest]]]]; simpl; intros H;
    unfold mbind, option_bind in H; repeat case_match; simplify_eq;
    repeat constructor; try apply byte_ok_byte.
  eapply IH; [|reflexivity|eassumption]. simpl; lia.
Qed.

Lemma DecodeString_ok enc s bs : DecodeString enc s = Some bs -> bytes_ok bs.
Proof. apply decode_quanta_ok. Qed.

(** ** Arithmetic of one quantum *)

Lemma sextet_spec v k : 0 <= k -> sextet v k = (v / 2 ^ k) mod 64.
Proof. intros Hk. unfold sextet. change 63 with (Z.ones 6). by rewrite shiftr_land_ones. Qed.

Lemma land63_spec v : Z.land v 63 = v mod 64.
Proof. change 63 with (Z.ones 6). by rewrite Z.land_ones. Qed.

Lemma byte_spec x : byte x = x mod 256.
Proof. unfold byte. change 255 with (Z.ones 8). by rewrite Z.land_ones. Qed.

Lemma shiftr_spec x k : 0 <= k -> Z.shiftr x k = x / 2 ^ k.
Proof. intros. by rewrite Z.shiftr_div_pow2. Qed.

Lemma sextet_range v k : 0 <= k -> 0 <= sextet v k < 64.
Proof. intros. rewrite sextet_spec by lia. apply Z.mod_pos_bound. lia. Qed.

Create Rewrite HintDb b64.
#[local] Hint Rewrite sextet_spec land63_spec byte_spec shiftr_spec using lia : b64.

(** The three ways Go assembles the 24-bit value of a quantum. *)
Lemma combine3 b0 b1 b2 :
  byte_ok b0 -> byte_ok b1 -> byte_ok b2 ->
  Z.lor (Z.shiftl b0 16) (Z.lor (Z.shiftl b1 8) b2) = b0 * 65536 + b1 * 256 + b2.
Proof.
  unfold byte_ok. intros H0 H1 H2.
  rewrite (lor_shiftl_small b1 b2 8) by lia.
  rewrite lor_shiftl_small by lia. lia.
Qed.

Lemma combine2 b0 b1 :
  byte_ok b1 -> Z.lor (Z.shiftl b0 16) (Z.shiftl b1 8) = b0 * 65536 + b1 * 256.
Proof.
  unfold byte_ok. intros H1. rewrite (Z.shiftl_mul_pow2 b1 8) by lia.
  rewrite lor_shiftl_small by lia. lia.
Qed.

(** The decoder's reassembly of four, three and two sextets. *)
Lemma assemble4 d0 d1 d2 d3 :
  0 <= d1 < 64 -> 0 <= d2 < 64 -> 0 <= d3 < 64 ->
  Z.lor (Z.shiftl d0 18) (Z.lor (Z.shiftl d1 12) (Z.lor (Z.shiftl d2 6) d3)) =
    d0 * 262144 + d1 * 4096 + d2 * 64 + d3.
Proof.
  intros H1 H2 H3.
  rewrite (lor_shiftl_small d2 d3 6) by lia.
  rewrite (lor_shiftl_small d1 _ 12) by lia.
  rewrite lor_shiftl_small by lia. lia.
Qed.

Lemma assemble3 d0 d1 d2 :
  0 <= d1 < 64 -> 0 <= d2 < 64 ->
  Z.lor (Z.shiftl d0 18) (Z.lor (Z.shiftl d1 12) (Z.shiftl d2 6)) =
    d0 * 262144 + d1 * 4096 + d2 * 64.
Proof.
  intros H1 H2. rewrite (Z.shiftl_mul_pow2 d2 6) by lia.
  rewrite (lor_shiftl_small d1 _ 12) by lia.
  rewrite lor_shiftl_small by lia. lia.
Qed.

Lemma assemble2 d0 d1 :
  0 <= d1 < 64 -> Z.lor (Z.shiftl d0 18) (Z.shiftl d1 12) = d0 * 262144 + d1 * 4096.
Proof.
  intros H1. rewrite (Z.shiftl_mul_pow2 d1 12) by lia.
  rewrite lor_shiftl_small by lia. lia.
Qed.

(** Cutting a 24-bit value into sextets and reassembling them gives it back. *)
Lemma sextets_reassemble v :
  0 <= v < 2 ^ 24 ->
  Z.lor (Z.shiftl (sextet v 18) 18)
    (Z.lor (Z.shiftl (sextet v 12) 12) (Z.lor (Z.shiftl (sextet v 6) 6) (Z.land v 63))) = v.
Proof.
  intros Hv. rewrite assemble4 by (rewrite ?land63_spec; apply sextet_range || apply Z.mod_pos_bound; lia).
  autorewrite with b64. zlia.
Qed.

(** Decoding the four sextets of an encoded quantum gives its three bytes. *)
Lemma quantum_bytes b0 b1 b2 :
  byte_ok b0 -> byte_ok b1 -> byte_ok b2 ->
  let v := Z.lor (Z.shiftl b0 16) (Z.lor (Z.shiftl b1 8) b2) in
  let v' := Z.lor (Z.shiftl (sextet v 18) 18)
              (Z.lor (Z.shiftl (sextet v 12) 12) (Z.lor (Z.shiftl (sextet v 6) 6) (Z.land v 63))) in
  [byte (Z.shiftr v' 16); byte (Z.shiftr v' 8); byte v'] = [b0; b1; b2].
Proof.
  intros H0 H1 H2. cbv zeta.
  rewrite sextets_reassemble; rewrite combine3 by done; unfold byte_ok in *; [|zlia].
  autorewrite with b64. f_equal; [zlia | f_equal; [zlia | f_equal; zlia]].
Qed.

(** ** The alphabets, checked character by character *)

Definition alphabet_table_ok (enc : Encoding) : bool :=
  forallb (fun n => bool_decide (dec_char enc (enc_char enc (Z.of_nat n)) = Some (Z.of_nat n)))
    (seq 0 64).

Lemma alphabet_table_url : alphabet_table_ok RawURLEncoding = true.
Proof. vm_compute. reflexivity. Qed.

Lemma alphabet_table_std : alphabet_table_ok RawStdEncoding = true.
Proof. vm_compute. reflexivity. Qed.

(** Decoding inverts [enc.encode[i]] on [0, 64). *)
Lemma dec_enc_char enc i :
  alphabet_table_ok enc = true -> 0 <= i < 64 -> dec_char enc (enc_char enc i) = Some i.
Proof.
  intros Htab Hi. unfold alphabet_table_ok in Htab. rewrite forallb_forall in Htab.
  specialize (Htab (Z.to_nat i)). rewrite in_seq, Z2Nat.id in Htab by lia.
  apply bool_decide_eq_true in Htab; [exact Htab | lia].
Qed.

Lemma dec_enc_sextet enc v k :
  alphabet_table_ok enc = true -> 0 <= k ->
  dec_char enc (enc_char enc (sextet v k)) = Some (sextet v k).
Proof. intros. apply dec_enc_char; [done | by apply sextet_range]. Qed.

Lemma dec_enc_low enc v :
  alphabet_table_ok enc = true -> dec_char enc (enc_char enc (Z.land v 63)) = Some (Z.land v 63).
Proof. intros. apply dec_enc_char; [done|]. rewrite land63_spec. apply Z.mod_pos_bound. lia. Qed.

(** No alphabet contains a line break, so the decoder's skipping of line
    breaks never touches an encoder's output. *)
Definition no_newline (s : string) : Prop :=
  Forall (fun c => is_newline c = false) (String.list_ascii_of_string s).

Lemma no_newline_url : no_newline (alphabet RawURLEncoding).
Proof. repeat constructor. Qed.

Lemma no_newline_std : no_newline (alphabet StdEncoding).
Proof. repeat constructor. Qed.

Lemma enc_char_no_newline enc i :
  no_newline (alphabet enc) -> is_newline (enc_char enc i) = false.
Proof.
  intros Hal. unfold enc_char. destruct (String.get _ _) as [c|] eqn:E; [|reflexivity].
  simpl. unfold no_newline in Hal. rewrite Forall_forall in Hal.
  apply Hal, list_elem_of_In. eapply string_get_In. exact E.
Qed.

Lemma EncodeToString_no_newline enc bs :
  no_newline (alphabet enc) -> no_newline (EncodeToString enc bs).
Proof.
  intros Hal. unfold no_newline.
  induction bs as [|b0|b0 b1|b0 b1 b2 r IH] using list_ind3; simpl;
    repeat constructor; try apply enc_char_no_newline; try done;
    destruct (padded enc); repeat constructor.
Qed.

Lemma filter_no_newline s :
  no_newline s -> filter (fun c => negb (is_newline c)) (String.list_ascii_of_string s) =
                  String.list_ascii_of_string s.
Proof.
  unfold no_newline. induction 1 as [|c l Hc _ IH]; [reflexivity|].
  rewrite filter_cons, Hc. simpl. by rewrite IH.
Qed.

(** ** Round trip *)

(** Decoding the output of the encoder gives back the input, for every
    unpadded encoding whose alphabet decodes (the URL and the standard
    one); the three remainders of [Encode] each decode exactly. *)
Lemma decode_encode_quanta enc bs :
  padded enc = false -> alphabet_table_ok enc = true -> bytes_ok bs ->
  decode_quanta enc (String.list_ascii_of_string (EncodeToString enc bs)) = Some bs.
Proof.
  intros Hpad Htab.
  induction bs as [|b0|b0 b1|b0 b1 b2 r IH] using list_ind3; intros Hbs;
    autorewrite with certs in Hbs; unfold byte_ok in Hbs; simpl; rewrite ?Hpad; simpl;
    rewrite ?dec_enc_sextet, ?dec_enc_low by (done || lia); simpl.
  - reflexivity.
  - rewrite assemble2 by (apply sextet_range; lia).
    rewrite (Z.shiftl_mul_pow2 b0 16) by lia. autorewrite with b64. f_equal. f_equal. zlia.
  - rewrite assemble3 by (apply sextet_range; lia). rewrite combine2 by (unfold byte_ok; lia).
    autorewrite with b64. do 2 f_equal; [|f_equal]; zlia.
  - destruct Hbs as (H0 & H1 & H2 & Hr). rewrite IH by exact Hr. simpl.
    pose proof (quantum_bytes b0 b1 b2 H0 H1 H2) as Hq. simpl in Hq. congruence.
Qed.

(** [DecodeString] inverts [EncodeToString] for every unpadded encoding
    whose alphabet has no newline and decodes through its table. *)
Lemma decode_encode_unpadded enc bs :
  padded enc = false -> alphabet_table_ok enc = true -> no_newline (alphabet enc) ->
  bytes_ok bs -> DecodeString enc (EncodeToString enc bs) = Some bs.
Proof.
  intros Hpad Htab Hnl Hbs. unfold DecodeString.
  rewrite filter_no_newline by (apply EncodeToString_no_newline, Hnl).
  by apply decode_encode_quanta.
Qed.

(** Round trip: [RawURLEncoding.DecodeString] inverts
    [RawURLEncoding.EncodeToString] on every byte string. *)
Lemma DecodeString_EncodeToString bs :
  bytes_ok bs -> DecodeString RawURLEncoding (EncodeToString RawURLEncoding bs) = Some bs.
Proof.
  apply decode_encode_unpadded; [reflexivity | exact alphabet_table_url | exact no_newline_url].
Qed.

(** The encoded length is [EncodedLen]: [ceil(8n/6)] characters without
    padding, [4 ceil(n/3)] with it. *)
Theorem EncodeToString_length enc bs :
  String.length (EncodeToString enc bs) = EncodedLen enc (length bs).
Proof.
  unfold EncodedLen.
  induction bs as [|b0|b0 b1|b0 b1 b2 r IH] using list_ind3;
    destruct (padded enc) eqn:Hp; cbn [EncodeToString String.length length];
    rewrite ?Hp; try reflexivity; rewrite IH.
  - replace (S (S (S (length r))) + 2)%nat with (1 * 3 + (length r + 2))%nat by lia.
    rewrite Nat.div_add_l by lia. lia.
  - replace (S (S (S (length r))) * 8 + 5)%nat with (4 * 6 + (length r * 8 + 5))%nat by lia.
    rewrite Nat.div_add_l by lia. lia.
Qed.

(** Every character of a URL encoding is in the URL alphabet: no
    ['+'], ['/'], or padding ['='] ever appears. *)
Theorem EncodeToString_url_safe bs :
  Forall (fun c => c ∈ String.list_ascii_of_string encodeURL)
    (String.list_ascii_of_string (EncodeToString RawURLEncoding bs)).
Proof.
  assert (Hc : forall i, enc_char RawURLEncoding i ∈ String.list_ascii_of_string encodeURL).
  { intros i. unfold enc_char. destruct (String.get _ _) eqn:E; cbn [default].
    - apply list_elem_of_In. eapply string_get_In. exact E.
    - apply list_elem_of_In. simpl. auto. }
  induction bs as [|b0|b0 b1|b0 b1 b2 r IH] using list_ind3; simpl;
    repeat (apply Forall_cons_2; [apply Hc|]); first [exact IH | apply Forall_nil_2].
Qed.

(** ** A standard encoding under the URL decoder *)

(** The URL decoder reads the first 62 characters of the standard alphabet
    as the same sextets and refuses ['+'] and ['/']. *)
Lemma std_under_url_table :
  forallb (fun n => bool_decide (dec_char RawURLEncoding (enc_char StdEncoding (Z.of_nat n)) =
                      if bool_decide (n < 62)%nat then Some (Z.of_nat n) else None)) (seq 0 64) = true.
Proof. vm_compute. reflexivity. Qed.

Lemma dec_url_enc_std i :
  0 <= i < 64 ->
  dec_char RawURLEncoding (enc_char StdEncoding i) = if bool_decide (i < 62) then Some i else None.
Proof.
  intros Hi. pose proof std_under_url_table as T. rewrite forallb_forall in T.
  specialize (T (Z.to_nat i)). rewrite in_seq, Z2Nat.id in T by lia.
  apply bool_decide_eq_true in T; [|lia]. rewrite T.
  repeat case_bool_decide; try reflexivity; lia.
Qed.

Lemma dec_url_std_sextet v k b :
  0 <= k -> dec_char RawURLEncoding (enc_char StdEncoding (sextet v k)) = Some b -> b = sextet v k.
Proof.
  intros Hk. rewrite dec_url_enc_std by (apply sextet_range; lia).
  case_bool_decide; congruence.
Qed.

Lemma dec_url_std_low v b :
  dec_char RawURLEncoding (enc_char StdEncoding (Z.land v 63)) = Some b -> b = Z.land v 63.
Proof.
  rewrite dec_url_enc_std by (rewrite land63_spec; apply Z.mod_pos_bound; lia).
  case_bool_decide; congruence.
Qed.

(** Unfold the encoder and decoder without touching the integer operations. *)
Ltac b64_red :=
  cbn [EncodeToString decode_quanta padded StdEncoding RawURLEncoding
       String.list_ascii_of_string mbind option_bind].

(** A standard ([StdEncoding]) encoding is accepted by the URL decoder
    only when the length is a multiple of three (no padding), and then it
    decodes to the same bytes. *)
Lemma std_encoding_under_url_decoder bs bs' :
  bytes_ok bs ->
  DecodeString RawURLEncoding (EncodeToString StdEncoding bs) = Some bs' ->
  bs' = bs /\ (length bs mod 3 = 0)%nat.
Proof.
  unfold DecodeString.
  rewrite filter_no_newline by (apply EncodeToString_no_newline, no_newline_std).
  revert bs'. induction bs as [|b0|b0 b1|b0 b1 b2 r IH] using list_ind3; intros bs' Hbs;
    autorewrite with certs in Hbs; unfold byte_ok in Hbs; b64_red; rewrite ?dec_char_pad.
  - intros [= <-]. done.
  - destruct (dec_char _ _), (dec_char _ _); b64_red; congruence.
  - destruct (dec_char _ _), (dec_char _ _), (dec_char _ _); b64_red; congruence.
  - destruct Hbs as (H0 & H1 & H2 & Hr).
    destruct (dec_char _ (enc_char _ (sextet _ 18))) as [d0|] eqn:E0; b64_red; [|congruence].
    destruct (dec_char _ (enc_char _ (sextet _ 12))) as [d1|] eqn:E1; b64_red; [|congruence].
    destruct (dec_char _ (enc_char _ (sextet _ 6))) as [d2|] eqn:E2; b64_red; [|congruence].
    destruct (dec_char _ (enc_char _ (Z.land _ 63))) as [d3|] eqn:E3; b64_red; [|congruence].
    apply dec_url_std_sextet in E0, E1, E2; [|lia..]. apply dec_url_std_low in E3. subst.
    destruct (decode_quanta _ _) as [r'|] eqn:Er; b64_red; [|congruence].
    destruct (IH r' Hr eq_refl) as [-> Hlen]. intros [= <-].
    pose proof (quantum_bytes b0 b1 b2 H0 H1 H2) as Hq. cbv zeta in Hq.
    injection Hq as -> -> ->. split; [reflexivity|]. cbn [length].
    replace (S (S (S (length r)))) with (length r + 1 * 3)%nat by lia.
    rewrite Nat.Div0.mod_add. exact Hlen.
Qed.

(** A string with none of the characters of the standard alphabet that
    the URL alphabet lacks, and no padding. *)
Definition url_safe_std (s : string) : Prop :=
  Forall (fun c => c <> "+"%char /\ c <> "/"%char /\ c <> "="%char) (String.list_ascii_of_string s).

Lemma enc_char_std_url i :
  0 <= i < 64 -> enc_char StdEncoding i <> "+"%char -> enc_char StdEncoding i <> "/"%char ->
  enc_char StdEncoding i = enc_char RawURLEncoding i.
Proof.
  intros Hi. unfold enc_char. cbn [alphabet StdEncoding RawURLEncoding].
  assert (Hall : Forall (fun n => String.get n encodeStd = String.get n encodeURL \/
                   String.get n encodeStd = Some "+"%char \/ String.get n encodeStd = Some "/"%char)
                   (seq 0 64)) by decide_goal.
  rewrite Forall_forall in Hall.
  destruct (Hall (Z.to_nat i)) as [E|[E|E]]; [apply list_elem_of_In, in_seq; lia | | |];
    rewrite E; [done | intros []; reflexivity | intros _ []; reflexivity].
Qed.

(** A standard encoding without [+], [/] and [=] is the URL encoding. *)
Lemma std_url_same bs :
  url_safe_std (EncodeToString StdEncoding bs) ->
  EncodeToString StdEncoding bs = EncodeToString RawURLEncoding bs.
Proof.
  unfold url_safe_std.
  induction bs as [|b0|b0 b1|b0 b1 b2 r IH] using list_ind3; intros Hs; simpl in *; [reflexivity| | |].
  1,2: repeat (apply Forall_cons in Hs as [? Hs]); naive_solver.
  apply Forall_cons in Hs as [[H0 [H0' _]] Hs]. apply Forall_cons in Hs as [[H1 [H1' _]] Hs].
  apply Forall_cons in Hs as [[H2 [H2' _]] Hs]. apply Forall_cons in Hs as [[H3 [H3' _]] Hs].
  rewrite !enc_char_std_url
    by first [assumption | apply sextet_range; lia | rewrite land63_spec; apply Z.mod_pos_bound; lia].
  rewrite (IH Hs). reflexivity.
Qed.

(** The counterexample to "a standard-base64 certificate is malformed":
    the three bytes [30 82 01] that open a DER certificate encode to
    ["MIIB"] in both alphabets, which the URL decoder accepts. *)
Example std_prefix_accepted :
  EncodeToString StdEncoding [48; 130; 1]%Z = "MIIB" /\
  DecodeString RawURLEncoding "MIIB" = Some [48; 130; 1]%Z.
Proof. split; vm_compute; reflexivity. Qed.
