(* ===== verification/Revocation.v ===== *)
(** Revocation requests: the OCSP reason codes, [authority.RevokeOptions],
    and the ACME helpers that turn a payload's optional reason code into
    options ([reason], [validateReasonCode], [revokeOptions] of
    [acme/api/revoke.go], exercised by [Test_reason],
    [Test_validateReasonCode] and [Test_revokeOptions] of
    [src/acme/api/revoke_test.go]).

    Theorems: the reason text is the table of section 4.F of the
    specification on every code; [validateReasonCode] accepts exactly the
    ACME set [{0..6, 8..10}] (or no code); [revokeOptions] copies an
    accepted code and its text and marks the request as ACME. *)

From S2P Require Import Prelude Crypto Errors.

(** ** OCSP reason codes ([golang.org/x/crypto/ocsp]) *)

Definition Unspecified : Z := 0.
Definition KeyCompromise : Z := 1.
Definition CACompromise : Z := 2.
Definition AffiliationChanged : Z := 3.
Definition Superseded : Z := 4.
Definition CessationOfOperation : Z := 5.
Definition CertificateHold : Z := 6.
Definition RemoveFromCRL : Z := 8.
Definition PrivilegeWithdrawn : Z := 9.
Definition AACompromise : Z := 10.

(** ** [authority.RevokeOptions] *)

Record RevokeOptions := mkRevokeOptions {
  Serial : string;
  Reason : string;
  ReasonCode : Z;
  PassiveOnly : bool;
  MTLS : bool;
  ACME : bool;
  Crt : option Certificate;
  OTT : string;
}.

(** The zero value [&authority.RevokeOptions{}]. *)
Definition emptyRevokeOptions : RevokeOptions :=
  mkRevokeOptions "" "" 0 false false false None "".

(** ** The reason table *)

(** [reason(reasonCode int) string]: the [switch] on the OCSP constants,
    with [default: "unspecified reason"]. *)
Definition reason (reasonCode : Z) : string :=
  if decide (reasonCode = Unspecified) then "unspecified reason"
  else if decide (reasonCode = KeyCompromise) then "key compromised"
  else if decide (reasonCode = CACompromise) then "ca compromised"
  else if decide (reasonCode = AffiliationChanged) then "affiliation changed"
  else if decide (reasonCode = Superseded) then "superseded"
  else if decide (reasonCode = CessationOfOperation) then "cessation of operation"
  else if decide (reasonCode = CertificateHold) then "certificate hold"
  else if decide (reasonCode = RemoveFromCRL) then "remove from crl"
  else if decide (reasonCode = PrivilegeWithdrawn) then "privilege withdrawn"
  else if decide (reasonCode = AACompromise) then "aa compromised"
  else "unspecified reason".

(** The table of the specification (section 4.F), as a list. *)
Definition reason_table : list (Z * string) :=
  [(0, "unspecified reason"); (1, "key compromised"); (2, "ca compromised");
   (3, "affiliation changed"); (4, "superseded"); (5, "cessation of operation");
   (6, "certificate hold"); (8, "remove from crl"); (9, "privilege withdrawn");
   (10, "aa compromised")]%Z.

(** ** Validation of an ACME reason code *)

(** The ACME set of reason codes: [0..10] without [7] (RFC 8555 7.6). *)
Definition acme_reason_ok (rc : Z) : bool :=
  bool_decide (Unspecified <= rc <= AACompromise)%Z && negb (bool_decide (rc = 7%Z)).

(** [validateReasonCode(reasonCode *int) *acme.Error]: [nil] pointer or a
    code of the ACME set is fine; anything else is [badRevocationReason]
    with the inner message ["reasonCode out of bounds"]. *)
Definition validateReasonCode (reasonCode : option Z) : option Acme.Error :=
  match reasonCode with
  | Some rc =>
      if acme_reason_ok rc then None
      else Some (Acme.NewError Acme.ErrorBadRevocationReasonType "reasonCode out of bounds")
  | None => None
  end.

(** [revokeOptions(serial, certToBeRevoked, reasonCode)]: [ACME] is set,
    and the code and its text are copied only when a code was given. *)
Definition revokeOptions (serial : string) (certToBeRevoked : Certificate)
    (reasonCode : option Z) : RevokeOptions :=
  let opts := {| Serial := serial; Reason := ""; ReasonCode := 0; PassiveOnly := false;
                 MTLS := false; ACME := true; Crt := Some certToBeRevoked; OTT := "" |} in
  match reasonCode with
  | Some rc => {| Serial := serial; Reason := reason rc; ReasonCode := rc;
                  PassiveOnly := false; MTLS := false; ACME := true;
                  Crt := Some certToBeRevoked; OTT := "" |}
  | None => opts
  end.

(** ** The test tables of [revoke_test.go] *)

(** [Test_validateReasonCode]'s table: a code and the expected result,
    [nil] or [badRevocationReason] with the message ["reasonCode out of
    bounds"] (the test compares type, detail, status and inner error). *)
Definition Test_validateReasonCode_cases : list (option Z * option Acme.Error) :=
  let oob := Some (Acme.NewError Acme.ErrorBadRevocationReasonType "reasonCode out of bounds") in
  [(Some Unspecified, None); (Some (-1)%Z, oob); (Some 11%Z, oob); (Some 7%Z, oob)].

(** [Test_reason]'s table: a code and the expected text. *)
Definition Test_reason_cases : list (Z * string) :=
  [(Unspecified, "unspecified reason"); (KeyCompromise, "key compromised");
   (CACompromise, "ca compromised"); (AffiliationChanged, "affiliation changed");
   (Superseded, "superseded"); (CessationOfOperation, "cessation of operation");
   (CertificateHold, "certificate hold"); (RemoveFromCRL, "remove from crl");
   (PrivilegeWithdrawn, "privilege withdrawn"); (AACompromise, "aa compromised");
   ((-1)%Z, "unspecified reason")].

(** [Test_revokeOptions]'s table, for the certificate [cert] the test
    generates: the arguments and the expected options (the other fields at
    their zero values). *)
Definition Test_revokeOptions_cases (cert : Certificate)
    : list ((string * Certificate * option Z) * RevokeOptions) :=
  [(("1234", cert, None),
    {| Serial := "1234"; Reason := ""; ReasonCode := 0; PassiveOnly := false; MTLS := false;
       ACME := true; Crt := Some cert; OTT := "" |});
   (("1234", cert, Some KeyCompromise),
    {| Serial := "1234"; Reason := "key compromised"; ReasonCode := 1; PassiveOnly := false;
       MTLS := false; ACME := true; Crt := Some cert; OTT := "" |})].

(** Looking a code up in [reason_table], with the table's default. *)
Definition table_reason (rc : Z) : string :=
  default "unspecified reason" (assoc rc reason_table).

(** ** Theorems *)

(** [acme_reason_ok] is the set [{0..6, 8..10}]. *)
Lemma acme_reason_ok_spec rc :
  acme_reason_ok rc = true <-> (0 <= rc <= 10 /\ rc <> 7)%Z.
Proof.
  unfold acme_reason_ok, Unspecified, AACompromise.
  rewrite andb_true_iff, negb_true_iff, bool_decide_eq_true, bool_decide_eq_false.
  reflexivity.
Qed.

(** [reason] agrees with [table_reason] (by cases on the code). *)
Lemma reason_eq_table rc : reason rc = table_reason rc.
Proof.
  unfold reason, table_reason, reason_table, Unspecified, KeyCompromise, CACompromise,
    AffiliationChanged, Superseded, CessationOfOperation, CertificateHold, RemoveFromCRL,
    PrivilegeWithdrawn, AACompromise; simpl.
  repeat (case_decide; [subst; reflexivity|]).
  repeat (case_decide; [congruence|]). reflexivity.
Qed.

(** [validateReasonCode] accepts a given code exactly when it lies in
    [0..10] and is not [7]. *)
Theorem validateReasonCode_accepts rc :
  validateReasonCode (Some rc) = None <-> (0 <= rc <= 10 /\ rc <> 7)%Z.
Proof.
  rewrite <- acme_reason_ok_spec. simpl.
  destruct (acme_reason_ok rc); split; congruence.
Qed.

(** A rejected code yields the [badRevocationReason] problem, status
    400, with the inner message ["reasonCode out of bounds"]. *)
Theorem validateReasonCode_rejects rc :
  (rc < 0 \/ 10 < rc \/ rc = 7)%Z ->
  validateReasonCode (Some rc) =
    Some (Acme.NewError Acme.ErrorBadRevocationReasonType "reasonCode out of bounds").
Proof.
  intros H. simpl.
  destruct (acme_reason_ok rc) eqn:E; [|reflexivity].
  apply acme_reason_ok_spec in E. lia.
Qed.

Lemma validateReasonCode_rejects_witness :
  (7 < 0 \/ 10 < 7 \/ 7 = 7)%Z /\
  validateReasonCode (Some 7%Z) =
    Some (Acme.NewError Acme.ErrorBadRevocationReasonType "reasonCode out of bounds").
Proof. split; [lia | apply validateReasonCode_rejects; lia]. Defined.

(** With a code, [revokeOptions] copies it and its text from the table;
    without one, both are left at Go's zero values ([0] and [""]). *)
Theorem revokeOptions_fields serial crt rc :
  let o := revokeOptions serial crt rc in
  Serial o = serial /\ ACME o = true /\ Crt o = Some crt /\ MTLS o = false /\
  ReasonCode o = default 0%Z rc /\
  Reason o = match rc with Some c => table_reason c | None => "" end.
Proof. destruct rc; simpl; rewrite ?reason_eq_table; auto 7. Qed.

(** The model passes the three helper tables of [revoke_test.go],
    [Test_revokeOptions] for every certificate. *)
Theorem revoke_helpers_pass_tests :
  Forall (fun c => validateReasonCode c.1 = c.2) Test_validateReasonCode_cases /\
  Forall (fun c => reason c.1 = c.2) Test_reason_cases /\
  forall cert, Forall (fun c => revokeOptions c.1.1.1 c.1.1.2 c.1.2 = c.2)
                 (Test_revokeOptions_cases cert).
Proof. split_and!; [repeat constructor.. | intros cert; repeat constructor]. Qed.
