(* ===== verification/Authority.v ===== *)
(** The authority's revocation core (specification section 4.E) and the
    seams through which the ACME handler reaches it.

    - [Store]: the persistent state, the [revoked:{serial}] key space as a
      [gmap] from serial to [RevokedCertificateInfo], and the set of
      consumed one-time tokens.
    - [Revoke]: [authority.Revoke(ctx, opts)]: authenticate (one-time token
      or certificate), reject a serial that already has a record, derive the
      reason text, and insert the record (a put-if-absent).
    - [CertificateAuthority]: the ACME package's interface to the authority
      ([IsRevoked], [Revoke]), a type class over the authority's state;
      [Store] implements it, and so does the test-suite's [mockCA].
    - [AcmeDB]: the ACME database seam ([GetCertificateBySerial]), with the
      test-suite's [MockDB].

    Lemmas, used by the theorems of the handlers: records are never
    changed or removed once written (the
    certificate state machine [issued -> revoked] of section 4.G is
    one-way); at most one record per serial; the reason text of a record is
    the table's; a one-time token authorizes at most one revocation. *)

From S2P Require Import Prelude Crypto Errors Revocation.

(** ** Persistent records *)

(** [db.RevokedCertificateInfo]: what the store keeps for a revoked serial. *)
Record RevokedCertificateInfo := mkRevokedCertificateInfo {
  rci_Serial : string;
  rci_ProvisionerID : string;
  rci_ReasonCode : Z;
  rci_Reason : string;
  rci_MTLS : bool;
  rci_ACME : bool;
  rci_PassiveOnly : bool;
  rci_TokenID : string;
}.

#[export] Instance RevokedCertificateInfo_eq_dec : EqDecision RevokedCertificateInfo.
Proof. solve_decision. Defined.

(** The claims of a validated one-time token: the provisioner that signed it
    and the token's identifier ([jti]). *)
Record TokenClaims := mkTokenClaims { tc_Provisioner : string; tc_ID : string }.

(** Token validation (signature, audience, expiry) is a collaborator. *)
Class TokenValidator := { ValidateToken : string -> result string TokenClaims }.

(** The state of the authority's revocation store. *)
Record AuthState := mkAuthState {
  revoked : gmap string RevokedCertificateInfo;
  used_tokens : gset string;
}.

(** ** The authority's operations *)

Section Authority.
Context `{TokenValidator}.

(** [isRevoked(serial)]: a record exists. *)
Definition IsRevoked (st : AuthState) (serial : string) : bool :=
  bool_decide (is_Some (revoked st !! serial)).

Definition already_revoked_msg (serial : string) : string :=
  "certificate with serial number '" +:+ serial +:+ "' is already revoked".

(** Steps 1 and 2: resolve the provisioner and authenticate the request.
    With a one-time token, the token is validated and consumed; without
    one, a certificate must be presented (mTLS or ACME proof) and the
    provisioner comes from the request context. Returns the provisioner
    id and the token id. *)
Definition authorizeRevoke (st : AuthState) (ctxProv : option string)
    (opts : RevokeOptions) : AuthState * result string (string * string) :=
  if decide (OTT opts <> "") then
    match ValidateToken (OTT opts) with
    | Err e => (st, Err ("authority.Revoke: " +:+ e))
    | Ok claims =>
        if decide (tc_ID claims ∈ used_tokens st)
        then (st, Err "authority.Revoke: token already used")
        else (mkAuthState (revoked st) ({[tc_ID claims]} ∪ used_tokens st),
              Ok (tc_Provisioner claims, tc_ID claims))
    end
  else
    match Crt opts, ctxProv with
    | Some _, Some prov => (st, Ok (prov, ""))
    | Some _, None => (st, Err "authority.Revoke: provisioner not in context")
    | None, _ => (st, Err "authority.Revoke: certificate or token required")
    end.

(** [authority.Revoke(ctx, opts)]: steps 1-5 of section 4.E; the record
    returned is the audit line of step 6. *)
Definition Revoke (st : AuthState) (ctxProv : option string) (opts : RevokeOptions)
    : AuthState * result string RevokedCertificateInfo :=
  match authorizeRevoke st ctxProv opts with
  | (st1, Err e) => (st1, Err e)
  | (st1, Ok (prov, tok)) =>
      match revoked st1 !! Serial opts with
      | Some _ => (st1, Err (already_revoked_msg (Serial opts)))
      | None =>
          let rci := {| rci_Serial := Serial opts; rci_ProvisionerID := prov;
                        rci_ReasonCode := ReasonCode opts;
                        rci_Reason := reason (ReasonCode opts);
                        rci_MTLS := MTLS opts; rci_ACME := ACME opts;
                        rci_PassiveOnly := PassiveOnly opts; rci_TokenID := tok |} in
          (mkAuthState (<[Serial opts := rci]> (revoked st1)) (used_tokens st1), Ok rci)
      end
  end.

End Authority.

(** ** The ACME package's view of the authority *)

(** [acme.CertificateAuthority] restricted to revocation: [IsRevoked] and
    [Revoke], over an abstract state [S].  Errors are Go [error] values,
    represented by their [Error()] text.  [ctx] carries the provisioner of
    an ACME request. *)
Class CertificateAuthority (S : Type) := {
  ca_IsRevoked : S -> string -> result string bool;
  ca_Revoke : S -> option string -> RevokeOptions -> S * result string unit;
}.

(** The laws a real store satisfies and a mock need not: a successful
    revocation is visible, and an already revoked serial is refused with a
    message the handler recognises (section 5, compare-and-set). *)
Class CALaws (S : Type) `{CertificateAuthority S} := {
  ca_revoke_visible : forall s c o s',
    ca_Revoke s c o = (s', Ok tt) -> ca_IsRevoked s' (Serial o) = Ok true;
  ca_revoke_refused : forall s c o,
    ca_IsRevoked s (Serial o) = Ok true ->
    exists s' e, ca_Revoke s c o = (s', Err e) /\
                 (contains "is already revoked" e = true \/ s' = s);
  ca_revoked_stable : forall s c o s' r sn,
    ca_IsRevoked s sn = Ok true -> ca_Revoke s c o = (s', r) -> ca_IsRevoked s' sn = Ok true;
}.

#[export] Instance Store_CA `{TokenValidator} : CertificateAuthority AuthState := {
  ca_IsRevoked st sn := Ok (IsRevoked st sn);
  ca_Revoke st c o := let '(st', r) := Revoke st c o in (st', (fun _ => tt) <$> r);
}.

(** The test-suite's [mockCA] (revoke_test.go): optional overrides, and the
    defaults [IsRevoked = (false, nil)] and [Revoke = nil].  It keeps no
    state. *)
Record mockCA := mkMockCA {
  MockIsRevoked : option (string -> result string bool);
  MockRevoke : option (RevokeOptions -> option string);
}.

#[export] Instance mockCA_CA (m : mockCA) : CertificateAuthority unit := {
  ca_IsRevoked _ sn := match MockIsRevoked m with Some f => f sn | None => Ok false end;
  ca_Revoke _ _ o :=
    match MockRevoke m with
    | Some f => (tt, match f o with Some e => Err e | None => Ok tt end)
    | None => (tt, Ok tt)
    end;
}.

(** ** The ACME database seam *)

(** [acme.Certificate] as stored by the ACME database: the owning account. *)
Record AcmeCertificate := mkAcmeCertificate { AccountID : string }.

(** [GetCertificateBySerial]: found, not found, or a storage error. *)
Inductive DbResult :=
| DbFound (c : AcmeCertificate)
| DbNotFound
| DbError (msg : string).

Class AcmeDB (D : Type) := { GetCertificateBySerial : D -> string -> DbResult }.

(** A database as a map from serial to certificate record. *)
#[export] Instance gmap_AcmeDB : AcmeDB (gmap string AcmeCertificate) := {
  GetCertificateBySerial m sn :=
    match m !! sn with Some c => DbFound c | None => DbNotFound end;
}.

(** The test-suite's [acme.MockDB] with [MockGetCertificateBySerial]. *)
Record MockDB := mkMockDB { MockGetCertificateBySerial : string -> DbResult }.

#[export] Instance MockDB_AcmeDB : AcmeDB MockDB := {
  GetCertificateBySerial m sn := MockGetCertificateBySerial m sn;
}.

(** ** Theorems about the store *)

Section StoreTheorems.
Context `{TokenValidator}.

(** The store's invariant: every record sits under its own serial, carries
    the table's text for its code, and its token (if any) is consumed. *)
Definition store_wf (st : AuthState) : Prop :=
  map_Forall (fun sn r =>
    rci_Serial r = sn /\ rci_Reason r = reason (rci_ReasonCode r) /\
    (rci_TokenID r <> "" -> rci_TokenID r ∈ used_tokens st)) (revoked st).

#[global] Instance store_wf_dec st : Decision (store_wf st).
Proof. unfold store_wf. apply _. Defined.

(** The states the authority reaches from an empty store. *)
Inductive reachable : AuthState -> Prop :=
| reach_init : reachable (mkAuthState ∅ ∅)
| reach_revoke st c o : reachable st -> reachable (Revoke st c o).1.

(** Authentication never touches the records and only adds tokens. *)
Lemma authorizeRevoke_state st c o :
  revoked (authorizeRevoke st c o).1 = revoked st /\
  used_tokens st ⊆ used_tokens (authorizeRevoke st c o).1.
Proof.
  unfold authorizeRevoke.
  case_decide; [destruct (ValidateToken _); [case_decide|]|destruct (Crt o), c];
    simpl; split; try reflexivity; set_solver.
Qed.

Lemma authorizeRevoke_token st c o st1 prov tok :
  authorizeRevoke st c o = (st1, Ok (prov, tok)) ->
  tok = "" \/ ((tok ∉ used_tokens st) /\ used_tokens st1 = {[tok]} ∪ used_tokens st).
Proof.
  unfold authorizeRevoke.
  case_decide; [destruct (ValidateToken _); [case_decide|]|destruct (Crt o), c];
    intros [= <- <- <-]; auto.
Qed.

(** The shape of every outcome of [Revoke]. *)
Lemma Revoke_cases st c o :
  (exists e, (Revoke st c o).2 = Err e /\ revoked (Revoke st c o).1 = revoked st) \/
  (exists prov tok st1, authorizeRevoke st c o = (st1, Ok (prov, tok)) /\
     revoked st !! Serial o = None /\
     Revoke st c o =
       (mkAuthState (<[Serial o := mkRevokedCertificateInfo (Serial o) prov (ReasonCode o)
                       (reason (ReasonCode o)) (MTLS o) (ACME o) (PassiveOnly o) tok]>
                     (revoked st)) (used_tokens st1),
        Ok (mkRevokedCertificateInfo (Serial o) prov (ReasonCode o)
              (reason (ReasonCode o)) (MTLS o) (ACME o) (PassiveOnly o) tok))).
Proof.
  destruct (authorizeRevoke_state st c o) as [Hrev _].
  unfold Revoke. destruct (authorizeRevoke st c o) as [st1 [[prov tok]|e]] eqn:Ha;
    simpl in Hrev; [|left; eauto].
  rewrite Hrev. destruct (revoked st !! Serial o) eqn:Hs; [left; eauto|].
  right. eauto 7.
Qed.

(** A refused revocation leaves the state authentication left. *)
Lemma Revoke_err_state st c o e :
  (Revoke st c o).2 = Err e -> (Revoke st c o).1 = (authorizeRevoke st c o).1.
Proof.
  unfold Revoke. destruct (authorizeRevoke st c o) as [st1 [[p t]|e']]; [|reflexivity].
  destruct (revoked st1 !! Serial o); [reflexivity|discriminate].
Qed.

(** A record survives any revocation. *)
Lemma Revoke_keeps_record st c o sn r :
  revoked st !! sn = Some r -> revoked (Revoke st c o).1 !! sn = Some r.
Proof.
  intros Hr. destruct (Revoke_cases st c o) as [(e & _ & ->) | (p & t & st1 & _ & Hn & ->)];
    [exact Hr|]. simpl. rewrite lookup_insert_ne; [exact Hr|congruence].
Qed.

(** Inversion of a successful [Revoke]. *)
Lemma Revoke_Ok_inv st c o st' r :
  Revoke st c o = (st', Ok r) ->
  revoked st !! Serial o = None /\
  revoked st' = <[Serial o := r]> (revoked st) /\
  rci_Serial r = Serial o /\ rci_ReasonCode r = ReasonCode o /\
  rci_Reason r = reason (ReasonCode o) /\ rci_MTLS r = MTLS o.
Proof.
  destruct (Revoke_cases st c o) as [(e & He & _) | (p & t & st1 & _ & Hn & ->)].
  - intros Hr. rewrite Hr in He. discriminate.
  - intros [= <- <-]. auto 7.
Qed.

(** [Revoke] on a serial that has a record. *)
Lemma Revoke_on_revoked st c o :
  IsRevoked st (Serial o) = true ->
  (Revoke st c o).1 = (authorizeRevoke st c o).1 /\
  ((exists e, (authorizeRevoke st c o).2 = Err e /\ (Revoke st c o).2 = Err e) \/
   ((Revoke st c o).2 = Err (already_revoked_msg (Serial o)) /\
    contains "is already revoked" (already_revoked_msg (Serial o)) = true)).
Proof.
  unfold IsRevoked. rewrite bool_decide_eq_true. intros [r Hr].
  destruct (authorizeRevoke_state st c o) as [Hrev _].
  unfold Revoke. destruct (authorizeRevoke st c o) as [st1 [[prov tok]|e]];
    simpl in *; [|eauto].
  rewrite Hrev, Hr. split; [reflexivity|]. right. split; [reflexivity|].
  unfold already_revoked_msg.
  change "' is already revoked" with ("' " +:+ "is already revoked").
  rewrite !string_app_assoc. apply contains_suffix.
Qed.

(** [Revoke] preserves [store_wf]. *)
Lemma Revoke_wf st c o : store_wf st -> store_wf (Revoke st c o).1.
Proof.
  unfold store_wf, map_Forall. intros Hwf sn r.
  destruct (Revoke_cases st c o) as [(e & He & Hrev) | (p & t & st1 & Ha & Hn & ->)].
  - rewrite Hrev. intros Hr.
    destruct (Hwf sn r Hr) as (? & ? & Ht). split_and!; auto. intros Hne.
    rewrite (Revoke_err_state _ _ _ _ He).
    pose proof (proj2 (authorizeRevoke_state st c o)). set_solver.
  - simpl. rewrite lookup_insert. case_decide as Heq.
    + intros [= <-]. simpl. split_and!; [done|done|]. intros Hne.
      destruct (authorizeRevoke_token _ _ _ _ _ _ Ha) as [->|[_ ->]]; [done|set_solver].
    + intros Hr. destruct (Hwf sn r Hr) as (? & ? & Ht). split_and!; auto. intros Hne.
      pose proof (proj2 (authorizeRevoke_state st c o)) as Hsub. rewrite Ha in Hsub.
      simpl in Hsub. set_solver.
Qed.

(** Every reachable state of the store satisfies the invariant (rule
    induction on [reachable]). *)
Lemma reachable_wf st : reachable st -> store_wf st.
Proof.
  induction 1 as [|st c o _ IH].
  - intros sn r. simpl. rewrite lookup_empty. discriminate.
  - by apply Revoke_wf.
Qed.

(** A one-time token authorizes at most one revocation: after a
    revocation recorded token [t], every request whose token validates to
    the identifier [t] is refused. *)
Lemma Revoke_token_once st c o st' r c' o' claims :
  store_wf st' ->
  Revoke st c o = (st', Ok r) -> rci_TokenID r <> "" ->
  OTT o' <> "" -> ValidateToken (OTT o') = Ok claims -> tc_ID claims = rci_TokenID r ->
  Revoke st' c' o' = (st', Err "authority.Revoke: token already used").
Proof.
  unfold store_wf, map_Forall. intros Hwf HR Ht Ho' Hv Hid.
  destruct (Revoke_Ok_inv _ _ _ _ _ HR) as (_ & Hst' & Hser & _).
  assert (Hin : rci_TokenID r ∈ used_tokens st').
  { apply (Hwf (Serial o) r); [rewrite Hst'; apply lookup_insert_eq | exact Ht]. }
  unfold Revoke, authorizeRevoke. rewrite decide_True by exact Ho'. rewrite Hv.
  rewrite decide_True by (rewrite Hid; exact Hin). reflexivity.
Qed.

Lemma authorizeRevoke_err_state st c o st1 e :
  authorizeRevoke st c o = (st1, Err e) -> st1 = st.
Proof.
  unfold authorizeRevoke.
  case_decide; [destruct (ValidateToken _); [case_decide|]|destruct (Crt o), c];
    congruence.
Qed.

Lemma IsRevoked_true st sn : IsRevoked st sn = true <-> is_Some (revoked st !! sn).
Proof. unfold IsRevoked. apply bool_decide_eq_true. Qed.

(** A token revocation that succeeds consumed its token and wrote the
    record the token's claims describe. *)
Lemma Revoke_with_ott st c o st' r :
  OTT o <> "" -> Revoke st c o = (st', Ok r) ->
  exists claims, ValidateToken (OTT o) = Ok claims /\ (tc_ID claims ∉ used_tokens st) /\
    revoked st !! Serial o = None /\
    st' = mkAuthState (<[Serial o := r]> (revoked st)) ({[tc_ID claims]} ∪ used_tokens st) /\
    r = mkRevokedCertificateInfo (Serial o) (tc_Provisioner claims) (ReasonCode o)
          (reason (ReasonCode o)) (MTLS o) (ACME o) (PassiveOnly o) (tc_ID claims).
Proof.
  intros Ho. unfold Revoke, authorizeRevoke. rewrite decide_True by exact Ho.
  destruct (ValidateToken (OTT o)) as [claims|e]; [|discriminate].
  case_decide; [discriminate|]. simpl.
  destruct (revoked st !! Serial o) eqn:Hs; [discriminate|].
  intros [= <- <-]. eauto 6.
Qed.

(** Consumed tokens stay consumed. *)
Lemma Revoke_tokens_mono st c o : used_tokens st ⊆ used_tokens (Revoke st c o).1.
Proof.
  pose proof (proj2 (authorizeRevoke_state st c o)) as Hs.
  unfold Revoke. destruct (authorizeRevoke st c o) as [st1 [[p t]|e]]; simpl in *; [|exact Hs].
  destruct (revoked st1 !! Serial o); exact Hs.
Qed.

(** The store satisfies the laws the ACME handler relies on. *)
#[global] Instance Store_CALaws : CALaws AuthState.
Proof.
  split; simpl.
  - intros st c o st'. destruct (Revoke st c o) as [s r] eqn:E.
    destruct r as [r|]; simpl; [|discriminate]. intros [= ->].
    destruct (Revoke_Ok_inv _ _ _ _ _ E) as (_ & Hs & _).
    f_equal. apply IsRevoked_true. rewrite Hs, lookup_insert_eq. eauto.
  - intros st c o [= Hr]. destruct (Revoke_on_revoked st c o Hr) as [Hs [(e & Ha & He) | [He Hc]]];
      destruct (Revoke st c o) as [s' r] eqn:E; simpl in *; subst r.
    + exists s', e. split; [reflexivity|]. right. rewrite Hs.
      destruct (authorizeRevoke st c o) eqn:Ea. simpl in *. subst.
      eapply authorizeRevoke_err_state. exact Ea.
    + eexists _, _. split; [reflexivity|]. left. exact Hc.
  - intros st c o st' r sn [= Hr] E. destruct (Revoke st c o) as [s1 r1] eqn:E1.
    injection E as <- _. f_equal. apply IsRevoked_true in Hr as [x Hx].
    apply IsRevoked_true. exists x.
    change s1 with (s1, r1).1. rewrite <- E1. by apply Revoke_keeps_record.
Qed.
End StoreTheorems.

(** A token validator for concrete runs: every token is its own identifier
    and belongs to the provisioner ["jwk-provisioner"]. *)
Definition echo_tokens : TokenValidator :=
  {| ValidateToken t := Ok (mkTokenClaims "jwk-provisioner" t) |}.
