(* ===== verification/Jws.v ===== *)
(** The JWS helpers of the ACME test-suite ([src/acme/api/revoke_test.go],
    lines 75-267, taken from [mholt/acmez]): [jwsHasher], [jwsSign],
    [jwkEncode], [jwsHead], [jwsFinal] and [jwsEncodeJSON], with which the
    tests sign revocation requests with a certificate's key.

    [big.Int.Bytes] is [Bytes] (the absolute value, minimal big-endian,
    computed with fuel the bit length of the number, which is enough);
    [copy] into a zeroed slice is [copy_right]; [fmt.Sprintf("%q")] is
    [quote] ([strconv.Quote]); [json.Marshal] of the claim set is a
    parameter of [jwsEncodeJSON] that may fail.  Hashing and the
    signature primitives are the interface [JWSCrypto].

    Theorems: the size computation of [jwsSign] against the field length
    for a curve of any bit size (right exactly when [b] and [b/8] are both
    or neither multiples of 8: wrong for P-224, 29 bytes for 28, latent
    since [jwsHasher] rejects P-224, and for a 160-bit curve); for every
    supported curve [jwsEncodeJSON] signs the JWS signing input and the
    ECDSA signature is [r] and [s] each left-padded to the curve's byte
    length (RFC 7518, section 3.4), reading back as [r] and [s]; the JWK
    coordinates are padded the same way.  Lemmas: [Bytes] has enough fuel
    and is minimal; which keys are supported; the protected header names
    the key by [jwk] exactly when no key id is given. *)

From S2P Require Import Prelude Crypto Base64.

(** ** Big-endian byte strings *)

(** The value of a big-endian byte string. *)
Definition from_be (bs : bytes) : Z := fold_left (fun acc b => acc * 256 + b)%Z bs 0%Z.

Fixpoint be_fuel (fuel : nat) (n : Z) : bytes :=
  match fuel with
  | O => []
  | S f => if (n <=? 0)%Z then [] else be_fuel f (n / 256) ++ [n mod 256]%Z
  end.

(** The method [Bytes] of [*big.Int]: the absolute value, big-endian, no leading zero. *)
Definition Bytes (n : Z) : bytes := be_fuel (Z.to_nat (Z.log2 (Z.abs n) + 1)) (Z.abs n).

(** [s := make([]byte, size); copy(s[size-len(b):], b)]: [b] right-aligned
    in [size] zero bytes; a [b] longer than [size] makes the slice index
    negative, a run-time panic. *)
Definition copy_right (size : Z) (b : bytes) : option bytes :=
  if (Z.of_nat (length b) <=? size)%Z then Some (repeat 0%Z (Z.to_nat size - length b) ++ b)
  else None.

(** ** Go strings as bytes, and [%q] *)

Definition string_bytes (s : string) : bytes :=
  map (fun c => Z.of_nat (Ascii.nat_of_ascii c)) (String.list_ascii_of_string s).

Definition hex_digit (n : nat) : Ascii.ascii :=
  default "0"%char (String.get n "0123456789abcdef").

(** [strconv.Quote] on a byte string ([appendQuotedWith] with
    [appendEscapedRune]): quotes and backslashes escaped, the seven
    control characters that have a name ([\a \b \f \n \r \t \v]) by it,
    the other non-printable ASCII bytes as [\xHH], and a byte of [128] or
    more, which alone is not UTF-8, as [\xHH] too.  Multi-byte UTF-8 runes
    do not occur: every string quoted here is a base64url text, a curve
    name, an algorithm, a nonce or a URL. *)
Fixpoint quote_chars (s : string) : string :=
  match s with
  | EmptyString => EmptyString
  | String c s' =>
      let n := Ascii.nat_of_ascii c in
      let e :=
        if decide (n = 34)%nat then "\" +:+ dq
        else if decide (n = 92)%nat then "\\"
        else if decide (n = 7)%nat then "\a"
        else if decide (n = 8)%nat then "\b"
        else if decide (n = 12)%nat then "\f"
        else if decide (n = 10)%nat then "\n"
        else if decide (n = 13)%nat then "\r"
        else if decide (n = 9)%nat then "\t"
        else if decide (n = 11)%nat then "\v"
        else if decide (n < 32 \/ 127 <= n)%nat then
          String "\"%char (String "x"%char
            (String (hex_digit (n / 16)%nat) (String (hex_digit (n mod 16)%nat) EmptyString)))
        else String c EmptyString in
      e +:+ quote_chars s'
  end.

Definition quote (s : string) : string := dq +:+ quote_chars s +:+ dq.

(** A JSON member name: ["name":]. *)
Definition member (name : string) : string := dq +:+ name +:+ dq +:+ ":".

(** ** The cryptography the helpers call *)

Class JWSCrypto := {
  (** [sha.New(); Write(b); Sum(nil)] *)
  hash_Sum : Hash -> bytes -> bytes;
  (** [ecdsa.Sign(rand.Reader, key, digest)]: [r] and [s]. *)
  ecdsa_Sign : Curve -> Z -> bytes -> result string (Z * Z);
  (** [key.Sign(rand.Reader, digest, hash)] of any other signer. *)
  signer_Sign : PrivateKey -> bytes -> Hash -> result string bytes;
}.

(** ** The helpers *)

(** [keyID]; [noKeyID] is the empty one. *)
Definition keyID := string.
Definition noKeyID : keyID := "".

Definition errUnsupportedKey : string := "unknown key type; only RSA and ECDSA are supported".

(** [jwsHasher(pub)]: the algorithm name and hash, or the empty name and
    the hash [0]. *)
Definition jwsHasher (pub : PublicKey) : string * Hash :=
  match pub with
  | RSAPublicKey _ _ => ("RS256", SHA256)
  | ECDSAPublicKey crv _ _ =>
      if decide (curve_name crv = "P-256") then ("ES256", SHA256)
      else if decide (curve_name crv = "P-384") then ("ES384", SHA384)
      else if decide (curve_name crv = "P-521") then ("ES512", SHA512)
      else ("", HashNone)
  | OtherPublicKey _ => ("", HashNone)
  end.

(** The half-size [jwsSign] computes from [key.Params().BitSize]:
    [size := BitSize / 8; if size%8 > 0 { size++ }]. *)
Definition jws_sig_size_bits (bits : Z) : Z :=
  let size := bits / 8 in
  if (0 <? size mod 8)%Z then size + 1 else size.

Definition jws_sig_size (crv : Curve) : Z := jws_sig_size_bits (curve_bitsize crv).

Definition slice_panic : string := "runtime error: slice bounds out of range".

Section Helpers.
Context `{JWSCrypto}.

(** [jwsSign(key, hash, digest)] *)
Definition jwsSign (key : PrivateKey) (hash : Hash) (digest : bytes) : result string bytes :=
  match key with
  | ECDSAPrivateKey crv _ _ d =>
      match ecdsa_Sign crv d digest with
      | Err e => Err e
      | Ok (r, s) =>
          let size := jws_sig_size crv in
          match copy_right size (Bytes r), copy_right size (Bytes s) with
          | Some rb, Some sb => Ok (rb ++ sb)
          | _, _ => Err slice_panic
          end
      end
  | _ => signer_Sign key digest hash
  end.

(** The coordinate length [jwkEncode] computes: [BitSize / 8], plus one
    if [BitSize] is not a multiple of 8. *)
Definition jwk_size (crv : Curve) : Z :=
  curve_bitsize crv / 8 + (if decide (curve_bitsize crv mod 8 <> 0)%Z then 1 else 0).

(** [if n > len(x) { x = append(make([]byte, n-len(x)), x...) }] *)
Definition jwk_pad (n : Z) (b : bytes) : bytes :=
  if (Z.of_nat (length b) <? n)%Z then repeat 0%Z (Z.to_nat n - length b) ++ b else b.

(** [jwkEncode(pub)]: the JWK in the field order of RFC 7638. *)
Definition jwkEncode (pub : PublicKey) : result string string :=
  match pub with
  | RSAPublicKey n e =>
      Ok ("{" +:+ member "e" +:+ quote (EncodeToString RawURLEncoding (Bytes e)) +:+ "," +:+
          member "kty" +:+ quote "RSA" +:+ "," +:+
          member "n" +:+ quote (EncodeToString RawURLEncoding (Bytes n)) +:+ "}")
  | ECDSAPublicKey crv x y =>
      let n := jwk_size crv in
      Ok ("{" +:+ member "crv" +:+ quote (curve_name crv) +:+ "," +:+
          member "kty" +:+ quote "EC" +:+ "," +:+
          member "x" +:+ quote (EncodeToString RawURLEncoding (jwk_pad n (Bytes x))) +:+ "," +:+
          member "y" +:+ quote (EncodeToString RawURLEncoding (jwk_pad n (Bytes y))) +:+ "}")
  | OtherPublicKey _ => Err errUnsupportedKey
  end.

(** The protected header before its base64url encoding. *)
Definition jwsHeadJSON (alg nonce u : string) (kid : keyID) (key : PrivateKey) : result string string :=
  let phead := "{" +:+ member "alg" +:+ quote alg in
  match (if decide (kid = noKeyID) then
           match jwkEncode (Public key) with
           | Ok jwk => Ok (phead +:+ "," +:+ member "jwk" +:+ jwk)
           | Err e => Err e
           end
         else Ok (phead +:+ "," +:+ member "kid" +:+ quote kid)) with
  | Err e => Err e
  | Ok phead =>
      let phead := if decide (nonce <> "") then phead +:+ "," +:+ member "nonce" +:+ quote nonce
                   else phead in
      Ok (phead +:+ "," +:+ member "url" +:+ quote u +:+ "}")
  end.

(** [jwsHead(alg, nonce, u, kid, key)] *)
Definition jwsHead (alg nonce u : string) (kid : keyID) (key : PrivateKey) : result string string :=
  match jwsHeadJSON alg nonce u kid key with
  | Err e => Err e
  | Ok phead => Ok (EncodeToString RawURLEncoding (string_bytes phead))
  end.

(** [jwsFinal(sha, sig, phead, payload)]: the flattened JSON serialization
    ([json.Marshal] of the three base64url strings, which need no
    escaping). *)
Definition jwsFinal (sha : Hash) (sig : bytes) (phead payload : string) : result string string :=
  Ok ("{" +:+ member "protected" +:+ dq +:+ phead +:+ dq +:+ "," +:+
      member "payload" +:+ dq +:+ payload +:+ dq +:+ "," +:+
      member "signature" +:+ dq +:+ EncodeToString RawURLEncoding sig +:+ dq +:+ "}").

(** [jwsEncodeJSON(claimset, key, kid, nonce, u)]: [marshal] is
    [json.Marshal] on the claim set's dynamic type, whose error is
    returned; [None] is a [nil] claim set, which signs an empty payload. *)
Definition jwsEncodeJSON {C} (marshal : C -> result string bytes) (claimset : option C)
    (key : PrivateKey) (kid : keyID) (nonce u : string) : result string string :=
  let '(alg, sha) := jwsHasher (Public key) in
  if bool_decide (alg = "") || negb (hash_available sha) then Err errUnsupportedKey
  else
    match jwsHead alg nonce u kid key with
    | Err e => Err e
    | Ok phead =>
        let payload := match claimset with
                       | Some c =>
                           match marshal c with
                           | Err e => Err e
                           | Ok cs => Ok (EncodeToString RawURLEncoding cs)
                           end
                       | None => Ok ""
                       end in
        match payload with
        | Err e => Err e
        | Ok payload =>
            let digest := hash_Sum sha (string_bytes (phead +:+ "." +:+ payload)) in
            match jwsSign key sha digest with
            | Err e => Err e
            | Ok sig => jwsFinal sha sig phead payload
            end
        end
    end.

End Helpers.

(** ** Big-endian lemmas *)

Lemma from_be_app bs b : from_be (bs ++ [b]) = (from_be bs * 256 + b)%Z.
Proof. unfold from_be. by rewrite fold_left_app. Qed.

Lemma from_be_zeros k bs : from_be (repeat 0%Z k ++ bs) = from_be bs.
Proof.
  unfold from_be. rewrite fold_left_app.
  assert (Hz : fold_left (fun acc b => acc * 256 + b)%Z (repeat 0%Z k) 0%Z = 0%Z).
  { induction k as [|k IH]; [reflexivity|]. simpl. exact IH. }
  by rewrite Hz.
Qed.

Lemma be_fuel_spec fuel n : (0 <= n < 256 ^ Z.of_nat fuel)%Z -> from_be (be_fuel fuel n) = n.
Proof.
  revert n. induction fuel as [|f IH]; intros n Hn; simpl.
  - simpl in Hn. assert (n = 0%Z) as -> by lia. reflexivity.
  - destruct (Z.leb_spec n 0); [unfold from_be; simpl; lia|].
    rewrite from_be_app, IH; [zlia|]. rewrite Nat2Z.inj_succ, Z.pow_succ_r in Hn by lia.
    split; [apply Z.div_pos; lia|]. apply Z.div_lt_upper_bound; lia.
Qed.

Lemma be_fuel_length fuel n k : (n < 256 ^ Z.of_nat k)%Z -> (length (be_fuel fuel n) <= k)%nat.
Proof.
  revert n k. induction fuel as [|f IH]; intros n k Hn; simpl; [lia|].
  destruct (Z.leb_spec n 0); [simpl; lia|].
  destruct k as [|k]; [simpl in Hn; lia|].
  rewrite length_app. simpl. enough (length (be_fuel f (n / 256)) <= k)%nat by lia.
  apply IH. rewrite Nat2Z.inj_succ, Z.pow_succ_r in Hn by lia.
  apply Z.div_lt_upper_bound; lia.
Qed.

(** The fuel of [Bytes], the bit length of [n], bounds [n] in bytes. *)
Lemma Bytes_fuel_bound n : (0 <= n)%Z -> (0 <= n < 256 ^ Z.of_nat (Z.to_nat (Z.log2 n + 1)))%Z.
Proof.
  intros Hn. split; [exact Hn|].
  destruct (Z.eq_dec n 0) as [->|Hn0]; [apply Z.pow_pos_nonneg; lia|].
  pose proof (Z.log2_spec n ltac:(lia)) as [_ Hlt].
  rewrite Z2Nat.id by (pose proof (Z.log2_nonneg n); lia).
  eapply Z.lt_le_trans; [exact Hlt|].
  apply Z.pow_le_mono; lia.
Qed.

(** On a non-negative [n], the absolute value is [n]. *)
Lemma Bytes_nonneg n : (0 <= n)%Z -> Bytes n = be_fuel (Z.to_nat (Z.log2 n + 1)) n.
Proof. intros Hn. unfold Bytes. by rewrite Z.abs_eq. Qed.

Lemma Bytes_spec n : (0 <= n)%Z -> from_be (Bytes n) = n.
Proof. intros Hn. rewrite Bytes_nonneg by exact Hn. apply be_fuel_spec, Bytes_fuel_bound, Hn. Qed.

(** Once [n] is below [256^f], more fuel changes nothing. *)
Lemma be_fuel_stable f k n : (0 <= n < 256 ^ Z.of_nat f)%Z -> be_fuel (f + k) n = be_fuel f n.
Proof.
  revert n. induction f as [|f IH]; intros n Hn; simpl.
  - simpl in Hn. assert (n = 0%Z) as -> by lia. by destruct k.
  - destruct (Z.leb_spec n 0); [done|]. rewrite IH; [done|].
    rewrite Nat2Z.inj_succ, Z.pow_succ_r in Hn by lia.
    split; [apply Z.div_pos; lia|]. apply Z.div_lt_upper_bound; lia.
Qed.

(** With enough fuel, the first byte is never zero. *)
Lemma be_fuel_head f n b bs :
  (0 <= n < 256 ^ Z.of_nat f)%Z -> be_fuel f n = b :: bs -> b <> 0%Z.
Proof.
  revert n b bs. induction f as [|f IH]; intros n b bs Hn; simpl; [discriminate|].
  destruct (Z.leb_spec n 0); [discriminate|].
  rewrite Nat2Z.inj_succ, Z.pow_succ_r in Hn by lia.
  assert (Hd : (0 <= n / 256 < 256 ^ Z.of_nat f)%Z).
  { split; [apply Z.div_pos; lia | apply Z.div_lt_upper_bound; lia]. }
  destruct (be_fuel f (n / 256)) as [|b' bs'] eqn:E; simpl.
  - intros [= <- _]. assert (n / 256 <= 0)%Z.
    { destruct f as [|f]; [simpl in Hd; lia|]. simpl in E.
      destruct (Z.leb_spec (n / 256) 0); [lia|]. destruct (be_fuel f _); discriminate. }
    zlia.
  - intros [= <- _]. exact (IH _ _ _ Hd E).
Qed.

Lemma Bytes_length n k : (0 <= n < 256 ^ Z.of_nat k)%Z -> (length (Bytes n) <= k)%nat.
Proof. intros Hn. rewrite Bytes_nonneg by lia. apply be_fuel_length. lia. Qed.

(** A bounded value, right-aligned in [size] bytes, reads back. *)
Lemma copy_right_Bytes size n :
  (0 <= size)%Z -> (0 <= n < 256 ^ size)%Z ->
  exists b, copy_right size (Bytes n) = Some b /\ length b = Z.to_nat size /\ from_be b = n.
Proof.
  intros Hs Hn. pose proof (Bytes_length n (Z.to_nat size)) as Hl.
  rewrite Z2Nat.id in Hl by lia. specialize (Hl ltac:(lia)).
  unfold copy_right. rewrite (proj2 (Z.leb_le _ _)) by lia.
  eexists. split; [reflexivity|]. split.
  - rewrite length_app, repeat_length. lia.
  - rewrite from_be_zeros. apply Bytes_spec. lia.
Qed.


(** A bounded value, left-padded to [size] bytes by [jwk_pad], reads back. *)
Lemma jwk_pad_Bytes size n :
  (0 <= size)%Z -> (0 <= n < 256 ^ size)%Z ->
  length (jwk_pad size (Bytes n)) = Z.to_nat size /\ from_be (jwk_pad size (Bytes n)) = n.
Proof.
  intros Hs Hn. pose proof (Bytes_length n (Z.to_nat size)) as Hl.
  rewrite Z2Nat.id in Hl by lia. specialize (Hl ltac:(lia)).
  unfold jwk_pad. destruct (Z.ltb_spec (Z.of_nat (length (Bytes n))) size).
  - rewrite length_app, repeat_length, from_be_zeros, Bytes_spec by lia. split; [lia | done].
  - rewrite Bytes_spec by lia. split; [lia | done].
Qed.

Lemma jwk_size_bytes crv : jwk_size crv = curve_bytes crv.
Proof. by destruct crv. Qed.

(** ** Fixed-length big-endian strings *)

(** The [k] low bytes of [n], big-endian. *)
Fixpoint be_fixed (k : nat) (n : Z) : bytes :=
  match k with O => [] | S k' => be_fixed k' (n / 256) ++ [n mod 256]%Z end.

Lemma be_fixed_from_be bs : bytes_ok bs -> be_fixed (length bs) (from_be bs) = bs.
Proof.
  induction bs as [|b bs IH] using rev_ind; [done|].
  intros Hok. apply bytes_ok_app in Hok as [Hok Hb]. apply bytes_ok_cons in Hb as [Hb _].
  unfold byte_ok in Hb. rewrite length_app, Nat.add_1_r, from_be_app. simpl.
  rewrite <- (Z.div_unique_pos (from_be bs * 256 + b) 256 (from_be bs) b),
    <- (Z.mod_unique_pos (from_be bs * 256 + b) 256 (from_be bs) b) by lia.
  by rewrite IH.
Qed.

(** Two byte strings of one length with one value are equal. *)
Lemma from_be_inj a b :
  bytes_ok a -> bytes_ok b -> length a = length b -> from_be a = from_be b -> a = b.
Proof.
  intros Ha Hb Hl Hv. rewrite <- (be_fixed_from_be a), <- (be_fixed_from_be b) by done.
  by rewrite Hl, Hv.
Qed.

Lemma from_be_bound bs : bytes_ok bs -> (0 <= from_be bs < 256 ^ Z.of_nat (length bs))%Z.
Proof.
  induction bs as [|b bs IH] using rev_ind; [unfold from_be; simpl; lia|].
  intros Hok. apply bytes_ok_app in Hok as [Hok Hb]. apply bytes_ok_cons in Hb as [Hb _].
  unfold byte_ok in Hb. specialize (IH Hok).
  rewrite length_app, Nat.add_1_r, from_be_app, Nat2Z.inj_succ, Z.pow_succ_r by lia. nia.
Qed.

Lemma be_fuel_ok fuel n : bytes_ok (be_fuel fuel n).
Proof.
  revert n. induction fuel as [|f IH]; intros n; simpl; [constructor|].
  destruct (n <=? 0)%Z; [constructor|]. apply bytes_ok_app. split; [apply IH|].
  apply bytes_ok_cons. split; [|constructor]. unfold byte_ok. apply Z.mod_pos_bound. lia.
Qed.

Lemma jwk_pad_ok n b : bytes_ok b -> bytes_ok (jwk_pad n b).
Proof.
  intros Hb. unfold jwk_pad. destruct (_ <? _)%Z; [|exact Hb].
  apply bytes_ok_app. split; [|exact Hb]. apply Forall_forall. intros x Hx.
  rewrite list_elem_of_In in Hx. apply repeat_spec in Hx as ->. unfold byte_ok. lia.
Qed.

(** A coordinate given as exactly [curve_bytes] bytes is encoded by
    [jwkEncode] as those bytes again, leading zeros included. *)
Lemma jwk_pad_from_be crv bs :
  bytes_ok bs -> length bs = Z.to_nat (curve_bytes crv) ->
  jwk_pad (jwk_size crv) (Bytes (from_be bs)) = bs.
Proof.
  intros Hok Hl. rewrite jwk_size_bytes.
  assert (Hpos : (0 <= curve_bytes crv)%Z) by (destruct crv; vm_compute; discriminate).
  pose proof (from_be_bound bs Hok) as Hb. rewrite Hl, Z2Nat.id in Hb by lia.
  destruct (jwk_pad_Bytes (curve_bytes crv) (from_be bs) Hpos Hb) as [L V].
  apply from_be_inj; [apply jwk_pad_ok, be_fuel_ok | exact Hok | lia | exact V].
Qed.

(** ** Theorems *)

Lemma jwsHasher_ecdsa crv x y : (jwsHasher (ECDSAPublicKey crv x y)).1 <> "" -> crv <> P224.
Proof. destruct crv; simpl; congruence. Qed.

Lemma sig_size_supported crv : crv <> P224 -> jws_sig_size crv = curve_bytes crv.
Proof. destruct crv; [congruence | reflexivity..]. Qed.

Lemma string_bytes_ok s : bytes_ok (string_bytes s).
Proof.
  unfold bytes_ok, string_bytes. apply Forall_forall. intros b Hb.
  apply list_elem_of_fmap in Hb as (c & -> & _). unfold byte_ok.
  pose proof (Ascii.nat_ascii_bounded c). lia.
Qed.

(** [jwsHasher] supports exactly the RSA keys and the ECDSA keys on
    P-256, P-384 and P-521, and the hash it picks for them is available. *)
Theorem jwsHasher_supported pub :
  ((jwsHasher pub).1 <> "" <->
   (exists n e, pub = RSAPublicKey n e) \/ (exists crv x y, pub = ECDSAPublicKey crv x y /\ crv <> P224)) /\
  ((jwsHasher pub).1 <> "" -> hash_available (jwsHasher pub).2 = true).
Proof.
  destruct pub as [n e|crv x y|tag]; [|destruct crv|]; simpl;
    (split; [split|]); try done; try (intros; eauto 6; fail);
    intros [(? & ? & ?) | (? & ? & ? & ? & ?)]; simplify_eq; done.
Qed.

(** (C23) The half-size [jwsSign] computes for a curve of [b] bits,
    compared with the byte length of a field element, [ceil(b / 8)]:
    the code tests [size%8] where it means [BitSize%8], so it adds one
    byte when [b / 8] is not a multiple of 8 and withholds it when [b] is
    not a multiple of 8.  It is right exactly when the two tests agree:
    for P-256, P-384 and P-521, but not for P-224 (29 bytes for 28) or a
    160-bit curve (21 for 20), and one byte short for a 513-bit curve. *)
Theorem jws_sig_size_spec b :
  0 <= b ->
  jws_sig_size_bits b =
    (b + 7) / 8 + (if decide ((b / 8) mod 8 = 0) then 0 else 1)
                - (if decide (b mod 8 = 0) then 0 else 1) /\
  (jws_sig_size_bits b = (b + 7) / 8 <-> (b mod 8 = 0 <-> (b / 8) mod 8 = 0)).
Proof.
  intros Hb. unfold jws_sig_size_bits.
  pose proof (Z.div_mod b 8 ltac:(lia)). pose proof (Z.mod_pos_bound b 8 ltac:(lia)).
  pose proof (Z.div_mod (b + 7) 8 ltac:(lia)). pose proof (Z.mod_pos_bound (b + 7) 8 ltac:(lia)).
  pose proof (Z.mod_pos_bound (b / 8) 8 ltac:(lia)).
  destruct (Z.ltb_spec 0 ((b / 8) mod 8)); repeat case_decide; split; try split; lia.
Qed.

(** For a supported ECDSA key and a signature [(r, s)] whose values
    fit the curve, [jwsSign] returns [r] and [s] each big-endian in the
    curve's byte length: the signature has twice that length (RFC 7518,
    section 3.4) and its halves read back as [r] and [s]. *)
Theorem jwsSign_ecdsa `{JWSCrypto} crv x y d h digest r s :
  (jwsHasher (ECDSAPublicKey crv x y)).1 <> "" ->
  ecdsa_Sign crv d digest = Ok (r, s) ->
  (0 <= r < 256 ^ curve_bytes crv)%Z -> (0 <= s < 256 ^ curve_bytes crv)%Z ->
  exists sig, jwsSign (ECDSAPrivateKey crv x y d) h digest = Ok sig /\
    length sig = (2 * Z.to_nat (curve_bytes crv))%nat /\
    from_be (take (Z.to_nat (curve_bytes crv)) sig) = r /\
    from_be (drop (Z.to_nat (curve_bytes crv)) sig) = s.
Proof.
  intros Hsup Hsign Hr Hs. apply jwsHasher_ecdsa, sig_size_supported in Hsup.
  assert (Hpos : (0 <= curve_bytes crv)%Z) by (destruct crv; vm_compute; discriminate).
  destruct (copy_right_Bytes _ _ Hpos Hr) as (rb & Erb & Lrb & Vrb).
  destruct (copy_right_Bytes _ _ Hpos Hs) as (sb & Esb & Lsb & Vsb).
  exists (rb ++ sb). unfold jwsSign. rewrite Hsign, Hsup, Erb, Esb.
  split_and!; [reflexivity | rewrite length_app; lia | |].
  - by rewrite <- Lrb, take_app_length.
  - by rewrite <- Lrb, drop_app_length.
Qed.

(** (C25) [jwkEncode] computes the coordinate length right for every curve,
    and a coordinate below [256^n] is encoded in exactly [n] bytes that
    read back as the coordinate. *)
Theorem jwk_coordinates crv c :
  jwk_size crv = curve_bytes crv /\
  ((0 <= c < 256 ^ curve_bytes crv)%Z ->
   length (jwk_pad (jwk_size crv) (Bytes c)) = Z.to_nat (curve_bytes crv) /\
   from_be (jwk_pad (jwk_size crv) (Bytes c)) = c).
Proof.
  rewrite jwk_size_bytes. split; [reflexivity|]. apply jwk_pad_Bytes.
  destruct crv; vm_compute; discriminate.
Qed.

(** The protected header is the base64url encoding of its JSON text, and
    decodes back to it. *)
Theorem jwsHead_decodes alg nonce u kid key h :
  jwsHeadJSON alg nonce u kid key = Ok h ->
  exists p, jwsHead alg nonce u kid key = Ok p /\
            DecodeString RawURLEncoding p = Some (string_bytes h).
Proof.
  intros E. unfold jwsHead. rewrite E. eexists. split; [reflexivity|].
  apply decode_encode_unpadded;
    [reflexivity | exact alphabet_table_url | exact no_newline_url | apply string_bytes_ok].
Qed.

(** (C24) [jwsEncodeJSON] end to end, for an ECDSA key on a curve
    [jwsHasher] supports: the digest it signs is that of the JWS signing
    input ["protected.payload"] (RFC 7515, section 5.1), and it returns the
    flattened serialization of [jwsFinal] whose protected header decodes
    back to the header JSON, whose payload decodes back to the claim set,
    and whose signature is [r] then [s], each big-endian in the curve's
    byte length (RFC 7518, section 3.4). *)
Theorem jwsEncodeJSON_ecdsa `{JWSCrypto} {C} (marshal : C -> result string bytes) c crv x y d cs
    kid nonce u hj r s :
  (jwsHasher (ECDSAPublicKey crv x y)).1 <> "" -> marshal c = Ok cs -> bytes_ok cs ->
  jwsHeadJSON (jwsHasher (ECDSAPublicKey crv x y)).1 nonce u kid (ECDSAPrivateKey crv x y d) = Ok hj ->
  let phead := EncodeToString RawURLEncoding (string_bytes hj) in
  let payload := EncodeToString RawURLEncoding cs in
  ecdsa_Sign crv d (hash_Sum (jwsHasher (ECDSAPublicKey crv x y)).2
                              (string_bytes (phead +:+ "." +:+ payload))) = Ok (r, s) ->
  (0 <= r < 256 ^ curve_bytes crv)%Z -> (0 <= s < 256 ^ curve_bytes crv)%Z ->
  exists sig,
    jwsEncodeJSON marshal (Some c) (ECDSAPrivateKey crv x y d) kid nonce u =
      jwsFinal (jwsHasher (ECDSAPublicKey crv x y)).2 sig phead payload /\
    DecodeString RawURLEncoding phead = Some (string_bytes hj) /\
    DecodeString RawURLEncoding payload = Some cs /\
    length sig = (2 * Z.to_nat (curve_bytes crv))%nat /\
    from_be (take (Z.to_nat (curve_bytes crv)) sig) = r /\
    from_be (drop (Z.to_nat (curve_bytes crv)) sig) = s.
Proof.
  intros Hsup Hm Hcs Hh phead payload Hsign Hr Hs.
  destruct (jwsSign_ecdsa crv x y d (jwsHasher (ECDSAPublicKey crv x y)).2 _ r s Hsup Hsign Hr Hs)
    as (sig & Esig & L & R & S).
  destruct (jwsHead_decodes _ _ _ _ _ _ Hh) as (p & Ep & Dp).
  unfold jwsHead in Ep. rewrite Hh in Ep. injection Ep as Ep.
  assert (Hav : hash_available (jwsHasher (ECDSAPublicKey crv x y)).2 = true)
    by exact (proj2 (jwsHasher_supported (ECDSAPublicKey crv x y)) Hsup).
  exists sig. unfold jwsEncodeJSON. simpl Public.
  destruct (jwsHasher (ECDSAPublicKey crv x y)) as [alg sha]. simpl in *.
  rewrite bool_decide_false by exact Hsup. rewrite Hav. simpl. unfold jwsHead. rewrite Hh.
  rewrite Hm. fold phead payload. rewrite Esig. split_and!; try done.
  - subst p. exact Dp.
  - apply decode_encode_unpadded; [reflexivity | exact alphabet_table_url | exact no_newline_url | exact Hcs].
Qed.

(** ** Concrete runs *)

(** A deterministic stand-in for the primitives: the digest is the
    message, [r] is the private scalar and [s] the first two digest bytes. *)
Definition toy_crypto : JWSCrypto :=
  {| hash_Sum _ b := b;
     ecdsa_Sign _ d digest := Ok (d, from_be (take 2 digest));
     signer_Sign _ digest _ := Ok digest |}.

#[local] Existing Instance toy_crypto.

Definition p256_key : PrivateKey := ECDSAPrivateKey P256 11 22 5.

(** [big.Int.Bytes] computed with fuel: the bit length of [n] is
    enough fuel, since more fuel gives the same bytes, and the result is
    the minimal big-endian form of [n]: bytes that read back as [n], with
    no leading zero. *)
Lemma Bytes_fuel_enough n k :
  (0 <= n)%Z ->
  be_fuel (Z.to_nat (Z.log2 n + 1) + k) n = Bytes n /\ from_be (Bytes n) = n /\
  bytes_ok (Bytes n) /\ (forall b bs, Bytes n = b :: bs -> b <> 0%Z).
Proof.
  intros Hn. pose proof (Bytes_fuel_bound n Hn) as Hb.
  rewrite !Bytes_nonneg by exact Hn. split_and!.
  - exact (be_fuel_stable _ k n Hb).
  - exact (be_fuel_spec _ n Hb).
  - apply be_fuel_ok.
  - intros b bs. exact (be_fuel_head _ n b bs Hb).
Qed.

Lemma jwsSign_ecdsa_witness :
  exists sig, jwsSign p256_key SHA256 [1; 2; 3]%Z = Ok sig /\ length sig = 64%nat /\
              from_be (take 32 sig) = 5%Z /\ from_be (drop 32 sig) = 258%Z.
Proof.
  destruct (jwsSign_ecdsa P256 11 22 5 SHA256 [1; 2; 3]%Z 5 258) as (sig & E & L & R & S);
    [discriminate | reflexivity | split; [lia | vm_compute; reflexivity]..|].
  exists sig. split_and!; [exact E | rewrite L; reflexivity | exact R | exact S].
Defined.

Lemma jwk_coordinates_witness :
  length (jwk_pad (jwk_size P256) (Bytes 22)) = 32%nat /\ from_be (jwk_pad (jwk_size P256) (Bytes 22)) = 22%Z.
Proof.
  destruct (proj2 (jwk_coordinates P256 22) ltac:(split; [lia | vm_compute; reflexivity])) as [L V].
  split; [rewrite L; reflexivity | exact V].
Defined.

(** A claim set ["{}"] signed with [p256_key] under key id ["kid-1"]. *)
Definition wit_cs : bytes := [123; 125]%Z.

(** [json.Marshal(struct{}{})]. *)
Definition marshal_empty (_ : unit) : result string bytes := Ok wit_cs.

Definition wit_hj : string :=
  match jwsHeadJSON "ES256" "n1" "https://ca/revoke" "kid-1" p256_key with Ok h => h | Err _ => "" end.

Definition wit_s : Z :=
  from_be (take 2 (string_bytes (EncodeToString RawURLEncoding (string_bytes wit_hj) +:+ "." +:+
                                 EncodeToString RawURLEncoding wit_cs))).

Lemma jwsEncodeJSON_ecdsa_witness :
  exists sig, jwsEncodeJSON marshal_empty (Some tt) p256_key "kid-1" "n1" "https://ca/revoke" =
    jwsFinal SHA256 sig (EncodeToString RawURLEncoding (string_bytes wit_hj))
             (EncodeToString RawURLEncoding wit_cs) /\ length sig = 64%nat.
Proof.
  destruct (jwsEncodeJSON_ecdsa marshal_empty tt P256 11 22 5 wit_cs "kid-1" "n1" "https://ca/revoke"
              wit_hj 5 wit_s)
    as (sig & E & _ & _ & L & _);
    [discriminate | reflexivity | repeat constructor; unfold byte_ok; lia | vm_compute; reflexivity |
     vm_compute; reflexivity | decide_goal | decide_goal |].
  exists sig. split; [exact E | rewrite L; reflexivity].
Defined.

(** A 160-bit curve, a size [elliptic.CurveParams] allows: 21 bytes for
    20. *)
Lemma jws_sig_size_spec_witness :
  (0 <= 160)%Z /\ jws_sig_size_bits 160 = ((160 + 7) / 8 + 1 - 0)%Z /\ jws_sig_size_bits 160 = 21%Z.
Proof.
  split_and!; [lia | rewrite (proj1 (jws_sig_size_spec 160 ltac:(lia))); reflexivity | reflexivity].
Defined.

(** The size computation of [jwsSign] on P-224: 29-byte halves, a 58-byte
    signature where RFC 7518 asks for 56. *)
Example jwsSign_P224_length :
  exists sig, jwsSign (ECDSAPrivateKey P224 1 2 5) SHA256 [1; 2]%Z = Ok sig /\ length sig = 58%nat.
Proof. eexists. split; [reflexivity | vm_compute; reflexivity]. Qed.
