(* ===== verification/Config.v ===== *)
(** The test configuration of the authority, [src/unnamed/part_000] (a
    [ca.json]), as a value, with what the code that reads it requires of
    it.

    The records follow the JSON objects: the authority's files, address
    and TLS options, and its [authority] block with its JWK provisioners,
    each with a public key ([jose.JSONWebKey]) and its private key
    encrypted as a compact JWE.  JSON numbers that the code reads as
    floats (the TLS versions) are kept as the text of the file.

    [jwk_public] reads a key as [go-jose] does for an EC key: one of the
    curves P-256, P-384 and P-521, and [x] and [y] in base64url, each
    exactly as long as a field element of the curve.  Whether the point
    is on the curve is a property of the cryptographic library and is
    not checked; trailing [=] padding, which [go-jose] strips before
    decoding, does not occur in the file and is not modelled.

    Checked by evaluation: the configuration is well formed (every provisioner is a
    JWK provisioner with a signing key that [jwsHasher] accepts under the
    [alg] it names, canonical coordinates, a key id of the length of a
    SHA-256 thumbprint, an encrypted key of five base64url parts; names
    and key ids are distinct).  Theorem: [jwkEncode] of any key read this
    way gives back the coordinates of the file. *)

From S2P Require Import Prelude Crypto Base64 Jws.

(** ** The JSON objects *)

(** A provisioner's public key. *)
Record JSONWebKey := mkJSONWebKey {
  jwk_use : string;
  jwk_kty : string;
  jwk_kid : string;
  jwk_crv : string;
  jwk_alg : string;
  jwk_x : string;
  jwk_y : string;
}.

(** An element of [authority.provisioners]; [claims] is absent except
    for one provisioner. *)
Record ProvisionerConfig := mkProvisionerConfig {
  prov_name : string;
  prov_type : string;
  prov_encryptedKey : string;
  prov_key : JSONWebKey;
  prov_claims : list (string * string);
}.

Record TLSOptions := mkTLSOptions {
  tls_minVersion : string;
  tls_maxVersion : string;
  tls_renegotiation : bool;
  tls_cipherSuites : list string;
}.

Record AuthConfig := mkAuthConfig {
  auth_backdate : string;
  auth_provisioners : list ProvisionerConfig;
  auth_template : list (string * string);
}.

Record CAConfig := mkCAConfig {
  cfg_root : string;
  cfg_federatedRoots : list string;
  cfg_crt : string;
  cfg_key : string;
  cfg_password : string;
  cfg_address : string;
  cfg_dnsNames : list string;
  cfg_logger : list (string * string);
  cfg_tls : TLSOptions;
  cfg_authority : AuthConfig;
}.

(** ** The file *)

Definition ca_json : CAConfig := {|
  cfg_root := "../ca/testdata/secrets/root_ca.crt";
  cfg_federatedRoots := ["../ca/testdata/secrets/federated_ca.crt"];
  cfg_crt := "../ca/testdata/secrets/intermediate_ca.crt";
  cfg_key := "../ca/testdata/secrets/intermediate_ca_key";
  cfg_password := "password";
  cfg_address := "127.0.0.1:0";
  cfg_dnsNames := ["127.0.0.1"];
  cfg_logger := [("format", "text")];
  cfg_tls := {| tls_minVersion := "1.2"; tls_maxVersion := "1.3"; tls_renegotiation := false;
              tls_cipherSuites := ["TLS_ECDHE_ECDSA_WITH_CHACHA20_POLY1305_SHA256"; "TLS_ECDHE_ECDSA_WITH_AES_128_GCM_SHA256"] |};
  cfg_authority := {|
    auth_backdate := "0s";
    auth_provisioners := [
  {| prov_name := "max"; prov_type := "jwk";
     prov_encryptedKey :=
       "eyJhbGciOiJQQkVTMi1IUzI1NitBMTI4S1ciLCJlbmMiOiJBMTI4R0NNIiwicDJjIjoxMDAwMDAsInAycyI6IkpsNkZLWUp4V1UwdGRIbG9UanA1aGcifQ.Qy0EP6u5-t0ggOweoc3Z1DCzR5BllsQi.KUkviZ_TJKY4c0Mi.h7QZqgh_Fl2MZpmVy4h375yC0DORjB1dQULbNqc6MuUCW2iweWVRysFImUXiXMUKRarJC5adwWy1GhyAqUj6Xj1iOZDGLjYnqMETGWcI0rKDBwcSU7y7Y-2VYBRDSM2b7aWtTBfz3_kvEaw_vc3b5CEPJ86UlZc-jhKFRr_IcGWU-vXX5-bppoH15IPreyzi55YdjCll338lYpDecB_Paym3XBXotyd2iGXXUwoA1npEFwuyRMMEhl9zLp7rVcMW6A_32EzB8cZANEnA0C4FXGHQalY6u_2UeqxcC8_FuXPay6VIYODyRqcABvvkft3nwOcrI0pYDGBdk2w2Euk.kOAFq3Tg6s4vBGS_plMpSw";
     prov_key := {| jwk_use := "sig"; jwk_kty := "EC";
                   jwk_kid := "IMi94WBNI6gP5cNHXlZYNUzvMjGdHyBRmFoo-lCEaqk";
                   jwk_crv := "P-256"; jwk_alg := "ES256";
                   jwk_x := "XmaY0c9Cc_kjfn9uhimiDiKnKn00gmFzzsvElg4KxoE";
                   jwk_y := "ZhYcFQBqtErdC_pA7sOXrO7AboCEPIKP9Ik4CHJqANk" |};
     prov_claims := [] |};
  {| prov_name := "mike"; prov_type := "jwk";
     prov_encryptedKey :=
       "eyJhbGciOiJQQkVTMi1IUzI1NitBMTI4S1ciLCJlbmMiOiJBMTI4R0NNIiwicDJjIjoxMDAwMDAsInAycyI6IlZsWnl0dUxrWTR5enlqZXJybnN0aGcifQ.QP15wQYjZ12BLgl-XTq2Vb12G3OHAfic.X35QqAaXwnlmeCUU._2qIUp0TI8yDI7c2e9upIRdrnmB5OvtLfrYN-Su2NLBpaoYtr9O55Wo0Iryc0W2pYqnVDPvgPPes4P4nQAnzw5WhFYc1Xf1ZEetfdNhwi1x2FNwPbACBAgxm5AW40O5AAlbLcWushYASfeMBZocTGXuSGUzwFqoWD-5EDJ80TWQ7cAj3ttHrJ_3QV9hi4O9KJUCiXngN-Yz2zXrhBL4NOH2fmRbaf5c0rF8xUJIIW-TcyYJeX_Fbx1IzzKKPd9USUwkDhxD4tLa51I345xVqjuwG1PEn6nF8JKqLRVUKEKFin-ShXrfE61KceyAvm4YhWKrbJWIm3bH5Hxaphy4.TexIrIhsRxJStpE3EJ925Q";
     prov_key := {| jwk_use := "sig"; jwk_kty := "EC";
                   jwk_kid := "DC06fatJ5nALkfEubR3VVgQ2XNy_DXSKZhwGoRO8cWU";
                   jwk_crv := "P-256"; jwk_alg := "ES256";
                   jwk_x := "SuaL-GJ3LmgBF43Da9ZCY-BzmvlkMJ61MAZ1UELPpTw";
                   jwk_y := "wnqZSMuXpmUxORq20t83LyY4BDYmqDGV9P7FGR6mw84" |};
     prov_claims := [] |};
  {| prov_name := "step-cli"; prov_type := "jwk";
     prov_encryptedKey :=
       "eyJhbGciOiJQQkVTMi1IUzI1NitBMTI4S1ciLCJlbmMiOiJBMTI4R0NNIiwicDJjIjoxMDAwMDAsInAycyI6IlhOdmYxQjgxSUlLMFA2NUkwcmtGTGcifQ.XaN9zcPQeWt49zchUDm34FECUTHfQTn_.tmNHPQDqR3ebsWfd.9WZr3YVdeOyJh36vvx0VlRtluhvYp4K7jJ1KGDr1qypwZ3ziBVSNbYYQ71du7fTtrnfG1wgGTVR39tWSzBU-zwQ5hdV3rpMAaEbod5zeW6SHd95H3Bvcb43YiiqJFNL5sGZzFb7FqzVmpsZ1efiv6sZaGDHtnCAL6r12UG5EZuqGfM0jGCZitUz2m9TUKXJL5DJ7MOYbFfkCEsUBPDm_TInliSVn2kMJhFa0VOe5wZk5YOuYM3lNYW64HGtbf-llN2Xk-4O9TfeSPizBx9ZqGpeu8pz13efUDT2WL9tWo6-0UE-CrG0bScm8lFTncTkHcu49_a5NaUBkYlBjEiw.thPcx3t1AUcWuEygXIY3Fg";
     prov_key := {| jwk_use := "sig"; jwk_kty := "EC";
                   jwk_kid := "4UELJx8e0aS9m0CH3fZ0EB7D5aUPICb759zALHFejvc";
                   jwk_crv := "P-256"; jwk_alg := "ES256";
                   jwk_x := "7ZdAAMZCFU4XwgblI5RfZouBi8lYmF6DlZusNNnsbm8";
                   jwk_y := "sQr2JdzwD2fgyrymBEXWsxDxFNjjqN64qLLSbLdLZ9Y" |};
     prov_claims := [] |};
  {| prov_name := "mariano"; prov_type := "jwk";
     prov_encryptedKey :=
       "eyJhbGciOiJQQkVTMi1IUzI1NitBMTI4S1ciLCJlbmMiOiJBMTI4R0NNIiwicDJjIjoxMDAwMDAsInAycyI6IlB1UnJVQ1RZZkR1T2F5MEh2cGl6bncifQ.7a-OP5xWGbFra8m2MN9YuLGt6v4y0wmB.u-54daK2y-0UO9na.3GQy6E52-fOSUu5NJ_sEbxj_T3CTyWb7wOPFv2oI2PBWXp5CLpiWJbCFpF4v2oD9fN5XbxMP14ootbrFjATnoMWfWgyLwG-KOj9BqMGNxhG2v37yC7Wrris6s30nrPa3uyNEYZ12AOQW1K04cU2X0u_qJM3vzMCle548ZFTWs6_d6L8lp3o0F9MEbCmJ4p6CLqQxjxYtn1aD79lM91NbIXpRP3iUFQRly-y_iC2mSkXCdd_cQ6-dqLUchXwWRyVO5nBHb4J87aZ91VApw7ldTLtwRZ2ZGJpqGQGgjTwi4sgjEcMuGg0_83XGk2ubdlKDpmGFedOHS5rYCbxotts.vSYfxsi2UU9LQeySDjAnnQ";
     prov_key := {| jwk_use := "sig"; jwk_kty := "EC";
                   jwk_kid := "FLIV7q23CXHrg75J2OSbvzwKJJqoxCYixjmsJirneOg";
                   jwk_crv := "P-256"; jwk_alg := "ES256";
                   jwk_x := "tTKthEHN7RuybhkaC43J2oLfBG995FNSWbtahLAiK7Y";
                   jwk_y := "e3wycXwVB366F0wLE5J9gIpq8EIQ4900nHBNpIGebEA" |};
     prov_claims := [("minTLSCertDuration", "1s")] |};
  {| prov_name := "maxey"; prov_type := "jwk";
     prov_encryptedKey :=
       "eyJhbGciOiJQQkVTMi1IUzI1NitBMTI4S1ciLCJlbmMiOiJBMTI4R0NNIiwicDJjIjoxMDAwMDAsInAycyI6Ik5SLTk5ZkVMSm1CLW1FZGllUlFFc3cifQ.Fr314BEUGTda4ICJl2uxFdjpEUGGqJEV.gBbu_DZE1ONDu14r.X-7MKMyokZIF1HTCVqqL0tTWgaC1ZGZBLLltd11ZUhQTswo_8kvgiTv3cFShj7ATF0tAY8HStyJmzLO8mKPVOPDXSwjdNsPriZclI6JWGi9iOu8pEiN9pZM6-itxan1JMcDUNg2U-P1BmKppHRbDKsOTivymfRyeUk51dBIlS54p5xNK1HFLc1YtWC1Rc_ngYVqOgqlhIrCHArAEBe3jrfUaH2ym-8fkVdwVqtxmte3XXK9g8FchsygRNnOKtRcr0TyzTUV-7bPi8_t02Zi-EHLFaSawVXWV_Qk1GeLYJR22Rp74beo-b5-lCNVp10btO0xdGySUWmCJ4v4_QZw.c8unwWycwtfdJMM_0b0fuA";
     prov_key := {| jwk_use := "sig"; jwk_kty := "EC";
                   jwk_kid := "kA5qxq_k8VFc2vzriBUU1FdzHpRfQ5Uq4W3803l1m5U";
                   jwk_crv := "P-256"; jwk_alg := "ES256";
                   jwk_x := "qGXXrT1vgRKVpqLoVwdgIut5VjvxrHa_V4xhh2kQvY0";
                   jwk_y := "8YHQPb031kQ9gMG8ue-YRy0Fm8Gc-v6TnYYLxRGcSjw" |};
     prov_claims := [] |}];
    auth_template := [("country", "US"); ("locality", "San Francisco");
                      ("organization", "Smallstep")] |} |}.

(** ** Reading a key *)

(** The curves [go-jose] reads: P-256, P-384 and P-521. *)
Definition parse_curve (crv : string) : option Curve :=
  if decide (crv = "P-256") then Some P256
  else if decide (crv = "P-384") then Some P384
  else if decide (crv = "P-521") then Some P521
  else None.

(** An EC public key: the curve, and coordinates of exactly the curve's
    byte length. *)
Definition jwk_public (k : JSONWebKey) : option PublicKey :=
  if decide (jwk_kty k = "EC") then
    c ← parse_curve (jwk_crv k);
    x ← DecodeString RawURLEncoding (jwk_x k);
    y ← DecodeString RawURLEncoding (jwk_y k);
    if decide (length x = Z.to_nat (curve_bytes c) /\ length y = Z.to_nat (curve_bytes c))
    then Some (ECDSAPublicKey c (from_be x) (from_be y)) else None
  else None.

(** ** What is required of the file *)

(** [s] is the base64url encoding of what it decodes to. *)
Definition canonical_b64 (s : string) : bool :=
  match DecodeString RawURLEncoding s with
  | Some bs => bool_decide (EncodeToString RawURLEncoding bs = s)
  | None => false
  end.

(** A compact JWE: five base64url parts. *)
Definition jwe_compact_ok (s : string) : bool :=
  let parts := split_on "." s in
  bool_decide (length parts = 5%nat) && forallb (fun p => bool_decide (is_Some (DecodeString RawURLEncoding p))) parts.

Definition provisioner_ok (p : ProvisionerConfig) : bool :=
  let k := prov_key p in
  bool_decide (prov_type p = "jwk") && bool_decide (jwk_use k = "sig") &&
  match jwk_public k with
  | Some pub => bool_decide ((jwsHasher pub).1 <> "" /\ jwk_alg k = (jwsHasher pub).1)
  | None => false
  end &&
  canonical_b64 (jwk_x k) && canonical_b64 (jwk_y k) &&
  match DecodeString RawURLEncoding (jwk_kid k) with
  | Some d => bool_decide (length d = 32%nat)
  | None => false
  end &&
  jwe_compact_ok (prov_encryptedKey p).

Definition config_ok (c : CAConfig) : bool :=
  let ps := auth_provisioners (cfg_authority c) in
  forallb provisioner_ok ps && bool_decide (NoDup (map prov_name ps)) &&
  bool_decide (NoDup (map (fun p => jwk_kid (prov_key p)) ps)).

(** The JWK of RFC 7638 written from the file's strings. *)
Definition jwk_json (k : JSONWebKey) : string :=
  "{" +:+ member "crv" +:+ quote (jwk_crv k) +:+ "," +:+
  member "kty" +:+ quote "EC" +:+ "," +:+
  member "x" +:+ quote (jwk_x k) +:+ "," +:+
  member "y" +:+ quote (jwk_y k) +:+ "}".

(** ** Lemmas *)

Lemma parse_curve_name s c : parse_curve s = Some c -> curve_name c = s.
Proof. unfold parse_curve. repeat case_decide; intros; simplify_eq; reflexivity. Qed.

Lemma jwk_public_inv k pub :
  jwk_public k = Some pub ->
  exists c x y, pub = ECDSAPublicKey c (from_be x) (from_be y) /\ curve_name c = jwk_crv k /\
    DecodeString RawURLEncoding (jwk_x k) = Some x /\ DecodeString RawURLEncoding (jwk_y k) = Some y /\
    length x = Z.to_nat (curve_bytes c) /\ length y = Z.to_nat (curve_bytes c).
Proof.
  unfold jwk_public. case_decide; [|discriminate].
  destruct (parse_curve (jwk_crv k)) as [c|] eqn:Hc; [|discriminate]. simpl.
  destruct (DecodeString _ (jwk_x k)) as [x|] eqn:Hx; [|discriminate]. simpl.
  destruct (DecodeString _ (jwk_y k)) as [y|] eqn:Hy; [|discriminate]. simpl.
  case_decide as Hl; [|discriminate]. intros [= <-].
  exists c, x, y. apply parse_curve_name in Hc. destruct Hl. auto 7.
Qed.

Lemma canonical_b64_spec s bs :
  canonical_b64 s = true -> DecodeString RawURLEncoding s = Some bs ->
  EncodeToString RawURLEncoding bs = s.
Proof. unfold canonical_b64. intros H E. rewrite E in H. by apply bool_decide_eq_true in H. Qed.

(** ** Theorems *)

(** The test configuration is well formed: every provisioner is a
    JWK provisioner whose signing key is an EC key that [jwsHasher]
    accepts under the [alg] the file names, with canonical base64url
    coordinates of the curve's length, a key id of 32 bytes (a SHA-256
    thumbprint) and an encrypted key of five base64url parts; the names
    and the key ids are pairwise distinct. *)
Example ca_json_ok : config_ok ca_json = true.
Proof. vm_compute. reflexivity. Qed.

(** (C26) Round trip of a provisioner key: a key read from its JWK, with
    canonical coordinates, is written back by [jwkEncode] as the JWK of
    the file (RFC 7638 member order), coordinates byte for byte, leading
    zero bytes included. *)
Theorem jwkEncode_jwk_public k pub :
  jwk_public k = Some pub -> canonical_b64 (jwk_x k) = true -> canonical_b64 (jwk_y k) = true ->
  jwkEncode pub = Ok (jwk_json k).
Proof.
  intros Hp Hx Hy. destruct (jwk_public_inv k pub Hp) as (c & x & y & -> & Hn & Dx & Dy & Lx & Ly).
  simpl. rewrite !jwk_pad_from_be by eauto using DecodeString_ok.
  rewrite (canonical_b64_spec _ _ Hx Dx), (canonical_b64_spec _ _ Hy Dy), Hn. reflexivity.
Qed.

(** ** The key of the first provisioner, ["max"] *)

Definition max_key : JSONWebKey :=
  match auth_provisioners (cfg_authority ca_json) with
  | p :: _ => prov_key p
  | [] => mkJSONWebKey "" "" "" "" "" "" ""
  end.

Lemma jwkEncode_jwk_public_witness :
  exists pub, jwk_public max_key = Some pub /\ canonical_b64 (jwk_x max_key) = true /\
    canonical_b64 (jwk_y max_key) = true /\ jwkEncode pub = Ok (jwk_json max_key).
Proof.
  exists (default (OtherPublicKey "") (jwk_public max_key)).
  assert (E : jwk_public max_key = Some (default (OtherPublicKey "") (jwk_public max_key)))
    by (vm_compute; reflexivity).
  assert (Hx : canonical_b64 (jwk_x max_key) = true) by (vm_compute; reflexivity).
  assert (Hy : canonical_b64 (jwk_y max_key) = true) by (vm_compute; reflexivity).
  split_and!; [exact E | exact Hx | exact Hy | exact (jwkEncode_jwk_public _ _ E Hx Hy)].
Defined.
