(* ===== verification/Thumbprint.v ===== *)
(** JWK thumbprints (RFC 7638): the key identifiers of the provisioners
    of [ca.json] ([src/unnamed/part_000]) and the JWK that [jwkEncode]
    of the ACME tests ([src/acme/api/revoke_test.go]) writes, which its
    comment says "is also suitable for creating a JWK thumbprint".

    A thumbprint is the SHA-256 digest of the JWK with its required
    members only, in lexicographic order and without white space,
    encoded in base64url without padding: go-jose's
    [JSONWebKey.Thumbprint(crypto.SHA256)], which [step] uses for the
    [kid] of a provisioner's key.  [sha256] is the hash of FIPS 180-4
    over bytes, its 32-bit words kept in [0, 2^32) by [add32] and
    [ROTR]; it is executable, and checked against the standard test
    vectors.  [jwk_of_members] reads a JWK object as go-jose's
    case-sensitive JSON decoder does: a member the object lacks is the
    empty string, and of two members with the same name the last one is
    kept.

    Checked by evaluation: every provisioner of [ca.json] has as [kid]
    the thumbprint of its key, computed from [jwkEncode].  Lemma: the
    thumbprint of a JWK object depends on its [crv], [kty], [x] and [y]
    members only, so two presentations of one key with their members in
    any order have the same thumbprint (section 8 of the
    specification). *)

From S2P Require Import Prelude Crypto Base64 Jws Config.

(** ** SHA-256 (FIPS 180-4) *)

(** Addition modulo [2^32]. *)
Definition add32 (a b : Z) : Z := Z.land (a + b) (Z.ones 32).

(** [ROTR^n] on a 32-bit word; [SHR^n] is [Z.shiftr]. *)
Definition ROTR (n x : Z) : Z := Z.lor (Z.shiftr x n) (Z.land (Z.shiftl x (32 - n)) (Z.ones 32)).

Definition Ch (x y z : Z) : Z := Z.lxor (Z.land x y) (Z.land (Z.lxor x (Z.ones 32)) z).
Definition Maj (x y z : Z) : Z := Z.lxor (Z.lxor (Z.land x y) (Z.land x z)) (Z.land y z).
Definition Sigma0 (x : Z) : Z := Z.lxor (Z.lxor (ROTR 2 x) (ROTR 13 x)) (ROTR 22 x).
Definition Sigma1 (x : Z) : Z := Z.lxor (Z.lxor (ROTR 6 x) (ROTR 11 x)) (ROTR 25 x).
Definition sigma0 (x : Z) : Z := Z.lxor (Z.lxor (ROTR 7 x) (ROTR 18 x)) (Z.shiftr x 3).
Definition sigma1 (x : Z) : Z := Z.lxor (Z.lxor (ROTR 17 x) (ROTR 19 x)) (Z.shiftr x 10).

(** The first [n] primes, by trial division from [c] on; [acc] holds the
    primes found, the last first. *)
Fixpoint primes_go (fuel n : nat) (c : Z) (acc : list Z) : list Z :=
  match fuel with
  | O => rev acc
  | S f =>
      if (length acc <? n)%nat then
        primes_go f n (c + 1) (if forallb (fun p => negb (c mod p =? 0)) acc then c :: acc else acc)
      else rev acc
  end.

Definition first_primes (n : nat) : list Z := primes_go (n * n + 2) n 2 [].

(** The integer cube root, by bisection of [[lo, hi)]. *)
Fixpoint cbrt_go (fuel : nat) (lo hi x : Z) : Z :=
  match fuel with
  | O => lo
  | S f =>
      if hi - lo <=? 1 then lo
      else let m := (lo + hi) / 2 in
           if m * m * m <=? x then cbrt_go f m hi x else cbrt_go f lo m x
  end.

(** The round constants (4.2.2): the first 32 bits of the fractional
    parts of the cube roots of the first 64 primes (below [311], so the
    cube roots of [p * 2^96] are below [2^36] and 40 bisections find
    them); the initial hash value (5.3.3): those of the square roots of
    the first 8 primes. *)
Definition K256 : list Z :=
  map (fun p => Z.land (cbrt_go 40 0 (2 ^ 36) (p * 2 ^ 96)) (Z.ones 32)) (first_primes 64).

Definition H0 : list Z := map (fun p => Z.land (Z.sqrt (p * 2 ^ 64)) (Z.ones 32)) (first_primes 8).

(** The first and last constants of the tables of the standard. *)
Example K256_H0_tables :
  (length K256 = 64%nat /\ head K256 = Some 0x428a2f98 /\ last K256 = Some 0xc67178f2) /\
  H0 = [0x6a09e667; 0xbb67ae85; 0x3c6ef372; 0xa54ff53a; 0x510e527f; 0x9b05688c; 0x1f83d9ab; 0x5be0cd19].
Proof. vm_compute. split_and!; reflexivity. Qed.

(** [n] bytes of [x], most significant first. *)
Fixpoint be_bytes (n : nat) (x : Z) : bytes :=
  match n with
  | O => []
  | S n' => be_bytes n' (Z.shiftr x 8) ++ [Z.land x 255]
  end.

(** Padding (5.1.1): a [1] bit, zeros up to 56 bytes modulo 64, and the
    length in bits on 8 bytes. *)
Definition pad (m : bytes) : bytes :=
  m ++ [128] ++ repeat 0 ((119 - length m mod 64) mod 64)%nat ++ be_bytes 8 (8 * Z.of_nat (length m)).

(** The sixteen words of a block (5.2.1). *)
Fixpoint words (bs : bytes) : list Z :=
  match bs with
  | b0 :: b1 :: b2 :: b3 :: r => from_be [b0; b1; b2; b3] :: words r
  | _ => []
  end.

(** The message schedule (6.2.2, step 1), built on the reversed list
    whose head is [W(t-1)]. *)
Fixpoint schedule_go (n : nat) (rw : list Z) : list Z :=
  match n with
  | O => rw
  | S n' =>
      let w := add32 (add32 (sigma1 (nth 1 rw 0)) (nth 6 rw 0))
                     (add32 (sigma0 (nth 14 rw 0)) (nth 15 rw 0)) in
      schedule_go n' (w :: rw)
  end.

(** One round (6.2.2, step 3) on the working variables [a..h]. *)
Definition round (v : list Z) (kw : Z * Z) : list Z :=
  match v with
  | [a; b; c; d; e; f; g; h] =>
      let T1 := add32 (add32 (add32 (add32 h (Sigma1 e)) (Ch e f g)) kw.1) kw.2 in
      let T2 := add32 (Sigma0 a) (Maj a b c) in
      [add32 T1 T2; a; b; c; add32 d T1; e; f; g]
  | _ => v
  end.

(** The compression of one block into the hash value (6.2.2, steps 2-4):
    the working variables start as the hash value. *)
Definition compress (h : list Z) (block : bytes) : list Z :=
  zip_with add32 h (fold_left round (zip K256 (rev (schedule_go 48 (rev (words block))))) h).

Fixpoint hash_blocks (n : nat) (h : list Z) (m : bytes) : list Z :=
  match n with
  | O => h
  | S n' => hash_blocks n' (compress h (take 64 m)) (drop 64 m)
  end.

(** [sha256.Sum256(m)]. *)
Definition sha256 (m : bytes) : bytes :=
  let p := pad m in
  mjoin (map (be_bytes 4) (hash_blocks (length p / 64) H0 p)).

(** ** Test vectors *)

Example sha256_empty :
  EncodeToString RawURLEncoding (sha256 []) = "47DEQpj8HBSa-_TImW-5JCeuQeRkm5NMpJWZG3hSuFU".
Proof. vm_compute. reflexivity. Qed.

Example sha256_abc :
  EncodeToString RawURLEncoding (sha256 (string_bytes "abc")) =
    "ungWv48Bz-pBQUDeXa4iI7ADYaOWF3qctBD_YfIAFa0".
Proof. vm_compute. reflexivity. Qed.

(** Four blocks once padded. *)
Example sha256_200 :
  EncodeToString RawURLEncoding (sha256 (repeat 97 200)) =
    "wqkI2Y9d-Yet5BtfziEwZ--8wh7yJAISpB5UtefCiuU".
Proof. vm_compute. reflexivity. Qed.

(** ** Thumbprints *)

(** [Thumbprint(crypto.SHA256)] of a public key, base64url-encoded:
    the digest of the JWK [jwkEncode] writes. *)
Definition Thumbprint (pub : PublicKey) : result string string :=
  j ← jwkEncode pub; Ok (EncodeToString RawURLEncoding (sha256 (string_bytes j))).

(** A JWK object as its text presents it: the members in order. *)
Definition JWKMembers : Type := list (string * string).

(** The value the decoder keeps for [name]: that of the last member so
    named, or the empty string. *)
Definition member_value (ms : JWKMembers) (name : string) : string :=
  fold_left (fun acc kv => if decide (kv.1 = name) then kv.2 else acc) ms "".

Definition jwk_of_members (ms : JWKMembers) : JSONWebKey :=
  mkJSONWebKey (member_value ms "use") (member_value ms "kty") (member_value ms "kid")
    (member_value ms "crv") (member_value ms "alg") (member_value ms "x") (member_value ms "y").

(** The thumbprint of a JWK object: decoded, read as a public key, then
    [Thumbprint]. *)
Definition members_thumbprint (ms : JWKMembers) : result string string :=
  match jwk_public (jwk_of_members ms) with
  | Some pub => Thumbprint pub
  | None => Err "square/go-jose: unknown json web key type"
  end.

(** The members of a key of [ca.json], in the order of the file. *)
Definition file_members (k : JSONWebKey) : JWKMembers :=
  [("use", jwk_use k); ("kty", jwk_kty k); ("kid", jwk_kid k); ("crv", jwk_crv k);
   ("alg", jwk_alg k); ("x", jwk_x k); ("y", jwk_y k)].

(** Whether the [kid] of a provisioner's key is the thumbprint of the key. *)
Definition kid_is_thumbprint (p : ProvisionerConfig) : bool :=
  match jwk_public (prov_key p) with
  | Some pub =>
      match Thumbprint pub with Ok t => bool_decide (t = jwk_kid (prov_key p)) | Err _ => false end
  | None => false
  end.

(** ** Lemmas *)

Lemma length_be_bytes n x : length (be_bytes n x) = n.
Proof.
  revert x. induction n as [|n IH]; intros x; [reflexivity|].
  simpl. rewrite length_app, IH. simpl. lia.
Qed.

Lemma be_bytes_ok n x : bytes_ok (be_bytes n x).
Proof.
  revert x. induction n as [|n IH]; intros x; [constructor|].
  simpl. apply Forall_app. split; [apply IH|]. constructor; [exact (byte_ok_byte x) | constructor].
Qed.

Lemma length_round v kw : length v = 8%nat -> length (round v kw) = 8%nat.
Proof. intros Hv. do 8 (destruct v as [|? v]; try discriminate). by destruct v. Qed.

Lemma length_compress h b : length h = 8%nat -> length (compress h b) = 8%nat.
Proof.
  intros Hh. unfold compress. rewrite length_zip_with, Hh.
  assert (forall l v, length v = 8%nat -> length (fold_left round l v) = 8%nat) as ->; [|done|done].
  induction l as [|kw l IH]; intros v Hv; [exact Hv|]. apply IH, length_round, Hv.
Qed.

Lemma length_hash_blocks n h m : length h = 8%nat -> length (hash_blocks n h m) = 8%nat.
Proof.
  revert h m. induction n as [|n IH]; intros h m Hh; [exact Hh|].
  simpl. apply IH, length_compress, Hh.
Qed.

Lemma pad_arith l : ((l + (1 + ((119 - l mod 64) mod 64 + 8))) mod 64 = 0)%nat.
Proof.
  rewrite (Nat.div_mod_eq l 64) at 1.
  assert (Hr : (l mod 64 < 64)%nat) by (apply Nat.mod_upper_bound; lia).
  set (q := (l / 64)%nat) in *. set (r := (l mod 64)%nat) in *. clearbody q r.
  destruct (decide (r <= 55)%nat).
  - replace ((119 - r) mod 64)%nat with (55 - r)%nat
      by (replace (119 - r)%nat with (55 - r + 1 * 64)%nat by lia;
          rewrite Nat.Div0.mod_add, Nat.mod_small; lia).
    replace (64 * q + r + (1 + (55 - r + 8)))%nat with ((q + 1) * 64)%nat by lia.
    apply Nat.Div0.mod_mul.
  - rewrite (Nat.mod_small (119 - r)) by lia.
    replace (64 * q + r + (1 + (119 - r + 8)))%nat with ((q + 2) * 64)%nat by lia.
    apply Nat.Div0.mod_mul.
Qed.

(** The padded message: the message first, then a whole number of
    64-byte blocks. *)
Lemma pad_spec m : take (length m) (pad m) = m /\ (length (pad m) mod 64 = 0)%nat.
Proof.
  unfold pad. split; [by rewrite take_app_length|].
  rewrite !length_app, repeat_length, length_be_bytes. apply pad_arith.
Qed.

Lemma be_words_spec n l :
  length (mjoin (map (be_bytes n) l)) = (n * length l)%nat /\ bytes_ok (mjoin (map (be_bytes n) l)).
Proof.
  induction l as [|x l [IHl IHo]]; [split; [simpl; lia | constructor]|].
  simpl. rewrite length_app, length_be_bytes, IHl. split; [lia|].
  apply Forall_app. split; [apply be_bytes_ok | exact IHo].
Qed.

(** A digest is 32 bytes, whatever the message. *)
Lemma sha256_spec m : length (sha256 m) = 32%nat /\ bytes_ok (sha256 m).
Proof.
  unfold sha256. destruct (be_words_spec 4 (hash_blocks (length (pad m) / 64) H0 (pad m))) as [Hl Ho].
  rewrite length_hash_blocks in Hl by reflexivity. split; [exact Hl | exact Ho].
Qed.

(** Of a list of members with distinct names, the value of a member it
    holds. *)
Lemma member_value_absent (ms : JWKMembers) (name acc : string) :
  name ∉ ms.*1 ->
  fold_left (fun acc kv => if decide (kv.1 = name) then kv.2 else acc) ms acc = acc.
Proof.
  revert acc. induction ms as [|[k v] ms IH]; intros acc Hn; [reflexivity|].
  simpl. rewrite decide_False by set_solver. apply IH. set_solver.
Qed.

Lemma member_value_elem ms name v :
  NoDup ms.*1 -> (name, v) ∈ ms -> member_value ms name = v.
Proof.
  unfold member_value. generalize "". induction ms as [|[k v'] ms IH]; intros acc Hd Hin.
  - set_solver.
  - simpl in *. apply NoDup_cons in Hd as [Hk Hd]. apply elem_of_cons in Hin as [[= -> ->]|Hin].
    + rewrite decide_True by reflexivity. by apply member_value_absent.
    + by apply IH.
Qed.

(** Reordering members with distinct names changes no value. *)
Lemma member_value_perm ms1 ms2 name :
  NoDup ms1.*1 -> ms1 ≡ₚ ms2 -> member_value ms1 name = member_value ms2 name.
Proof.
  intros Hd Hp. assert (Hd2 : NoDup ms2.*1) by (by rewrite <- Hp).
  destruct (decide (name ∈ ms1.*1)) as [Hin|Hn].
  - apply list_elem_of_fmap in Hin as ([k v] & -> & Hin). simpl.
    rewrite (member_value_elem ms1 k v), (member_value_elem ms2 k v); auto. by rewrite <- Hp.
  - unfold member_value. rewrite !member_value_absent; auto. by rewrite <- Hp.
Qed.

(** Only [crv], [kty], [x] and [y] enter the thumbprint. *)
Lemma members_thumbprint_required ms1 ms2 :
  Forall (fun n => member_value ms1 n = member_value ms2 n) ["crv"; "kty"; "x"; "y"] ->
  members_thumbprint ms1 = members_thumbprint ms2.
Proof.
  intros Hf. rewrite Forall_forall in Hf.
  unfold members_thumbprint, jwk_of_members, jwk_public. cbn [jwk_kty jwk_crv jwk_x jwk_y].
  rewrite !(Hf _) by set_solver. reflexivity.
Qed.

(** Decoding the members of a key as the file presents them gives the key. *)
Lemma jwk_of_file_members k : jwk_of_members (file_members k) = k.
Proof. destruct k. vm_compute. reflexivity. Qed.

Lemma kid_is_thumbprint_spec p :
  kid_is_thumbprint p = true ->
  exists pub, jwk_public (prov_key p) = Some pub /\ Thumbprint pub = Ok (jwk_kid (prov_key p)).
Proof.
  unfold kid_is_thumbprint. destruct (jwk_public (prov_key p)) as [pub|]; [|discriminate].
  destruct (Thumbprint pub) as [t|] eqn:E; [|discriminate]. intros <-%bool_decide_eq_true. eauto.
Qed.

(** ** Theorems *)

(** Every provisioner of [ca.json] has as key id the RFC 7638
    thumbprint of its public key: the key reads as an EC key, and the
    SHA-256 digest of the JWK that [jwkEncode] writes for it, in
    base64url, is the [kid] of the file, also when the thumbprint is
    computed from the key's members as the file presents them.  So the
    comment of [jwkEncode], that its result is suitable for a
    thumbprint, holds of these keys. *)
Example ca_json_kid_thumbprint :
  Forall (fun p => exists pub, jwk_public (prov_key p) = Some pub /\
            Thumbprint pub = Ok (jwk_kid (prov_key p)) /\
            members_thumbprint (file_members (prov_key p)) = Ok (jwk_kid (prov_key p)))
    (auth_provisioners (cfg_authority ca_json)).
Proof.
  assert (Hall : forallb kid_is_thumbprint (auth_provisioners (cfg_authority ca_json)) = true)
    by (vm_compute; reflexivity).
  rewrite forallb_forall in Hall. apply Forall_forall. intros p Hp%list_elem_of_In.
  destruct (kid_is_thumbprint_spec p (Hall p Hp)) as (pub & Hpub & Ht).
  exists pub. unfold members_thumbprint. rewrite jwk_of_file_members, Hpub. auto.
Qed.

(** The thumbprint of a JWK object depends on its [crv], [kty],
    [x] and [y] members only: the other members ([use], [kid], [alg])
    and the order of the members do not change it, as long as no two
    members have the same name (section 8: the thumbprint of one logical
    key is byte-identical however its fields were presented). *)
Lemma thumbprint_presentation ms1 ms2 :
  (Forall (fun n => member_value ms1 n = member_value ms2 n) ["crv"; "kty"; "x"; "y"] ->
   members_thumbprint ms1 = members_thumbprint ms2) /\
  (NoDup ms1.*1 -> ms1 ≡ₚ ms2 -> members_thumbprint ms1 = members_thumbprint ms2).
Proof.
  split; [apply members_thumbprint_required|].
  intros Hd Hp. apply members_thumbprint_required.
  repeat constructor; by apply member_value_perm.
Qed.

(** ** The key of the provisioner ["max"] *)

Definition max_members : JWKMembers := file_members max_key.

(** Two members named [x]: the decoder keeps the last one, so the order
    of the members decides the key, and the thumbprint. *)
Example thumbprint_duplicate_member :
  members_thumbprint (max_members ++ [("x", jwk_y max_key)]) <>
  members_thumbprint (("x", jwk_y max_key) :: max_members).
Proof. vm_compute. discriminate. Qed.
