(* ===== verification/AcmeRevoke.v ===== *)
(** The ACME [revoke-cert] handler ([Handler.RevokeCert] of
    [acme/api/revoke.go]), modelled from section 4.F of the specification
    and from the expectations of [TestHandler_RevokeCert]
    ([src/acme/api/revoke_test.go]).

    The request environment (section 9) is a record of optional values:
    the parsed JWS, the provisioner, the payload, the account and the base
    URL; [None] stands for both a missing and a [nil] context value.  The
    payload value is represented by what [json.Unmarshal] makes of it: a
    [revokePayload], or a malformed document.  The handler is a function of
    the ACME database [D] and of the authority's state [S], reached through
    the interfaces of [Authority.v]; it returns the HTTP response and the
    authority's new state, which only the commit (step 9) changes.

    [revokeCertChecks] is steps 1-8 (everything before the commit), in the
    specification's order; [RevokeCert] adds the commit and the response.
    The theorems follow the definitions: authorization of every 200, the
    error taxonomy, no partial commits, the effect of a commit on the
    store (the record is determined by the payload and the context:
    [commit_effect]), refusal of a replay, and what becomes of a
    certificate sent in standard base64. *)

From S2P Require Import Prelude Crypto Errors Base64 Revocation Authority.

(** ** Accounts and provisioners *)

Inductive AccountStatus := StatusValid | StatusDeactivated | StatusRevoked | StatusInvalid.

#[export] Instance AccountStatus_eq_dec : EqDecision AccountStatus.
Proof. solve_decision. Defined.

Definition status_string (s : AccountStatus) : string :=
  match s with
  | StatusValid => "valid" | StatusDeactivated => "deactivated"
  | StatusRevoked => "revoked" | StatusInvalid => "invalid"
  end.

(** [acme.Account]: its identifier and status. *)
Record Account := mkAccount { acc_ID : string; acc_Status : AccountStatus }.

(** [account.IsValid()] *)
Definition IsValid (a : Account) : bool := bool_decide (acc_Status a = StatusValid).

(** The provisioners the handler can meet: the ACME provisioner, whose
    [AuthorizeRevoke] hook is a no-op, and the test-suite's
    [acme.MockProvisioner] whose hook is [MauthorizeRevoke]. *)
Inductive Provisioner :=
| ACMEProvisioner (Name : string)
| MockProvisioner (Name : string) (MauthorizeRevoke : string -> option string).

Definition GetName (p : Provisioner) : string :=
  match p with ACMEProvisioner n | MockProvisioner n _ => n end.

(** [GetID()]: ["acme/" + name] for an ACME provisioner. *)
Definition GetID (p : Provisioner) : string := "acme/" +:+ GetName p.

(** [AuthorizeRevoke(ctx, token) error]: [None] is a [nil] error. *)
Definition AuthorizeRevoke (p : Provisioner) (token : string) : option string :=
  match p with
  | ACMEProvisioner _ => None
  | MockProvisioner _ f => f token
  end.

(** ** The request *)

(** [revokePayload]: the certificate (base64url DER) and the optional code. *)
Record revokePayload := mkRevokePayload {
  rp_Certificate : string;
  rp_ReasonCode : option Z;
}.

(** The payload bytes of the context, as [json.Unmarshal] reads them. *)
Inductive PayloadValue :=
| PayloadJSON (rp : revokePayload)
| PayloadMalformed.

(** The request environment assembled by the upstream middleware. *)
Record RevokeCtx := mkRevokeCtx {
  ctx_jws : option JSONWebSignature;
  ctx_provisioner : option Provisioner;
  ctx_payload : option PayloadValue;
  ctx_account : option Account;
  ctx_baseURL : option string;
}.

(** The HTTP response: 200 with its [Link] header and an empty body, or a
    problem document. *)
Inductive Response :=
| RespOK (link : string)
| RespErr (e : Acme.Error).

Definition StatusCode (r : Response) : Z :=
  match r with RespOK _ => 200 | RespErr e => Acme.Status e end.

(** ** [url.PathEscape] and the directory link *)

Definition upperhex : string := "0123456789ABCDEF".

(** [shouldEscape(c, encodePathSegment)] *)
Definition shouldEscape (c : Ascii.ascii) : bool :=
  let n := Ascii.nat_of_ascii c in
  if (bool_decide (97 <= n <= 122)%nat || bool_decide (65 <= n <= 90)%nat ||
      bool_decide (48 <= n <= 57)%nat) then false
  else if decide (c = "-"%char \/ c = "_"%char \/ c = "."%char \/ c = "~"%char) then false
  else if decide (c = "$"%char \/ c = "&"%char \/ c = "+"%char \/ c = ":"%char \/
                  c = "="%char \/ c = "@"%char) then false
  else true.

Definition hexdigit (k : nat) : Ascii.ascii := default "0"%char (String.get k upperhex).

(** [url.PathEscape(s)]: each byte that must be escaped becomes [%XX]. *)
Fixpoint PathEscape (s : string) : string :=
  match s with
  | EmptyString => EmptyString
  | String c s' =>
      if shouldEscape c then
        let n := Ascii.nat_of_ascii c in
        String "%"%char (String (hexdigit (n / 16)) (String (hexdigit (n mod 16)) (PathEscape s')))
      else String c (PathEscape s')
  end.

(** [link(linker.GetLink(ctx, DirectoryLinkType), "index")]. *)
Definition directory_link (baseURL : string) (p : Provisioner) : string :=
  "<" +:+ baseURL +:+ "/acme/" +:+ PathEscape (GetName p) +:+ "/directory>;rel=" +:+
  dq +:+ "index" +:+ dq.

(** ** Errors built by the handler *)

(** [wrapUnauthorizedError]: an [unauthorized] problem whose detail names
    the certificate's subject. *)
Definition wrapUnauthorizedError (cert : Certificate) (msg : string) : Acme.Error :=
  let e := Acme.NewError Acme.ErrorUnauthorizedType msg in
  Acme.mkError (Acme.Type_ e) ("No authorization provided for name " +:+ Subject cert)
    (Acme.Status e) (Acme.Err e).

(** An unknown serial: [malformed] with status 404 (step 4). *)
Definition certNotFoundError : Acme.Error :=
  let e := Acme.NewError Acme.ErrorMalformedType "No such certificate" in
  Acme.mkError (Acme.Type_ e) (Acme.Detail e) 404 (Acme.Err e).

(** [wrapRevokeErr]: the authority's "already revoked" error is surfaced as
    [alreadyRevoked] with its message; any other is internal. *)
Definition wrapRevokeErr (err : string) : Acme.Error :=
  if contains "is already revoked" err then Acme.NewError Acme.ErrorAlreadyRevokedType err
  else Acme.WrapErrorISE err "error when revoking certificate".

(** [isAccountAuthorized]: the account must be valid and own the
    certificate. *)
Definition isAccountAuthorized (dbCert : AcmeCertificate) (cert : Certificate)
    (acc : Account) : option Acme.Error :=
  if negb (IsValid acc) then
    Some (wrapUnauthorizedError cert
      ("account '" +:+ acc_ID acc +:+ "' has status '" +:+ status_string (acc_Status acc) +:+ "'"))
  else if decide (AccountID dbCert = acc_ID acc) then None
  else Some (wrapUnauthorizedError cert "account not authorized").

(** ** The handler *)

(** A required value, or the error its absence causes. *)
Definition required {A} (o : option A) (e : Acme.Error) : result Acme.Error A :=
  match o with Some a => Ok a | None => Err e end.

(** [if !cond { return err }] *)
Definition check (b : bool) (e : Acme.Error) : result Acme.Error unit :=
  if b then Ok tt else Err e.

(** An optional error ([*acme.Error] or [error]) as a result. *)
Definition no_error (o : option Acme.Error) : result Acme.Error unit :=
  match o with Some e => Err e | None => Ok tt end.

(** What the checks hand to the commit. *)
Record Checked := mkChecked {
  chk_serial : string;
  chk_cert : Certificate;
  chk_reasonCode : option Z;
  chk_mtls : bool;
  chk_prov : Provisioner;
}.

(** The options committed for a checked request. *)
Definition commitOptions (c : Checked) : RevokeOptions :=
  let o := revokeOptions (chk_serial c) (chk_cert c) (chk_reasonCode c) in
  {| Serial := Serial o; Reason := Reason o; ReasonCode := ReasonCode o;
     PassiveOnly := PassiveOnly o; MTLS := chk_mtls c; ACME := ACME o; Crt := Crt o; OTT := OTT o |}.

Section Handler.
Context `{X509} `{JWSVerifier} {D S : Type} `{AcmeDB D} `{CertificateAuthority S}.

(** Step 5: authenticate the revoker; [Ok mtls] tells whether the
    certificate's own key signed the request. *)
Definition authenticate (ctx : RevokeCtx) (jws : JSONWebSignature) (dbCert : AcmeCertificate)
    (cert : Certificate) : result Acme.Error bool :=
  match HeaderKey (Protected jws) with
  | KID _ =>
      acc ← required (ctx_account ctx)
              (Acme.NewError Acme.ErrorAccountDoesNotExistType "account not in context");
      _ ← no_error (isAccountAuthorized dbCert cert acc);
      Ok false
  | JWK _ =>
      match jws_Verify jws (CrtPublicKey cert) with
      | Ok _ => Ok true
      | Err _ => Err (wrapUnauthorizedError cert
                        "verification of jws using certificate public key failed")
      end
  end.

(** The token handed to the provisioner's hook: the [kid], if any. *)
Definition hook_token (jws : JSONWebSignature) : string :=
  match HeaderKey (Protected jws) with KID k => k | JWK _ => "" end.

(** Steps 1-8 of section 4.F. *)
Definition revokeCertChecks (d : D) (s : S) (ctx : RevokeCtx) : result Acme.Error Checked :=
  jws ← required (ctx_jws ctx) (Acme.NewErrorISE "jws expected in request context");
  prov ← required (ctx_provisioner ctx) (Acme.NewErrorISE "provisioner does not exist");
  payload ← required (ctx_payload ctx) (Acme.NewErrorISE "payload does not exist");
  p ← match payload with
      | PayloadJSON p => Ok p
      | PayloadMalformed => Err (Acme.WrapErrorISE "invalid JSON" "error unmarshaling payload")
      end;
  certBytes ← required (DecodeString RawURLEncoding (rp_Certificate p))
                (Acme.WrapError Acme.ErrorMalformedType "illegal base64 data"
                   "error base64url decoding payload certificate property");
  _ ← check (bool_decide (certBytes <> [])) (Acme.NewError Acme.ErrorMalformedType "empty certificate");
  cert ← required (ParseCertificate certBytes)
           (Acme.WrapError Acme.ErrorMalformedType "x509: malformed certificate"
              "error parsing certificate");
  let serial := serial_string (SerialNumber cert) in
  dbCert ← match GetCertificateBySerial d serial with
           | DbFound c => Ok c
           | DbNotFound => Err certNotFoundError
           | DbError m => Err (Acme.WrapErrorISE m "error retrieving certificate by serial")
           end;
  mtls ← authenticate ctx jws dbCert cert;
  _ ← no_error (validateReasonCode (rp_ReasonCode p));
  isRev ← map_err (fun m => Acme.WrapErrorISE m "error retrieving revocation status of certificate")
            (ca_IsRevoked s serial);
  _ ← check (negb isRev) (Acme.NewError Acme.ErrorAlreadyRevokedType "certificate was already revoked");
  _ ← no_error ((fun m => Acme.WrapErrorISE m "error authorizing revocation on provisioner") <$>
              AuthorizeRevoke prov (hook_token jws));
  Ok (mkChecked serial cert (rp_ReasonCode p) mtls prov).

(** [Handler.RevokeCert]: the checks, the commit (step 9) and the
    response (step 10). *)
Definition RevokeCert (d : D) (s : S) (ctx : RevokeCtx) : Response * S :=
  match revokeCertChecks d s ctx with
  | Err e => (RespErr e, s)
  | Ok c =>
      match ca_Revoke s (Some (GetID (chk_prov c))) (commitOptions c) with
      | (s', Ok _) =>
          (RespOK (directory_link (default "" (ctx_baseURL ctx)) (chk_prov c)), s')
      | (s', Err e) => (RespErr (wrapRevokeErr e), s')
      end
  end.

End Handler.

(** ** Properties of the handler

    - [revokeCertChecks_ok]: what a request that passes steps 1-8 satisfies.
    - Safety: a 200 response needs a valid owner account or the
      certificate's own key, an allowed reason code, a serial that was not
      revoked, and the provisioner's consent.
    - The error taxonomy of section 7: every problem document carries the
      status of its type (or 404 for an unknown serial).
    - Against the real store ([Store_CA]): a refused request changes nothing
      (no partial commits); an accepted one adds exactly the record of its
      serial, with the table's reason text; a second identical request is
      refused as [alreadyRevoked]. *)

(** Inversion of the handler's combinators. *)
Lemma required_Ok {A} (o : option A) e a : required o e = Ok a <-> o = Some a.
Proof. destruct o; simpl; split; congruence. Qed.

Lemma check_Ok b e u : check b e = Ok u <-> b = true.
Proof. destruct b, u; simpl; split; congruence. Qed.

Lemma no_error_Ok o u : no_error o = Ok u <-> o = None.
Proof. destruct o, u; simpl; split; congruence. Qed.

Lemma map_err_Ok {E E' A} (f : E -> E') (r : result E A) a : map_err f r = Ok a <-> r = Ok a.
Proof. destruct r; simpl; split; congruence. Qed.

Lemma fmap_None {A B} (f : A -> B) (o : option A) : f <$> o = None <-> o = None.
Proof. destruct o; simpl; split; congruence. Qed.

Lemma required_Some {A} (a : A) e : required (Some a) e = Ok a.
Proof. reflexivity. Qed.

Lemma check_true e : check true e = Ok tt.
Proof. reflexivity. Qed.

Lemma no_error_None : no_error None = Ok tt.
Proof. reflexivity. Qed.

(** Run the handler's chain forward through steps whose outcome is known. *)
Ltac run_ok :=
  repeat (rewrite ?required_Some, ?check_true, ?no_error_None, ?bind_Ok; cbv beta iota).

Create HintDb handler.
Create Rewrite HintDb handler.
#[export] Hint Rewrite @required_Ok check_Ok no_error_Ok @map_err_Ok @fmap_None : handler.

(** Split a successful chain of binds into its steps. *)
Ltac split_ok H :=
  repeat match type of H with
  | (_ ≫= _) = Ok _ =>
      let a := fresh "a" in let Ha := fresh "Ha" in
      apply bind_eq_Ok in H as (a & Ha & H); cbv beta zeta in H;
      autorewrite with handler in Ha
  end.

Lemma commitOptions_OTT c : OTT (commitOptions c) = "".
Proof. unfold commitOptions. destruct (chk_reasonCode c); reflexivity. Qed.

Lemma commitOptions_Crt c : Crt (commitOptions c) = Some (chk_cert c).
Proof. unfold commitOptions. destruct (chk_reasonCode c); reflexivity. Qed.

Lemma commitOptions_Serial c : Serial (commitOptions c) = chk_serial c.
Proof. unfold commitOptions. destruct (chk_reasonCode c); reflexivity. Qed.

(** ** The error taxonomy of section 7 *)

(** A problem document carries the HTTP status of its type; the one
    exception is the unknown serial, a [malformed] problem with 404. *)
Definition taxonomy_ok (e : Acme.Error) : Prop :=
  Acme.Status e = Acme.default_status (Acme.Type_ e) \/
  (Acme.Type_ e = Acme.ErrorMalformedType /\ Acme.Status e = 404).

Definition tax_result {A} (r : result Acme.Error A) : Prop :=
  match r with Err e => taxonomy_ok e | Ok _ => True end.

Lemma tax_bind {A B} (r : result Acme.Error A) (f : A -> result Acme.Error B) :
  tax_result r -> (forall a, tax_result (f a)) -> tax_result (r ≫= f).
Proof. destruct r; simpl; auto. Qed.

Lemma tax_NewError t m : taxonomy_ok (Acme.NewError t m).
Proof. by left. Qed.

Lemma tax_unauthorized cert m : taxonomy_ok (wrapUnauthorizedError cert m).
Proof. by left. Qed.

Lemma tax_notfound : taxonomy_ok certNotFoundError.
Proof. by right. Qed.

Lemma tax_revokeErr m : taxonomy_ok (wrapRevokeErr m).
Proof. unfold wrapRevokeErr. destruct (contains _ _); by left. Qed.

Lemma tax_required {A} (o : option A) e : taxonomy_ok e -> tax_result (required o e).
Proof. destruct o; simpl; auto. Qed.

Lemma tax_check b e : taxonomy_ok e -> tax_result (check b e).
Proof. destruct b; simpl; auto. Qed.

Lemma tax_no_error o : (forall e, o = Some e -> taxonomy_ok e) -> tax_result (no_error o).
Proof. destruct o; simpl; auto. Qed.

Lemma tax_WrapError t err m : taxonomy_ok (Acme.WrapError t err m).
Proof. by left. Qed.

Lemma tax_NewErrorISE m : taxonomy_ok (Acme.NewErrorISE m).
Proof. by left. Qed.

Lemma tax_WrapErrorISE err m : taxonomy_ok (Acme.WrapErrorISE err m).
Proof. by left. Qed.

Lemma tax_map_err {A} (f : string -> Acme.Error) (r : result string A) :
  (forall m, taxonomy_ok (f m)) -> tax_result (map_err f r).
Proof. destruct r; simpl; auto. Qed.

#[export] Hint Resolve tax_WrapError tax_NewErrorISE tax_WrapErrorISE tax_map_err : handler.
#[export] Hint Resolve tax_NewError tax_unauthorized tax_notfound tax_revokeErr
  tax_required tax_check : handler.

(** Decompose a chain of binds into its steps. *)
Ltac tax_steps :=
  repeat (apply tax_bind; [|intros ?]);
  try (apply tax_no_error; intros ? ?);
  repeat (first [ apply tax_required | apply tax_check ]; auto with handler).

Section HandlerProps.
Context `{X509} `{JWSVerifier} {D S : Type} `{AcmeDB D} `{CertificateAuthority S}.

(** A request that passes the checks met every condition of steps 1-8. *)
Lemma revokeCertChecks_ok d s ctx c :
  revokeCertChecks d s ctx = Ok c ->
  exists jws p certBytes dbCert,
    ctx_jws ctx = Some jws /\ ctx_provisioner ctx = Some (chk_prov c) /\
    ctx_payload ctx = Some (PayloadJSON p) /\
    DecodeString RawURLEncoding (rp_Certificate p) = Some certBytes /\ certBytes <> [] /\
    ParseCertificate certBytes = Some (chk_cert c) /\
    chk_serial c = serial_string (SerialNumber (chk_cert c)) /\
    GetCertificateBySerial d (chk_serial c) = DbFound dbCert /\
    authenticate ctx jws dbCert (chk_cert c) = Ok (chk_mtls c) /\
    validateReasonCode (rp_ReasonCode p) = None /\ chk_reasonCode c = rp_ReasonCode p /\
    ca_IsRevoked s (chk_serial c) = Ok false /\
    AuthorizeRevoke (chk_prov c) (hook_token jws) = None.
Proof.
  unfold revokeCertChecks. intros Hc. split_ok Hc.
  injection Hc as <-. simpl.
  destruct a1 as [p|]; [|discriminate]. injection Ha2 as <-.
  rewrite bool_decide_eq_true in Ha4. rewrite negb_true_iff in Ha10. subst.
  exists a, p, a3, a6. split_and!; auto.
  destruct (GetCertificateBySerial _ _); congruence.
Qed.
(** The checks read the authority's state only through [IsRevoked]: a
    request that passed them in one state passes them, with the same
    result, in any state where its serial is not revoked, and is refused
    at step 7 in any state where it is. *)
Lemma revokeCertChecks_other_state d s s' ctx c b :
  revokeCertChecks d s ctx = Ok c -> ca_IsRevoked s' (chk_serial c) = Ok b ->
  revokeCertChecks d s' ctx =
    if b then Err (Acme.NewError Acme.ErrorAlreadyRevokedType "certificate was already revoked")
    else Ok c.
Proof.
  intros Hc Hr.
  destruct (revokeCertChecks_ok _ _ _ _ Hc)
    as (jws & p & cb & dbCert & Hj & Hpr & Hp & Hdec & Hne & Hparse & Hser & Hdb & Ha & Hrc & Hrc' & _ & Hau).
  unfold revokeCertChecks. rewrite Hj, Hpr, Hp. run_ok. rewrite Hdec. run_ok.
  rewrite (bool_decide_eq_true_2 _ Hne). run_ok. rewrite Hparse. run_ok.
  rewrite <- Hser, Hdb. run_ok. rewrite Ha. run_ok. rewrite Hrc. run_ok.
  rewrite Hr. destruct b; [reflexivity|]. simpl. rewrite Hau. simpl.
  rewrite <- Hrc'. by destruct c.
Qed.

Lemma revokeCertChecks_now_revoked d s s' ctx c :
  revokeCertChecks d s ctx = Ok c -> ca_IsRevoked s' (chk_serial c) = Ok true ->
  revokeCertChecks d s' ctx =
    Err (Acme.NewError Acme.ErrorAlreadyRevokedType "certificate was already revoked").
Proof. apply revokeCertChecks_other_state. Qed.

(** What a successful authentication means on each path. *)
Lemma authenticate_ok ctx jws dbCert cert m :
  authenticate ctx jws dbCert cert = Ok m ->
  (exists kid acc, HeaderKey (Protected jws) = KID kid /\ ctx_account ctx = Some acc /\
     IsValid acc = true /\ AccountID dbCert = acc_ID acc /\ m = false) \/
  (exists k pl, HeaderKey (Protected jws) = JWK k /\
     jws_Verify jws (CrtPublicKey cert) = Ok pl /\ m = true).
Proof.
  unfold authenticate. destruct (HeaderKey (Protected jws)) as [kid|k] eqn:Hk.
  - intros Hm. split_ok Hm. injection Hm as <-. left. exists kid, a.
    unfold isAccountAuthorized in Ha0.
    destruct (IsValid a) eqn:Hv; simpl in Ha0; [|discriminate].
    case_decide; [|discriminate]. auto.
  - destruct (jws_Verify _ _) as [pl|] eqn:Hv; intros Hm; [|discriminate].
    injection Hm as <-. right. eauto.
Qed.

(** The response of a request that passed the checks is decided by the
    commit alone. *)
Lemma RevokeCert_checked d s ctx c :
  revokeCertChecks d s ctx = Ok c ->
  RevokeCert d s ctx =
    match ca_Revoke s (Some (GetID (chk_prov c))) (commitOptions c) with
    | (s', Ok _) => (RespOK (directory_link (default "" (ctx_baseURL ctx)) (chk_prov c)), s')
    | (s', Err e) => (RespErr (wrapRevokeErr e), s')
    end.
Proof. intros Hc. unfold RevokeCert. by rewrite Hc. Qed.

Lemma RevokeCert_OK_inv d s ctx l s' :
  RevokeCert d s ctx = (RespOK l, s') ->
  exists c, revokeCertChecks d s ctx = Ok c /\
    ca_Revoke s (Some (GetID (chk_prov c))) (commitOptions c) = (s', Ok tt).
Proof.
  unfold RevokeCert. destruct (revokeCertChecks d s ctx) as [c|e]; [|discriminate].
  destruct (ca_Revoke _ _ _) as [s1 [[]|e]] eqn:E; intros [= _ <-]. eauto.
Qed.

(** What a 200 response certifies (section 4.F steps 1-9): the request
    was either signed for a valid account that owns the certificate
    ([kid] path, committed without mTLS), or signed by the certificate's
    own key ([jwk] path, committed with [MTLS = true]); the certificate is
    known to the database and was not revoked, the reason code is
    allowed, the provisioner consented, and the commit succeeded. *)
Definition revocation_authorized d s ctx s' : Prop :=
  exists jws c dbCert p,
    ctx_jws ctx = Some jws /\ ctx_payload ctx = Some (PayloadJSON p) /\
    GetCertificateBySerial d (chk_serial c) = DbFound dbCert /\
    ((exists kid acc, HeaderKey (Protected jws) = KID kid /\ ctx_account ctx = Some acc /\
        IsValid acc = true /\ AccountID dbCert = acc_ID acc /\ MTLS (commitOptions c) = false) \/
     (exists k pl, HeaderKey (Protected jws) = JWK k /\
        jws_Verify jws (CrtPublicKey (chk_cert c)) = Ok pl /\ MTLS (commitOptions c) = true)) /\
    validateReasonCode (rp_ReasonCode p) = None /\
    ca_IsRevoked s (chk_serial c) = Ok false /\
    AuthorizeRevoke (chk_prov c) (hook_token jws) = None /\
    ca_Revoke s (Some (GetID (chk_prov c))) (commitOptions c) = (s', Ok tt).

(** (C1) Authorization: every 200 response of the handler is a revocation
    authorized in the sense of [revocation_authorized]. *)
Theorem RevokeCert_OK_authorized d s ctx l s' :
  RevokeCert d s ctx = (RespOK l, s') -> revocation_authorized d s ctx s'.
Proof.
  intros HR. destruct (RevokeCert_OK_inv _ _ _ _ _ HR) as (c & Hc & Hrev).
  destruct (revokeCertChecks_ok _ _ _ _ Hc)
    as (jws & p & cb & dbCert & Hj & _ & Hp & _ & _ & _ & _ & Hdb & Ha & Hrc & _ & Hir & Hau).
  exists jws, c, dbCert, p. split_and!; auto.
  destruct (authenticate_ok _ _ _ _ _ Ha) as [(kid & acc & ?&?&?&?&?)|(k & pl & ?&?&?)];
    [left | right]; simpl; eauto 8.
Qed.

(** (C3) Idempotency (sections 4.G and 8): against any authority that
    obeys [CALaws], once a request has been answered 200, replaying it
    is refused with [alreadyRevoked] (400) and changes nothing. *)
Theorem RevokeCert_replay_refused `{!CALaws S} d s ctx l s' :
  RevokeCert d s ctx = (RespOK l, s') ->
  RevokeCert d s' ctx =
    (RespErr (Acme.NewError Acme.ErrorAlreadyRevokedType "certificate was already revoked"), s').
Proof.
  intros HR. destruct (RevokeCert_OK_inv _ _ _ _ _ HR) as (c & Hc & Hrev).
  apply ca_revoke_visible in Hrev. rewrite commitOptions_Serial in Hrev.
  unfold RevokeCert. by rewrite (revokeCertChecks_now_revoked _ _ _ _ _ Hc Hrev).
Qed.
Lemma tax_authenticate ctx jws dbCert cert : tax_result (authenticate ctx jws dbCert cert).
Proof.
  unfold authenticate. destruct (HeaderKey _).
  - apply tax_bind; [auto with handler|]. intros acc. apply tax_bind; [|done].
    apply tax_no_error. unfold isAccountAuthorized. intros e.
    destruct (IsValid acc); simpl; [case_decide|]; intros; simplify_eq; auto with handler.
  - destruct (jws_Verify _ _); simpl; auto with handler.
Qed.

Lemma tax_checks d s ctx : tax_result (revokeCertChecks d s ctx).
Proof.
  unfold revokeCertChecks.
  repeat (apply tax_bind; [|intros ?]);
    first [ done | solve [auto with handler] | apply tax_authenticate
          | (apply tax_no_error; intros ?e ?He; revert He;
             unfold validateReasonCode; try destruct (AuthorizeRevoke _ _);
             repeat case_match; simpl; intros; simplify_eq; auto with handler)
          | (repeat case_match; simpl; auto with handler) ].
Qed.

(** (C5) Error taxonomy (section 7): every problem document the handler
    sends carries the HTTP status of its type ([malformed],
    [badRevocationReason], [alreadyRevoked], [accountDoesNotExist]: 400;
    [unauthorized]: 403; [serverInternal]: 500), except the unknown
    serial, [malformed] with 404. *)
Theorem RevokeCert_error_taxonomy d s ctx e s' :
  RevokeCert d s ctx = (RespErr e, s') -> taxonomy_ok e.
Proof.
  unfold RevokeCert. pose proof (tax_checks d s ctx) as Ht.
  destruct (revokeCertChecks d s ctx) as [c|e']; [|intros [= <- _]; exact Ht].
  destruct (ca_Revoke _ _ _) as [s1 [u|m]]; intros [= <- _]. apply tax_revokeErr.
Qed.

(** (C6) A certificate encoded with standard base64 (section 8: such a
    request is [malformed]): the handler decodes the certificate with
    [RawURLEncoding] only.  When the DER length is not a multiple of
    three, the standard encoding is padded and the request is refused as
    malformed ("illegal base64 data") without touching the state; but
    an encoding without [+], [/] and [=] is answered exactly as the
    request carrying the URL encoding of the same bytes, so it is not
    refused as malformed. *)
Theorem RevokeCert_std_encoded_certificate d s ctx jws prov der rc :
  ctx_jws ctx = Some jws -> ctx_provisioner ctx = Some prov -> bytes_ok der ->
  ctx_payload ctx = Some (PayloadJSON (mkRevokePayload (EncodeToString StdEncoding der) rc)) ->
  ((length der mod 3 <> 0)%nat ->
     RevokeCert d s ctx =
       (RespErr (Acme.WrapError Acme.ErrorMalformedType "illegal base64 data"
                   "error base64url decoding payload certificate property"), s)) /\
  (url_safe_std (EncodeToString StdEncoding der) ->
     RevokeCert d s ctx =
       RevokeCert d s (mkRevokeCtx (ctx_jws ctx) (ctx_provisioner ctx)
         (Some (PayloadJSON (mkRevokePayload (EncodeToString RawURLEncoding der) rc)))
         (ctx_account ctx) (ctx_baseURL ctx))).
Proof.
  intros Hj Hpr Hb Hp. split.
  - intros Hlen.
    assert (E : DecodeString RawURLEncoding (EncodeToString StdEncoding der) = None).
    { destruct (DecodeString _ _) as [bs'|] eqn:E; [|done].
      by destruct (std_encoding_under_url_decoder der bs' Hb E). }
    unfold RevokeCert, revokeCertChecks. rewrite Hj, Hpr, Hp. simpl. by rewrite E.
  - intros Hs. rewrite <- (std_url_same der Hs), <- Hp. by destruct ctx.
Qed.
End HandlerProps.

(** ** Against the authority's store *)

Section StoreHandler.
Context `{X509} `{JWSVerifier} `{TokenValidator} {D : Type} `{AcmeDB D}.

(** Without a one-time token, authentication leaves the store alone. *)
Lemma authorizeRevoke_no_ott st c o : OTT o = "" -> (authorizeRevoke st c o).1 = st.
Proof.
  intros Ho. unfold authorizeRevoke. rewrite decide_False by (rewrite Ho; auto).
  destruct (Crt o), c; reflexivity.
Qed.

Lemma authorizeRevoke_ack st p o crt :
  OTT o = "" -> Crt o = Some crt -> authorizeRevoke st (Some p) o = (st, Ok (p, "")).
Proof.
  intros Ho Hc. unfold authorizeRevoke. rewrite decide_False by (rewrite Ho; auto).
  by rewrite Hc.
Qed.

Lemma ca_Revoke_store st c o :
  ca_Revoke st c o = ((Revoke st c o).1, (fun _ => tt) <$> (Revoke st c o).2).
Proof. simpl. by destruct (Revoke st c o). Qed.

(** (C4) No partial commits (section 7): a request the handler refuses
    leaves the authority's store exactly as it was. *)
Theorem RevokeCert_error_no_change d (st : AuthState) ctx e st' :
  RevokeCert d st ctx = (RespErr e, st') -> st' = st.
Proof.
  unfold RevokeCert. destruct (revokeCertChecks d st ctx) as [c|e'] eqn:Hc;
    [|congruence].
  rewrite ca_Revoke_store. destruct (Revoke st _ _) as [st1 [r|e1]] eqn:E; simpl;
    [discriminate|]. intros [= _ <-].
  change st1 with (st1, @Err string RevokedCertificateInfo e1).1. rewrite <- E.
  rewrite (Revoke_err_state _ _ _ e1) by (rewrite E; reflexivity).
  apply authorizeRevoke_no_ott, commitOptions_OTT.
Qed.

(** The effect of a commit on the store, in terms of the request: the
    certificate of the payload (base64url DER) parsed, its serial had no
    record and now has exactly one, with the payload's reason code (0
    when absent) and the table's text for it, marked mTLS exactly when
    the JWS was signed with an embedded [jwk] (the certificate-key
    path), ACME, not passive, with the context's provisioner and no
    token; no token is consumed. *)
Definition commit_effect (st : AuthState) ctx (st' : AuthState) : Prop :=
  exists jws prov p certBytes cert,
    ctx_jws ctx = Some jws /\ ctx_provisioner ctx = Some prov /\
    ctx_payload ctx = Some (PayloadJSON p) /\
    DecodeString RawURLEncoding (rp_Certificate p) = Some certBytes /\
    ParseCertificate certBytes = Some cert /\
    let sn := serial_string (SerialNumber cert) in
    let code := default 0%Z (rp_ReasonCode p) in
    let mtls := match HeaderKey (Protected jws) with JWK _ => true | KID _ => false end in
    revoked st !! sn = None /\
    st' = mkAuthState (<[sn := mkRevokedCertificateInfo sn (GetID prov) code (table_reason code)
                                 mtls true false ""]> (revoked st))
                      (used_tokens st).

(** (C2) Commit (section 4.F step 9): a 200 response against the store
    has exactly the effect [commit_effect]. *)
Theorem RevokeCert_OK_commit d (st : AuthState) ctx l st' :
  RevokeCert d st ctx = (RespOK l, st') -> commit_effect st ctx st'.
Proof.
  intros HR. destruct (RevokeCert_OK_inv _ _ _ _ _ HR) as (c & Hc & Hrev).
  destruct (revokeCertChecks_ok _ _ _ _ Hc)
    as (jws & p & cb & dbCert & Hj & Hpr & Hp & Hdec & _ & Hparse & Hser & _ & Ha & _ & Hrc & _ & _).
  rewrite ca_Revoke_store in Hrev.
  destruct (Revoke_cases st (Some (GetID (chk_prov c))) (commitOptions c))
    as [(e & He & _)|(pv & t & st1 & Hau & Hn & HE)]; [rewrite He in Hrev; discriminate|].
  rewrite HE in Hrev. simpl in Hrev. injection Hrev as <-.
  rewrite (authorizeRevoke_ack _ _ _ (chk_cert c) (commitOptions_OTT c) (commitOptions_Crt c)) in Hau.
  injection Hau as <- <- <-. rewrite commitOptions_Serial, Hser in Hn.
  exists jws, (chk_prov c), p, cb, (chk_cert c). cbv zeta. split_and!; try done.
  assert (Hm : chk_mtls c = match HeaderKey (Protected jws) with JWK _ => true | KID _ => false end).
  { destruct (authenticate_ok _ _ _ _ _ Ha)
      as [(kid & acc & -> & _ & _ & _ & ->)|(k & pl & -> & _ & ->)]; reflexivity. }
  unfold commitOptions. rewrite <- Hm, <- Hrc, <- Hser.
  destruct (chk_reasonCode c); simpl; rewrite ?reason_eq_table; reflexivity.
Qed.

End StoreHandler.
