(* ===== verification/AcmeRevokeTests.v ===== *)
(** The table of [TestHandler_RevokeCert] ([src/acme/api/revoke_test.go]),
    run against the model of the handler.

    The fixtures are concrete: a certificate with a seven-byte DER (so that
    its standard base64 form is padded, as a real certificate's usually
    is), an X.509 parser that recognises exactly that DER, and a JWS
    verifier that accepts exactly the signatures made with the private key
    matching the key it is given.  Each test case is the context, database
    and authority the Go test builds, with the status and problem it
    expects; [runHandler] runs the handler on a case.  The cases are the
    concrete inputs of the witnesses of the handler's theorems, here and
    against the authority's store below. *)

From S2P Require Import Prelude Crypto Errors Base64 Revocation Authority AcmeRevoke.

(** ** Fixtures *)

(** [generateCertKeyPair()]: a P-256 key and a self-signed certificate. *)
Definition key : PrivateKey := ECDSAPrivateKey P256 11 22 5.
Definition unauthorizedKey : PrivateKey := ECDSAPrivateKey P256 33 44 6.

Definition test_der : bytes := [48; 130; 1; 10; 2; 1; 99]%Z.

Definition cert : Certificate :=
  mkCertificate 123456789 "CN=Test ACME Revoke Certificate" (Public key) test_der.

(** An X.509 parser that knows one certificate. *)
#[export] Instance test_x509 : X509.
Proof.
  refine {| ParseCertificate der := if decide (der = test_der) then Some cert else None |}.
  intros der c. case_decide; [intros [= <-]; by subst | discriminate].
Defined.

(** A signature is modelled by the public half of the key that made it. *)
Definition toy_sig (k : PublicKey) : bytes :=
  match k with
  | ECDSAPublicKey _ x y => [x; y]
  | RSAPublicKey n e => [n; e]
  | OtherPublicKey _ => []
  end.

#[export] Instance test_verifier : JWSVerifier := {
  jws_Verify jws pub :=
    if decide (Signature jws = toy_sig pub) then
      match DecodeString RawURLEncoding (PayloadB64 jws) with
      | Some p => Ok p
      | None => Err "illegal base64 data"
      end
    else Err "square/go-jose: error in cryptographic primitive";
}.

Definition prov : Provisioner := ACMEProvisioner "testprov".
Definition baseURL : string := "https://test.ca.smallstep.com".
Definition revokeURL : string := baseURL +:+ "/acme/" +:+ PathEscape (GetName prov) +:+ "/revoke-cert".

(** The JWS of most cases: [alg ES256], [kid "bar"], the revoke URL. *)
Definition jws_kid : JSONWebSignature :=
  mkJSONWebSignature (mkHeader "ES256" (KID "bar") None revokeURL) "" "" [].

(** [jwsEncodeJSON(rp, k, "", "nonce", revokeURL)] parsed back: a [jwk]
    header carrying [k]'s public key and [k]'s signature. *)
Definition jws_signed (k : PrivateKey) (payloadB64 : string) : JSONWebSignature :=
  mkJSONWebSignature (mkHeader "ES256" (JWK (Public k)) (Some "nonce") revokeURL)
    "" payloadB64 (toy_sig (Public k)).

Definition rp (rc : option Z) : revokePayload :=
  mkRevokePayload (EncodeToString RawURLEncoding (Raw cert)) rc.

Definition payloadBytes : PayloadValue := PayloadJSON (rp None).

Definition ctx0 : RevokeCtx := mkRevokeCtx None None None None None.

Definition with_ctx (jws : option JSONWebSignature) (pr : option Provisioner)
    (p : option PayloadValue) (acc : option Account) (base : option string) : RevokeCtx :=
  mkRevokeCtx jws pr p acc base.

(** A database that returns [rec] for the certificate's serial. *)
Definition dbReturning (rec : AcmeCertificate) : MockDB :=
  mkMockDB (fun serial => if decide (serial = serial_string (SerialNumber cert))
                          then DbFound rec else DbError "unexpected serial").

(** The handler's [db] and [ca] left [nil]: never reached by those cases. *)
Definition nilDB : MockDB := mkMockDB (fun _ => DbError "nil database").
Definition defaultCA : mockCA := mkMockCA None None.

Definition accValid : Account := mkAccount "accountID" StatusValid.

(** ** The test table *)

Record HandlerTest := mkHandlerTest {
  tc_db : MockDB;
  tc_ca : mockCA;
  tc_ctx : RevokeCtx;
  tc_statusCode : Z;
  tc_err : option Acme.Error;
}.

Definition isePb (msg : string) : option Acme.Error := Some (Acme.NewErrorISE msg).

Definition malformedPb : option Acme.Error :=
  Some (Acme.mkError Acme.ErrorMalformedType "The request message was malformed" 400 "").

Definition unauthorizedPb : option Acme.Error :=
  Some (Acme.mkError Acme.ErrorUnauthorizedType
          ("No authorization provided for name " +:+ Subject cert) 403 "").

Definition fail_no_jws : HandlerTest :=
  mkHandlerTest nilDB defaultCA ctx0 500 (isePb "jws expected in request context").

Definition fail_nil_jws : HandlerTest :=
  mkHandlerTest nilDB defaultCA (with_ctx None None None None None) 500
    (isePb "jws expected in request context").

Definition fail_no_provisioner : HandlerTest :=
  mkHandlerTest nilDB defaultCA (with_ctx (Some jws_kid) None None None None) 500
    (isePb "provisioner does not exist").

Definition fail_nil_provisioner : HandlerTest :=
  mkHandlerTest nilDB defaultCA (with_ctx (Some jws_kid) None None None None) 500
    (isePb "provisioner does not exist").

Definition fail_no_payload : HandlerTest :=
  mkHandlerTest nilDB defaultCA (with_ctx (Some jws_kid) (Some prov) None None None) 500
    (isePb "payload does not exist").

Definition fail_nil_payload : HandlerTest :=
  mkHandlerTest nilDB defaultCA (with_ctx (Some jws_kid) (Some prov) None None None) 500
    (isePb "payload does not exist").

Definition fail_unmarshal_payload : HandlerTest :=
  mkHandlerTest nilDB defaultCA
    (with_ctx (Some jws_kid) (Some prov) (Some PayloadMalformed) None None) 500
    (isePb "error unmarshaling payload").

Definition fail_wrong_certificate_encoding : HandlerTest :=
  mkHandlerTest nilDB defaultCA
    (with_ctx (Some jws_kid) (Some prov)
       (Some (PayloadJSON (mkRevokePayload (EncodeToString StdEncoding (Raw cert)) None)))
       None None) 400 malformedPb.

Definition fail_no_certificate_encoded : HandlerTest :=
  mkHandlerTest nilDB defaultCA
    (with_ctx (Some jws_kid) (Some prov)
       (Some (PayloadJSON (mkRevokePayload (EncodeToString RawURLEncoding []) None)))
       None None) 400 malformedPb.

Definition fail_db_GetCertificateBySerial : HandlerTest :=
  mkHandlerTest (mkMockDB (fun _ => DbError "force")) defaultCA
    (with_ctx (Some jws_kid) (Some prov) (Some payloadBytes) None None) 500
    (isePb "error retrieving certificate by serial").

Definition fail_no_account : HandlerTest :=
  mkHandlerTest (dbReturning (mkAcmeCertificate "")) defaultCA
    (with_ctx (Some jws_kid) (Some prov) (Some payloadBytes) None None) 400
    (Some (Acme.NewError Acme.ErrorAccountDoesNotExistType "account not in context")).

Definition fail_nil_account : HandlerTest :=
  mkHandlerTest (dbReturning (mkAcmeCertificate "")) defaultCA
    (with_ctx (Some jws_kid) (Some prov) (Some payloadBytes) None None) 400
    (Some (Acme.NewError Acme.ErrorAccountDoesNotExistType "account not in context")).

Definition fail_account_not_valid : HandlerTest :=
  mkHandlerTest (dbReturning (mkAcmeCertificate "accountID")) defaultCA
    (with_ctx (Some jws_kid) (Some prov) (Some payloadBytes)
       (Some (mkAccount "accountID" StatusInvalid)) (Some baseURL)) 403 unauthorizedPb.

Definition fail_account_not_authorized : HandlerTest :=
  mkHandlerTest (dbReturning (mkAcmeCertificate "differentAccountID")) defaultCA
    (with_ctx (Some jws_kid) (Some prov) (Some payloadBytes) (Some accValid) (Some baseURL))
    403 unauthorizedPb.

Definition fail_unauthorized_certificate_key : HandlerTest :=
  mkHandlerTest (dbReturning (mkAcmeCertificate "accountID")) defaultCA
    (with_ctx (Some (jws_signed unauthorizedKey "")) (Some prov)
       (Some (PayloadJSON (rp (Some 1%Z)))) None (Some baseURL)) 403
    (Some (Acme.mkError Acme.ErrorUnauthorizedType
             "No authorization provided for name CN=Test ACME Revoke Certificate" 403
             "verification of jws using certificate public key failed")).

Definition fail_certificate_revoked_check_fails : HandlerTest :=
  mkHandlerTest (dbReturning (mkAcmeCertificate "accountID"))
    (mkMockCA (Some (fun _ => Err "force")) None)
    (with_ctx (Some jws_kid) (Some prov) (Some payloadBytes) (Some accValid) (Some baseURL))
    500 (Some (Acme.mkError Acme.ErrorServerInternalType
                 "The server experienced an internal error" 500 "")).

Definition fail_certificate_already_revoked : HandlerTest :=
  mkHandlerTest (dbReturning (mkAcmeCertificate "accountID"))
    (mkMockCA (Some (fun _ => Ok true)) None)
    (with_ctx (Some jws_kid) (Some prov) (Some payloadBytes) (Some accValid) None)
    400 (Some (Acme.mkError Acme.ErrorAlreadyRevokedType "Certificate already revoked" 400 "")).

Definition fail_invalid_reasoncode : HandlerTest :=
  mkHandlerTest (dbReturning (mkAcmeCertificate "accountID"))
    (mkMockCA (Some (fun _ => Ok false)) None)
    (with_ctx (Some jws_kid) (Some prov) (Some (PayloadJSON (rp (Some 7%Z)))) (Some accValid) None)
    400 (Some (Acme.mkError Acme.ErrorBadRevocationReasonType
                 "The revocation reason provided is not allowed by the server" 400 "")).

Definition fail_prov_AuthorizeRevoke : HandlerTest :=
  mkHandlerTest (dbReturning (mkAcmeCertificate "accountID"))
    (mkMockCA (Some (fun _ => Ok false)) None)
    (with_ctx (Some jws_kid) (Some (MockProvisioner "" (fun _ => Some "force")))
       (Some payloadBytes) (Some accValid) None)
    500 (Some (Acme.mkError Acme.ErrorServerInternalType
                 "The server experienced an internal error" 500 "")).

Definition fail_ca_Revoke : HandlerTest :=
  mkHandlerTest (dbReturning (mkAcmeCertificate "accountID"))
    (mkMockCA None (Some (fun _ => Some "force")))
    (with_ctx (Some jws_kid) (Some prov) (Some payloadBytes) (Some accValid) None)
    500 (Some (Acme.mkError Acme.ErrorServerInternalType
                 "The server experienced an internal error" 500 "")).

Definition fail_ca_Revoke_already_revoked : HandlerTest :=
  mkHandlerTest (dbReturning (mkAcmeCertificate "accountID"))
    (mkMockCA (Some (fun _ => Ok false))
       (Some (fun _ => Some ("certificate with serial number '" +:+
                             serial_string (SerialNumber cert) +:+ "' is already revoked"))))
    (with_ctx (Some jws_kid) (Some prov) (Some payloadBytes) (Some accValid) None)
    400 (Some (Acme.NewError Acme.ErrorAlreadyRevokedType
                 ("certificate with serial number '" +:+ serial_string (SerialNumber cert) +:+
                  "' is already revoked"))).

Definition ok_using_account_key : HandlerTest :=
  mkHandlerTest (dbReturning (mkAcmeCertificate "accountID")) defaultCA
    (with_ctx (Some jws_kid) (Some prov) (Some payloadBytes) (Some accValid) (Some baseURL))
    200 None.

Definition ok_using_certificate_key : HandlerTest :=
  mkHandlerTest (dbReturning (mkAcmeCertificate "accountID")) defaultCA
    (with_ctx (Some (jws_signed key "")) (Some prov) (Some (PayloadJSON (rp (Some 1%Z))))
       None (Some baseURL))
    200 None.

Definition TestHandler_RevokeCert_cases : list HandlerTest :=
  [fail_no_jws; fail_nil_jws; fail_no_provisioner; fail_nil_provisioner; fail_no_payload;
   fail_nil_payload; fail_unmarshal_payload; fail_wrong_certificate_encoding;
   fail_no_certificate_encoded; fail_db_GetCertificateBySerial; fail_no_account;
   fail_nil_account; fail_account_not_valid; fail_account_not_authorized;
   fail_unauthorized_certificate_key; fail_certificate_revoked_check_fails;
   fail_certificate_already_revoked; fail_invalid_reasoncode; fail_prov_AuthorizeRevoke;
   fail_ca_Revoke; fail_ca_Revoke_already_revoked; ok_using_account_key;
   ok_using_certificate_key].

(** The handler run on a test case. *)
Definition runHandler (t : HandlerTest) : Response :=
  (@RevokeCert test_x509 test_verifier MockDB unit _ (mockCA_CA (tc_ca t))
     (tc_db t) tt (tc_ctx t)).1.

(** ** The handler against the authority's store *)

(** Tokens are validated by [echo_tokens] in these runs. *)
#[local] Existing Instance echo_tokens.

(** The ACME database knows the certificate as owned by ["accountID"]. *)
Definition acme_db : gmap string AcmeCertificate :=
  {[ serial_string (SerialNumber cert) := mkAcmeCertificate "accountID" ]}.

Definition store0 : AuthState := mkAuthState ∅ ∅.

(** The handler wired to the real store. *)
Definition run_store (st : AuthState) (ctx : RevokeCtx) : Response * AuthState :=
  @RevokeCert test_x509 test_verifier (gmap string AcmeCertificate) AuthState _
    (@Store_CA echo_tokens) acme_db st ctx.

Definition expected_link : string :=
  "<https://test.ca.smallstep.com/acme/testprov/directory>;rel=" +:+ dq +:+ "index" +:+ dq.

Definition ctx_account_key (rc : option Z) : RevokeCtx :=
  with_ctx (Some jws_kid) (Some prov) (Some (PayloadJSON (rp rc))) (Some accValid) (Some baseURL).

Definition ctx_certificate_key : RevokeCtx := tc_ctx ok_using_certificate_key.

Definition ctx_cross_account : RevokeCtx :=
  with_ctx (Some jws_kid) (Some prov) (Some payloadBytes) (Some (mkAccount "A" StatusValid))
    (Some baseURL).

(** Scenarios 1 and 2 of section 8: an account-key revocation commits the
    record, with ["unspecified reason"] for no code and ["key compromised"]
    for code 1. *)
Example scenario_account_key :
  (run_store store0 (ctx_account_key None)).1 = RespOK expected_link /\
  revoked (run_store store0 (ctx_account_key None)).2 !! "123456789" =
    Some (mkRevokedCertificateInfo "123456789" "acme/testprov" 0 "unspecified reason"
            false true false "") /\
  revoked (run_store store0 (ctx_account_key (Some 1%Z))).2 !! "123456789" =
    Some (mkRevokedCertificateInfo "123456789" "acme/testprov" 1 "key compromised"
            false true false "").
Proof. split_and!; vm_compute; reflexivity. Qed.

(** Scenario 3: a certificate-key revocation is committed with [MTLS]. *)
Example scenario_certificate_key :
  (run_store store0 ctx_certificate_key).1 = RespOK expected_link /\
  option_map rci_MTLS (revoked (run_store store0 ctx_certificate_key).2 !! "123456789") =
    Some true.
Proof. split; vm_compute; reflexivity. Qed.

(** Scenario 4: a cross-account attempt is refused with 403 and the
    subject in the detail, and the store is unchanged. *)
Example scenario_cross_account :
  run_store store0 ctx_cross_account =
    (RespErr (wrapUnauthorizedError cert "account not authorized"), store0) /\
  Acme.Detail (wrapUnauthorizedError cert "account not authorized") =
    "No authorization provided for name CN=Test ACME Revoke Certificate".
Proof. split; vm_compute; reflexivity. Qed.

(** ** Witnesses of the handler's theorems *)

Lemma RevokeCert_OK_authorized_witness :
  run_store store0 (ctx_account_key None) =
    (RespOK expected_link, (run_store store0 (ctx_account_key None)).2) /\
  revocation_authorized acme_db store0 (ctx_account_key None)
    (run_store store0 (ctx_account_key None)).2.
Proof.
  assert (E : run_store store0 (ctx_account_key None) =
                (RespOK expected_link, (run_store store0 (ctx_account_key None)).2))
    by (vm_compute; reflexivity).
  split; [exact E | exact (RevokeCert_OK_authorized _ _ _ _ _ E)].
Defined.

Lemma RevokeCert_OK_commit_witness :
  run_store store0 ctx_certificate_key =
    (RespOK expected_link, (run_store store0 ctx_certificate_key).2) /\
  commit_effect store0 ctx_certificate_key (run_store store0 ctx_certificate_key).2.
Proof.
  assert (E : run_store store0 ctx_certificate_key =
                (RespOK expected_link, (run_store store0 ctx_certificate_key).2))
    by (vm_compute; reflexivity).
  split; [exact E | exact (RevokeCert_OK_commit _ _ _ _ _ E)].
Defined.

Lemma RevokeCert_error_no_change_witness :
  run_store store0 ctx_cross_account =
    (RespErr (wrapUnauthorizedError cert "account not authorized"), store0) /\ store0 = store0.
Proof.
  assert (E : run_store store0 ctx_cross_account =
                (RespErr (wrapUnauthorizedError cert "account not authorized"), store0))
    by (vm_compute; reflexivity).
  split; [exact E | exact (RevokeCert_error_no_change _ _ _ _ _ E)].
Defined.

Lemma RevokeCert_error_taxonomy_witness :
  run_store store0 ctx_cross_account =
    (RespErr (wrapUnauthorizedError cert "account not authorized"), store0) /\
  taxonomy_ok (wrapUnauthorizedError cert "account not authorized").
Proof.
  assert (E : run_store store0 ctx_cross_account =
                (RespErr (wrapUnauthorizedError cert "account not authorized"), store0))
    by (vm_compute; reflexivity).
  split; [exact E | exact (RevokeCert_error_taxonomy _ _ _ _ _ E)].
Defined.

(** Scenario 6, sequentially: the second of two identical requests is
    refused with [alreadyRevoked]. *)
Lemma RevokeCert_replay_refused_witness :
  let st1 := (run_store store0 (ctx_account_key None)).2 in
  run_store store0 (ctx_account_key None) = (RespOK expected_link, st1) /\
  run_store st1 (ctx_account_key None) =
    (RespErr (Acme.NewError Acme.ErrorAlreadyRevokedType "certificate was already revoked"), st1).
Proof.
  intros st1.
  assert (E : run_store store0 (ctx_account_key None) = (RespOK expected_link, st1))
    by (vm_compute; reflexivity).
  split; [exact E|].
  exact (@RevokeCert_replay_refused _ _ _ _ _ _ (@Store_CALaws echo_tokens) _ _ _ _ _ E).
Defined.

(** The test case [fail_wrong_certificate_encoding]: its certificate's
    DER is not a multiple of three bytes long, so the padded standard
    encoding is refused as malformed and the store is untouched. *)
Lemma RevokeCert_std_encoded_certificate_witness :
  (length (Raw cert) mod 3 <> 0)%nat /\
  run_store store0 (tc_ctx fail_wrong_certificate_encoding) =
    (RespErr (Acme.WrapError Acme.ErrorMalformedType "illegal base64 data"
                "error base64url decoding payload certificate property"), store0).
Proof.
  assert (Hl : (length (Raw cert) mod 3 <> 0)%nat) by (vm_compute; discriminate).
  split; [exact Hl|].
  refine (proj1 (RevokeCert_std_encoded_certificate acme_db store0
                   (tc_ctx fail_wrong_certificate_encoding) jws_kid prov (Raw cert) None
                   eq_refl eq_refl _ eq_refl) Hl).
  decide_goal.
Defined.
