(* ===== verification/SshRevoke.v ===== *)
(** The SSH revocation endpoint [POST /ssh/revoke] ([src/api/sshRevoke.go]):
    the request body [SSHRevokeRequest], its [Validate] method, the handler
    [caHandler.SSHRevoke] and the audit fields of [logOtt] and
    [logSSHRevoke].

    The handler reaches the authority through [SSHAuthority] (the two
    methods of [h.Authority] it calls: [Authorize], under the context
    method [SSHRevokeMethod], and [Revoke]); the store of [Authority.v]
    implements it, token validation in [Authorize] and validation plus
    consumption in [Revoke] (section 4.E, steps 1 and 2).  The response is
    the [errs] error [WriteError] renders, or the JSON [SSHRevokeResponse];
    the fields the handler adds to the response log are returned beside it,
    in the order the two [WithFields] calls add them.

    The lemmas of this file are the facts the other components build on:
    the four outcomes of the handler, one per [return], and the state the
    store is left in by a success and by a refusal.  The properties of the
    endpoint are in [SshRevokeProps.v]. *)

From S2P Require Import Prelude Crypto Errors Revocation Authority.

(** ** The request and the response *)

(** [SSHRevokeRequest]: the JSON body. *)
Record SSHRevokeRequest := mkSSHRevokeRequest {
  req_Serial : string;
  req_OTT : string;
  req_ReasonCode : Z;
  req_Reason : string;
  req_Passive : bool;
}.

(** The request body as [ReadJSON] reads it: a request, or the decoder's
    error. *)
Inductive Body :=
| BodyJSON (r : SSHRevokeRequest)
| BodyMalformed (err : string).

(** [SSHRevokeResponse]: the JSON [{"status": ...}]. *)
Record SSHRevokeResponse := mkSSHRevokeResponse { resp_Status : string }.

(** What the handler writes: [JSON(w, ...)] (200) or [WriteError(w, err)]. *)
Inductive SSHResponse :=
| SSHOK (r : SSHRevokeResponse)
| SSHErr (e : Errs.Error).

(** The status line [JSON] and [WriteError] write. *)
Definition HTTPStatus (r : SSHResponse) : Z :=
  match r with SSHOK _ => 200 | SSHErr e => Errs.Status e end.

(** The values of the logging fields map ([map[string]interface{}]). *)
Inductive LogValue :=
| LogString (s : string)
| LogInt (n : Z)
| LogBool (b : bool).

(** The fields added to the response log by [rl.WithFields], in order. *)
Definition LogFields : Type := list (string * LogValue).

(** The revocation methods of [provisioner.Method], the value
    [provisioner.NewContextWithMethod] stores in the request context; the
    signing methods belong to endpoints this development does not model. *)
Inductive Method := RevokeMethod | SSHRevokeMethod.

#[global] Instance Method_eq_dec : EqDecision Method.
Proof. solve_decision. Defined.

(** ** [Validate] *)

(** The method [Validate] of [*SSHRevokeRequest]: [None] is a [nil] error. *)
Definition Validate (r : SSHRevokeRequest) : option Errs.Error :=
  if decide (req_Serial r = "") then Some (Errs.BadRequest "missing serial")
  else if decide (req_ReasonCode r < Unspecified \/ req_ReasonCode r > AACompromise)%Z then
    Some (Errs.BadRequest "reasonCode out of bounds")
  else if negb (req_Passive r) then
    Some (Errs.NotImplemented "non-passive revocation not implemented")
  else if decide (req_OTT r = "") then Some (Errs.BadRequest "missing ott")
  else None.

(** ** The authority seen by the handler *)

(** [h.Authority.Authorize(ctx, ott)] under the method of [ctx] (its sign
    options are discarded by the handler) and
    [h.Authority.Revoke(ctx, opts)]. *)
Class SSHAuthority (S : Type) := {
  ssh_Authorize : S -> Method -> string -> result string unit;
  ssh_Revoke : S -> Method -> RevokeOptions -> S * result string unit;
}.

(** [logOtt(w, ott)]: the token added to the response log. *)
Definition logOtt (ott : string) : LogFields := [("ott", LogString ott)].

(** [logSSHRevoke(w, opts)]: the fields added to the response log. *)
Definition logSSHRevoke (ri : RevokeOptions) : LogFields :=
  [("serial", LogString (Serial ri)); ("reasonCode", LogInt (ReasonCode ri));
   ("reason", LogString (Reason ri)); ("passiveOnly", LogBool (PassiveOnly ri));
   ("mTLS", LogBool (MTLS ri)); ("ssh", LogBool true)].

(** The options the handler builds from a request (before the token is
    set); the fields the literal leaves out keep Go's zero values. *)
Definition sshRevokeOptions (body : SSHRevokeRequest) : RevokeOptions :=
  {| Serial := req_Serial body; Reason := req_Reason body;
     ReasonCode := req_ReasonCode body; PassiveOnly := req_Passive body;
     MTLS := false; ACME := false; Crt := None; OTT := "" |}.

(** [opts.OTT = body.OTT] *)
Definition with_ott (o : RevokeOptions) (ott : string) : RevokeOptions :=
  {| Serial := Serial o; Reason := Reason o; ReasonCode := ReasonCode o;
     PassiveOnly := PassiveOnly o; MTLS := MTLS o; ACME := ACME o; Crt := Crt o;
     OTT := ott |}.

(** The handler's outcome: the authority's state, the response, and the
    fields the handler added to the response log. *)
Record Outcome (S : Type) := mkOutcome {
  out_state : S;
  out_response : SSHResponse;
  out_log : LogFields;
}.
Arguments mkOutcome {S}.
Arguments out_state {S}.
Arguments out_response {S}.
Arguments out_log {S}.

Section Handler.
Context {S : Type} `{SSHAuthority S}.

(** The method [SSHRevoke] of [*caHandler]: read, validate, build the
    options, log the token, authorize it under [SSHRevokeMethod], revoke,
    log and answer; each early [return] leaves the state as it is. *)
Definition SSHRevoke (s : S) (b : Body) : Outcome S :=
  match b with
  | BodyMalformed err =>
      mkOutcome s (SSHErr (Errs.BadRequestErr err "error reading request body")) []
  | BodyJSON body =>
      match Validate body with
      | Some e => mkOutcome s (SSHErr e) []
      | None =>
          let opts := sshRevokeOptions body in
          let ctx := SSHRevokeMethod in
          let log := logOtt (req_OTT body) in
          match ssh_Authorize s ctx (req_OTT body) with
          | Err e => mkOutcome s (SSHErr (Errs.UnauthorizedErr e)) log
          | Ok _ =>
              let opts := with_ott opts (req_OTT body) in
              match ssh_Revoke s ctx opts with
              | (s', Err e) =>
                  mkOutcome s' (SSHErr (Errs.ForbiddenErr e "error revoking ssh certificate")) log
              | (s', Ok _) =>
                  mkOutcome s' (SSHOK (mkSSHRevokeResponse "ok")) (log ++ logSSHRevoke opts)
              end
          end
      end
  end.

End Handler.

(** ** The store as the SSH handler's authority *)

Section StoreAuthority.
Context `{TokenValidator}.

(** [Authorize(ctx, ott)] for the revocation methods: the token must
    validate and must not have been used; nothing is consumed yet. *)
Definition AuthorizeSSHRevoke (st : AuthState) (m : Method) (ott : string) : result string unit :=
  match ValidateToken ott with
  | Err e => Err ("authority.Authorize: " +:+ e)
  | Ok claims =>
      if decide (tc_ID claims ∈ used_tokens st)
      then Err "authority.Authorize: token already used" else Ok tt
  end.

(** [Revoke(ctx, opts)] on the store: the revocation store of sections
    4.B and 4.E is one key space of serials, shared by the X.509 and SSH
    paths, so the method of [ctx] selects no other store; a token-carrying
    request resolves its provisioner from the token (step 1 of 4.E), so
    no ACME provisioner is passed. *)
#[global] Instance Store_SSHAuthority : SSHAuthority AuthState := {
  ssh_Authorize := AuthorizeSSHRevoke;
  ssh_Revoke st m o := let '(st', r) := Revoke st None o in (st', (fun _ => tt) <$> r);
}.

End StoreAuthority.

(** ** Facts about [Validate] and the handler *)

(** What an accepted request carries: a token and the passive flag. *)
Lemma Validate_ok_fields r :
  Validate r = None -> req_OTT r <> "" /\ req_Passive r = true.
Proof.
  unfold Validate. repeat case_decide; destruct (req_Passive r); simpl; intros E;
    try discriminate; auto.
Qed.

(** Every error of [Validate] is a 400 or a 501. *)
Lemma Validate_status r e : Validate r = Some e -> Errs.Status e = 400%Z \/ Errs.Status e = 501%Z.
Proof.
  unfold Validate. repeat case_decide; destruct (req_Passive r); intros [= <-]; simpl; auto.
Qed.

Section HandlerFacts.
Context {S : Type} `{SSHAuthority S}.

(** The four outcomes of the handler, one per [return]. *)
Lemma SSHRevoke_cases s b :
  (exists e, SSHRevoke s b = mkOutcome s (SSHErr e) [] /\
     (Errs.Status e = 400 \/ Errs.Status e = 501)%Z) \/
  (exists body e, b = BodyJSON body /\ Validate body = None /\
     ssh_Authorize s SSHRevokeMethod (req_OTT body) = Err e /\
     SSHRevoke s b = mkOutcome s (SSHErr (Errs.UnauthorizedErr e)) (logOtt (req_OTT body))) \/
  (exists body e s', b = BodyJSON body /\ Validate body = None /\
     ssh_Authorize s SSHRevokeMethod (req_OTT body) = Ok tt /\
     ssh_Revoke s SSHRevokeMethod (with_ott (sshRevokeOptions body) (req_OTT body)) = (s', Err e) /\
     SSHRevoke s b = mkOutcome s' (SSHErr (Errs.ForbiddenErr e "error revoking ssh certificate"))
                       (logOtt (req_OTT body))) \/
  (exists body s', b = BodyJSON body /\ Validate body = None /\
     ssh_Authorize s SSHRevokeMethod (req_OTT body) = Ok tt /\
     ssh_Revoke s SSHRevokeMethod (with_ott (sshRevokeOptions body) (req_OTT body)) = (s', Ok tt) /\
     SSHRevoke s b = mkOutcome s' (SSHOK (mkSSHRevokeResponse "ok"))
       (logOtt (req_OTT body) ++ logSSHRevoke (with_ott (sshRevokeOptions body) (req_OTT body)))).
Proof.
  unfold SSHRevoke; cbv zeta.
  destruct b as [body|err]; [|left; eexists; split; [reflexivity|simpl; auto]].
  destruct (Validate body) as [e|] eqn:Hv.
  { left. exists e. split; [reflexivity|]. by apply Validate_status in Hv. }
  destruct (ssh_Authorize s SSHRevokeMethod (req_OTT body)) as [[]|e] eqn:Ha;
    [|right; left; eauto 6].
  destruct (ssh_Revoke s _ _) as [s' [[]|e]] eqn:Hr; right; right; [right|left]; eauto 10.
Qed.

(** Inversion of a 200 answer: the request passed [Validate] and the
    authority's [Revoke] succeeded on its options. *)
Lemma SSHRevoke_ok_body s b r :
  out_response (SSHRevoke s b) = SSHOK r ->
  exists body, b = BodyJSON body /\ Validate body = None /\
    ssh_Revoke s SSHRevokeMethod (with_ott (sshRevokeOptions body) (req_OTT body)) =
      (out_state (SSHRevoke s b), Ok tt) /\
    out_log (SSHRevoke s b) =
      logOtt (req_OTT body) ++ logSSHRevoke (with_ott (sshRevokeOptions body) (req_OTT body)).
Proof.
  destruct (SSHRevoke_cases s b)
    as [(e & -> & _) | [(body & e & _ & _ & _ & ->) |
        [(body & e & s' & _ & _ & _ & _ & ->) | (body & s' & -> & Hv & _ & Hr & ->)]]];
    simpl; try discriminate.
  intros _. eauto.
Qed.

End HandlerFacts.

(** ** The handler against the store *)

Section StoreFacts.
Context `{TokenValidator}.

(** [Revoke] through the SSH seam is [authority.Revoke] with no
    provisioner in the context. *)
Lemma ssh_Revoke_store st m o st' r :
  ssh_Revoke st m o = (st', r) -> exists r', Revoke st None o = (st', r') /\ r = (fun _ => tt) <$> r'.
Proof. simpl. destruct (Revoke st None o) as [s1 r1]. intros [= <- <-]. eauto. Qed.

(** The state after a 200 answer from the store: the token validated, was
    fresh and is now consumed, and the serial, which had no record, has
    the record the request describes. *)
Lemma SSHRevoke_store_ok st b r :
  out_response (SSHRevoke st b) = SSHOK r ->
  exists body claims, b = BodyJSON body /\ Validate body = None /\
    ValidateToken (req_OTT body) = Ok claims /\
    (tc_ID claims ∉ used_tokens st) /\ revoked st !! req_Serial body = None /\
    out_state (SSHRevoke st b) =
      mkAuthState (<[req_Serial body :=
                      mkRevokedCertificateInfo (req_Serial body) (tc_Provisioner claims)
                        (req_ReasonCode body) (reason (req_ReasonCode body))
                        false false (req_Passive body) (tc_ID claims)]> (revoked st))
                  ({[tc_ID claims]} ∪ used_tokens st).
Proof.
  intros Hok. destruct (SSHRevoke_ok_body st b r Hok) as (body & -> & Hv & Hr & _).
  apply ssh_Revoke_store in Hr as (r' & Hr & Hr').
  destruct r' as [rci|]; [|discriminate].
  eapply Revoke_with_ott in Hr as (claims & Hval & Hu & Hn & Hst & ->);
    [|exact (proj1 (Validate_ok_fields body Hv))].
  exists body, claims. simpl in *. split_and!; auto.
Qed.

(** A refused SSH revocation, whatever stage refused it, writes no
    record: the records are those of the store before the request. *)
Lemma SSHRevoke_store_error st b e :
  out_response (SSHRevoke st b) = SSHErr e -> revoked (out_state (SSHRevoke st b)) = revoked st.
Proof.
  destruct (SSHRevoke_cases st b)
    as [(e' & -> & _) | [(body & e' & _ & _ & _ & ->) |
        [(body & e' & s' & _ & _ & _ & Hr & ->) | (body & s' & _ & _ & _ & _ & ->)]]];
    simpl; intros He; try reflexivity; [|discriminate].
  apply ssh_Revoke_store in Hr as (r' & Hr & Hr'). destruct r' as [|m]; [discriminate|].
  destruct (Revoke_cases st None (with_ott (sshRevokeOptions body) (req_OTT body)))
    as [(e'' & _ & Hrev) | (p & t & st1 & _ & _ & Hr2)]; rewrite Hr in *; [exact Hrev | discriminate].
Qed.

End StoreFacts.

(** ** Concrete runs *)

#[local] Existing Instance echo_tokens.

Definition ssh_store0 : AuthState := mkAuthState ∅ ∅.

(** A passive revocation of serial ["99"] for a lost key. *)
Definition ssh_req : SSHRevokeRequest := mkSSHRevokeRequest "99" "tok-9" 1 "lost laptop" true.


Definition ssh_run (st : AuthState) (b : Body) : Outcome AuthState := SSHRevoke st b.

(** The record says ["key compromised"]; the log the token and the
    client's ["lost laptop"]; a replay of the same body is refused with 401
    by [Authorize], since the token was consumed, and logs the token only. *)
Example ssh_scenario :
  out_response (ssh_run ssh_store0 (BodyJSON ssh_req)) = SSHOK (mkSSHRevokeResponse "ok") /\
  option_map rci_Reason (revoked (out_state (ssh_run ssh_store0 (BodyJSON ssh_req))) !! "99") =
    Some "key compromised" /\
  out_log (ssh_run ssh_store0 (BodyJSON ssh_req)) =
    [("ott", LogString "tok-9"); ("serial", LogString "99"); ("reasonCode", LogInt 1);
     ("reason", LogString "lost laptop"); ("passiveOnly", LogBool true);
     ("mTLS", LogBool false); ("ssh", LogBool true)] /\
  HTTPStatus (out_response (ssh_run (out_state (ssh_run ssh_store0 (BodyJSON ssh_req)))
                              (BodyJSON ssh_req))) = 401%Z /\
  out_log (ssh_run (out_state (ssh_run ssh_store0 (BodyJSON ssh_req))) (BodyJSON ssh_req)) =
    [("ott", LogString "tok-9")].
Proof. split_and!; vm_compute; reflexivity. Qed.
