(* ===== verification/SshRevokeProps.v ===== *)
(** The properties of the SSH revocation endpoint of [SshRevoke.v]
    ([src/api/sshRevoke.go]): what the handler accepts and in which order
    it checks the body, what an ["ok"] answer and each refusal say about the
    request and the authority, and, against the store of [Authority.v],
    the record a success writes and the token a refusal still consumes.
    The facts the other components share (the four outcomes of the
    handler, the state after a success or a refusal) are lemmas of
    [SshRevoke.v]. *)

From S2P Require Import Prelude Crypto Errors Revocation Authority SshRevoke.

(** ** [Validate] *)

(** [Validate] accepts exactly the requests with a serial, a reason code
    in [Unspecified..AACompromise], the passive flag and a token. *)
Lemma Validate_accepts r :
  Validate r = None <->
  req_Serial r <> "" /\ (0 <= req_ReasonCode r <= 10)%Z /\ req_Passive r = true /\
  req_OTT r <> "".
Proof.
  unfold Validate, Unspecified, AACompromise.
  repeat case_decide; destruct (req_Passive r); simpl; split;
    try discriminate; intros; try tauto; try lia; split_and!; auto; lia.
Qed.

(** ** The handler *)

Section HandlerProps.
Context {S : Type} `{SSHAuthority S}.

(** (C18) The checks of the request body, the surface of section 6: the
    handler goes past [Validate] exactly for the requests with a serial,
    a reason code in [0..10], the passive flag and a token; any other
    request is answered without consulting the authority, nothing logged
    and the state unchanged, with 501 when it is non-passive but has a
    serial and a valid code, whether or not it carries a token (the
    passive check precedes the token check), and 400 otherwise. *)
Theorem SSHRevoke_request_checks s body :
  let o := SSHRevoke s (BodyJSON body) in
  (Validate body = None <->
     req_Serial body <> "" /\ (0 <= req_ReasonCode body <= 10)%Z /\ req_Passive body = true /\
     req_OTT body <> "") /\
  (Validate body <> None ->
     out_state o = s /\ out_log o = [] /\
     HTTPStatus (out_response o) =
       (if decide (req_Serial body <> "" /\ (0 <= req_ReasonCode body <= 10)%Z /\
                   req_Passive body = false) then 501 else 400)%Z).
Proof.
  intros o. split; [apply Validate_accepts|]. intros Hv.
  destruct (Validate body) as [e|] eqn:E; [|done].
  subst o. unfold SSHRevoke. rewrite E. split_and!; try reflexivity.
  revert E. unfold Validate, Unspecified, AACompromise. intros He.
  repeat case_decide; destruct (req_Passive body); simplify_eq/=; try reflexivity;
    exfalso; intuition (try lia; try discriminate).
Qed.

(** (C14) A request the handler answers with ["ok"] was well-formed,
    passive and carried a token that the authority accepted under
    [SSHRevokeMethod]; the options handed to [Revoke] carry that token and
    are never an mTLS revocation, and the log holds the token followed by
    the audit fields, which say so.  The mTLS alternative the comment of
    the handler mentions is unreachable. *)
Theorem SSHRevoke_ok_token s b r :
  out_response (SSHRevoke s b) = SSHOK r ->
  r = mkSSHRevokeResponse "ok" /\
  exists body, b = BodyJSON body /\ req_OTT body <> "" /\ req_Passive body = true /\
    ssh_Authorize s SSHRevokeMethod (req_OTT body) = Ok tt /\
    let opts := with_ott (sshRevokeOptions body) (req_OTT body) in
    OTT opts = req_OTT body /\ MTLS opts = false /\ PassiveOnly opts = true /\
    ssh_Revoke s SSHRevokeMethod opts = (out_state (SSHRevoke s b), Ok tt) /\
    out_log (SSHRevoke s b) = logOtt (req_OTT body) ++ logSSHRevoke opts /\
    In ("mTLS", LogBool false) (out_log (SSHRevoke s b)).
Proof.
  destruct (SSHRevoke_cases s b)
    as [(e & -> & _) | [(body & e & _ & _ & _ & ->) |
        [(body & e & s' & _ & _ & _ & _ & ->) | (body & s' & -> & Hv & Ha & Hr & ->)]]];
    simpl; try discriminate.
  intros [= <-]. apply Validate_ok_fields in Hv as [Ho Hp].
  split; [reflexivity|]. exists body. simpl. split_and!; auto.
  by repeat (first [left; reflexivity | right]).
Qed.

(** (C15) Every refusal has the status of the stage that refused it: 400
    for an unreadable or invalid body and 501 for a non-passive request,
    with nothing logged; once [Validate] passed the token is logged, and
    the refusal is 401 when [Authorize] rejects the token (the state
    unchanged) or 403 when the authority's [Revoke] fails, with the state
    [Revoke] left.  No refusal writes the audit fields of
    [logSSHRevoke]. *)
Theorem SSHRevoke_error_status s b e :
  out_response (SSHRevoke s b) = SSHErr e ->
  ~ In ("ssh", LogBool true) (out_log (SSHRevoke s b)) /\
  (((Errs.Status e = 400 \/ Errs.Status e = 501)%Z /\ out_state (SSHRevoke s b) = s /\
     out_log (SSHRevoke s b) = []) \/
   (exists body, b = BodyJSON body /\ Validate body = None /\
      out_log (SSHRevoke s b) = logOtt (req_OTT body) /\
      ((Errs.Status e = 401%Z /\ out_state (SSHRevoke s b) = s) \/
       (Errs.Status e = 403%Z /\ exists msg,
          ssh_Revoke s SSHRevokeMethod (with_ott (sshRevokeOptions body) (req_OTT body)) =
            (out_state (SSHRevoke s b), Err msg))))).
Proof.
  destruct (SSHRevoke_cases s b)
    as [(e' & -> & Hs) | [(body & e' & -> & Hv & _ & ->) |
        [(body & e' & s' & -> & Hv & _ & Hr & ->) | (body & s' & _ & _ & _ & _ & ->)]]];
    simpl; intros [= <-]; (split; [simpl; intuition discriminate|]).
  - left. split_and!; auto.
  - right. exists body. split_and!; auto.
  - right. exists body. split_and!; eauto.
Qed.

End HandlerProps.

(** ** The handler against the store *)

Section StoreProps.
Context `{TokenValidator}.

(** (C16) A successful SSH revocation consumed its token and wrote exactly
    one record, for a serial that had none: passive, not mTLS, not ACME,
    with the request's code, the table's reason text and the token's
    provisioner and identifier.  The log, however, carries the client's
    [reason] text, which the record does not. *)
Theorem SSHRevoke_store_commit st b r :
  out_response (SSHRevoke st b) = SSHOK r ->
  exists body claims, b = BodyJSON body /\ ValidateToken (req_OTT body) = Ok claims /\
    (tc_ID claims ∉ used_tokens st) /\ revoked st !! req_Serial body = None /\
    out_state (SSHRevoke st b) =
      mkAuthState (<[req_Serial body :=
                      mkRevokedCertificateInfo (req_Serial body) (tc_Provisioner claims)
                        (req_ReasonCode body) (reason (req_ReasonCode body))
                        false false true (tc_ID claims)]> (revoked st))
                  ({[tc_ID claims]} ∪ used_tokens st) /\
    In ("reason", LogString (req_Reason body)) (out_log (SSHRevoke st b)).
Proof.
  intros Hok.
  destruct (SSHRevoke_store_ok st b r Hok) as (body & claims & -> & Hv & Hval & Hu & Hn & Hst).
  destruct (SSHRevoke_ok_body st (BodyJSON body) r Hok) as (body' & [= <-] & _ & _ & Hlog).
  rewrite (proj2 (Validate_ok_fields body Hv)) in Hst.
  exists body, claims. split_and!; auto.
  rewrite Hlog. simpl. auto 10.
Qed.

(** (C17) A refused revocation still consumes its token: a request with
    a fresh, valid token for a serial that already has a record passes
    [Authorize], and [Revoke] consumes the token (step 2 of section 4.E)
    before it finds the record (step 3).  The answer is 403 with the
    authority's message, the records are unchanged, and the same request
    presented again is refused by [Authorize] with 401: section 7's
    "absence of a 200 response means no persistent state changed" does
    not hold of the token store. *)
Theorem SSHRevoke_refused_burns_token st body claims r :
  Validate body = None -> ValidateToken (req_OTT body) = Ok claims ->
  tc_ID claims ∉ used_tokens st -> revoked st !! req_Serial body = Some r ->
  let o := SSHRevoke st (BodyJSON body) in
  out_response o = SSHErr (Errs.ForbiddenErr (already_revoked_msg (req_Serial body))
                                             "error revoking ssh certificate") /\
  out_state o = mkAuthState (revoked st) ({[tc_ID claims]} ∪ used_tokens st) /\
  out_response (SSHRevoke (out_state o) (BodyJSON body)) =
    SSHErr (Errs.UnauthorizedErr "authority.Authorize: token already used").
Proof.
  intros Hv Hc Hu Hr o. subst o.
  destruct (Validate_ok_fields body Hv) as [Ho _].
  unfold SSHRevoke; cbv zeta. rewrite !Hv. simpl. unfold AuthorizeSSHRevoke.
  rewrite Hc, decide_False by exact Hu.
  unfold Revoke, authorizeRevoke. simpl. rewrite decide_True by exact Ho.
  rewrite Hc, decide_False by exact Hu. simpl. rewrite Hr. simpl.
  rewrite decide_True by set_solver. split_and!; reflexivity.
Qed.

End StoreProps.

(** ** Witnesses *)

#[local] Existing Instance echo_tokens.

Lemma SSHRevoke_request_checks_witness :
  Validate (mkSSHRevokeRequest "99" "" 4 "" false) <> None /\
  HTTPStatus (out_response (ssh_run ssh_store0 (BodyJSON (mkSSHRevokeRequest "99" "" 4 "" false)))) = 501%Z.
Proof.
  assert (Hv : Validate (mkSSHRevokeRequest "99" "" 4 "" false) <> None) by discriminate.
  split; [exact Hv|].
  rewrite (proj2 (proj2 (proj2 (SSHRevoke_request_checks ssh_store0 _) Hv))).
  rewrite decide_True; [reflexivity|]. simpl. repeat split; try discriminate; lia.
Defined.

Lemma SSHRevoke_ok_token_witness :
  out_response (ssh_run ssh_store0 (BodyJSON ssh_req)) = SSHOK (mkSSHRevokeResponse "ok") /\
  exists body, BodyJSON ssh_req = BodyJSON body /\ req_OTT body <> "" /\ req_Passive body = true.
Proof.
  assert (E : out_response (ssh_run ssh_store0 (BodyJSON ssh_req)) = SSHOK (mkSSHRevokeResponse "ok"))
    by (vm_compute; reflexivity).
  split; [exact E|].
  destruct (SSHRevoke_ok_token _ _ _ E) as (_ & body & Hb & Ho & Hp & _). eauto.
Defined.

Lemma SSHRevoke_error_status_witness :
  let st1 := out_state (ssh_run ssh_store0 (BodyJSON ssh_req)) in
  out_response (ssh_run st1 (BodyJSON ssh_req)) =
    SSHErr (Errs.UnauthorizedErr "authority.Authorize: token already used") /\
  ~ In ("ssh", LogBool true) (out_log (ssh_run st1 (BodyJSON ssh_req))).
Proof.
  intros st1.
  assert (E : out_response (ssh_run st1 (BodyJSON ssh_req)) =
                SSHErr (Errs.UnauthorizedErr "authority.Authorize: token already used"))
    by (vm_compute; reflexivity).
  split; [exact E|]. exact (proj1 (SSHRevoke_error_status _ _ _ E)).
Defined.

Lemma SSHRevoke_store_commit_witness :
  out_response (ssh_run ssh_store0 (BodyJSON ssh_req)) = SSHOK (mkSSHRevokeResponse "ok") /\
  exists body claims, BodyJSON ssh_req = BodyJSON body /\
    ValidateToken (req_OTT body) = Ok claims /\ revoked ssh_store0 !! req_Serial body = None.
Proof.
  assert (E : out_response (ssh_run ssh_store0 (BodyJSON ssh_req)) = SSHOK (mkSSHRevokeResponse "ok"))
    by (vm_compute; reflexivity).
  split; [exact E|].
  destruct (SSHRevoke_store_commit _ _ _ E) as (body & claims & Hb & Hv & _ & Hn & _). eauto.
Defined.

(** A second request for serial ["99"], with a fresh token. *)
Definition ssh_req2 : SSHRevokeRequest := mkSSHRevokeRequest "99" "tok-10" 4 "superseded" true.

Lemma SSHRevoke_refused_burns_token_witness :
  let st1 := out_state (ssh_run ssh_store0 (BodyJSON ssh_req)) in
  Validate ssh_req2 = None /\ ValidateToken (req_OTT ssh_req2) = Ok (mkTokenClaims "jwk-provisioner" "tok-10") /\
  (tc_ID (mkTokenClaims "jwk-provisioner" "tok-10") ∉ used_tokens st1) /\ is_Some (revoked st1 !! req_Serial ssh_req2) /\
  used_tokens (out_state (ssh_run st1 (BodyJSON ssh_req2))) = {[tc_ID (mkTokenClaims "jwk-provisioner" "tok-10")]} ∪ used_tokens st1.
Proof.
  intros st1.
  assert (Hv : Validate ssh_req2 = None) by reflexivity.
  assert (Hc : ValidateToken (req_OTT ssh_req2) = Ok (mkTokenClaims "jwk-provisioner" "tok-10")) by reflexivity.
  assert (Hu : tc_ID (mkTokenClaims "jwk-provisioner" "tok-10") ∉ used_tokens st1) by decide_goal.
  destruct (revoked st1 !! req_Serial ssh_req2) as [r|] eqn:Hr; [|vm_compute in Hr; discriminate].
  split_and!; [exact Hv | exact Hc | exact Hu | eauto |].
  exact (f_equal used_tokens (proj1 (proj2 (SSHRevoke_refused_burns_token st1 ssh_req2 _ r Hv Hc Hu Hr)))).
Defined.
