(* ===== verification/System.v ===== *)
(** The authority as one state machine driven by both revocation
    endpoints: the ACME [revoke-cert] handler ([AcmeRevoke.v]) and
    [/ssh/revoke] ([SshRevoke.v], [src/api/sshRevoke.go]), served one at a
    time against the same store ([Authority.v]), with the ACME database of
    certificate owners.

    [serve] answers one request; [run] answers a sequence of them in order,
    which is every interleaving of whole requests.  By induction on the
    sequence: the store invariant holds of every state a sequence
    reaches (a lemma); a revocation record is never changed or removed by later
    requests of either kind; a token consumed by an SSH revocation is
    refused by every later SSH request that presents it. *)

From S2P Require Import Prelude Crypto Errors Revocation Authority AcmeRevoke AcmeRevokeTests SshRevoke.

(** A request to one of the two endpoints. *)
Inductive Request :=
| ReqAcme (ctx : RevokeCtx)
| ReqSSH (b : Body).

Inductive Reply :=
| ReplyAcme (r : Response)
| ReplySSH (r : SSHResponse) (log : LogFields).

(** A reply that reports success: 200 for ACME, ["ok"] for SSH. *)
Definition reply_ok (r : Reply) : bool :=
  match r with ReplyAcme (RespOK _) | ReplySSH (SSHOK _) _ => true | _ => false end.

(** ** The certificate state machine of section 4.G *)

(** A serial is [Issued] until the store has its record. *)
Inductive CertState := Issued | Revoked_.

Definition cert_state (st : AuthState) (sn : string) : CertState :=
  match revoked st !! sn with Some _ => Revoked_ | None => Issued end.

(** The transitions of section 4.G: a failure leaves an issued
    certificate issued, a successful revocation revokes it, and revoked is
    terminal. *)
Inductive cert_step : CertState -> CertState -> Prop :=
| cert_noop : cert_step Issued Issued
| cert_revoke : cert_step Issued Revoked_
| cert_terminal : cert_step Revoked_ Revoked_.

Section System.
Context `{X509} `{JWSVerifier} `{TokenValidator}.

(** The ACME database: certificate serial to owning account. *)
Variable db : gmap string AcmeCertificate.

(** One request against the store. *)
Definition serve (st : AuthState) (req : Request) : AuthState * Reply :=
  match req with
  | ReqAcme ctx => let '(r, st') := RevokeCert db st ctx in (st', ReplyAcme r)
  | ReqSSH b => let o := SSHRevoke st b in (out_state o, ReplySSH (out_response o) (out_log o))
  end.

(** A sequence of requests, answered in order. *)
Fixpoint run (st : AuthState) (reqs : list Request) : AuthState * list Reply :=
  match reqs with
  | [] => (st, [])
  | req :: reqs' =>
      let '(st1, r) := serve st req in
      let '(st2, rs) := run st1 reqs' in (st2, r :: rs)
  end.

(** ** Every request is at most one [Revoke] *)

Lemma RevokeCert_state st ctx :
  (RevokeCert db st ctx).2 = st \/ exists c o, (RevokeCert db st ctx).2 = (Revoke st c o).1.
Proof.
  unfold RevokeCert. destruct (revokeCertChecks db st ctx); [|by left].
  simpl. destruct (Revoke st _ _) as [s1 [r|e]] eqn:E; simpl; right;
    eexists _, _; rewrite E; reflexivity.
Qed.

Lemma SSHRevoke_state st b :
  out_state (SSHRevoke st b) = st \/ exists o, out_state (SSHRevoke st b) = (Revoke st None o).1.
Proof.
  destruct (SSHRevoke_cases st b)
    as [(e & -> & _) | [(body & e & _ & _ & _ & ->) |
        [(body & e & s' & _ & _ & _ & Hr & ->) | (body & s' & _ & _ & _ & Hr & ->)]]];
    [by left | by left | |]; right; apply ssh_Revoke_store in Hr as (r' & Hr & _);
    eexists; by rewrite Hr.
Qed.

Lemma serve_state st req :
  (serve st req).1 = st \/ exists c o, (serve st req).1 = (Revoke st c o).1.
Proof.
  destruct req as [ctx|b]; simpl.
  - destruct (RevokeCert_state st ctx) as [E|E];
      destruct (RevokeCert db st ctx); simpl in *; auto.
  - destruct (SSHRevoke_state st b) as [E|[o E]]; auto. right. eauto.
Qed.

(** The states [run] passes through are reachable states of the store. *)
Lemma run_reachable st reqs : reachable st -> reachable (run st reqs).1.
Proof.
  revert st. induction reqs as [|req reqs IH]; intros st Hr; [exact Hr|]. simpl.
  destruct (serve st req) as [st1 r] eqn:E. destruct (run st1 reqs) as [st2 rs] eqn:E2.
  simpl. change st2 with (st2, rs).1. rewrite <- E2. apply IH.
  change st1 with (st1, r).1. rewrite <- E.
  destruct (serve_state st req) as [-> | (c & o & ->)]; [exact Hr | by constructor].
Qed.

Lemma run_cons st req reqs :
  (run st (req :: reqs)).1 = (run (serve st req).1 reqs).1.
Proof. simpl. destruct (serve st req), (run _ reqs). reflexivity. Qed.

Lemma serve_tokens_mono st req : used_tokens st ⊆ used_tokens (serve st req).1.
Proof.
  destruct (serve_state st req) as [-> | (c & o & ->)]; [done | apply Revoke_tokens_mono].
Qed.

Lemma run_tokens_mono st reqs : used_tokens st ⊆ used_tokens (run st reqs).1.
Proof.
  revert st. induction reqs as [|req reqs IH]; intros st; [done|].
  rewrite run_cons. etrans; [apply serve_tokens_mono | apply IH].
Qed.

(** A request changes the records only by adding one, for a serial that
    had none, and only when it is answered with success. *)
Lemma serve_records st req :
  revoked (serve st req).1 = revoked st \/
  (reply_ok (serve st req).2 = true /\
   exists sn r, revoked st !! sn = None /\ revoked (serve st req).1 = <[sn := r]> (revoked st)).
Proof.
  destruct req as [ctx|b]; simpl.
  - destruct (revokeCertChecks db st ctx) as [c|e] eqn:Hc; [|unfold RevokeCert; rewrite Hc; by left].
    rewrite (RevokeCert_checked db st ctx c Hc), ca_Revoke_store.
    destruct (Revoke_cases st (Some (GetID (chk_prov c))) (commitOptions c))
      as [(e & He & Hr) | (p & t & st1 & _ & Hn & E)].
    + rewrite He. simpl. left. exact Hr.
    + rewrite E. simpl. right. split; [reflexivity|]. eauto.
  - destruct (out_response (SSHRevoke st b)) as [r|e] eqn:Hresp; simpl.
    + right. split; [reflexivity|].
      destruct (SSHRevoke_store_ok st b r Hresp) as (body & claims & _ & _ & _ & _ & Hn & ->). eauto.
    + left. exact (SSHRevoke_store_error st b e Hresp).
Qed.

(** ** Theorems *)

(** (C7) Revoked is terminal: a record present in the store is kept,
    unchanged, by any later sequence of requests of either endpoint. *)
Theorem run_preserves_records st reqs sn r :
  revoked st !! sn = Some r -> revoked (run st reqs).1 !! sn = Some r.
Proof.
  revert st. induction reqs as [|req reqs IH]; intros st Hr; [exact Hr|].
  rewrite run_cons. apply IH.
  destruct (serve_state st req) as [-> | (c & o & ->)]; [exact Hr | by apply Revoke_keeps_record].
Qed.

(** (C8) Refinement of the certificate state machine of section 4.G: for
    every serial, each request to either endpoint is one of its
    transitions ([issued] stays [issued], [issued] becomes [revoked],
    [revoked] stays [revoked]); a certificate becomes revoked only by a
    request answered with success (200, or ["ok"] for SSH), and the
    record of a revoked certificate is not changed. *)
Theorem serve_cert_step st req sn :
  cert_step (cert_state st sn) (cert_state (serve st req).1 sn) /\
  (cert_state st sn = Issued -> cert_state (serve st req).1 sn = Revoked_ ->
   reply_ok (serve st req).2 = true) /\
  (forall r, revoked st !! sn = Some r -> revoked (serve st req).1 !! sn = Some r).
Proof.
  destruct (serve_records st req) as [E | (Hok & sn' & r & Hn & E)]; unfold cert_state; rewrite E.
  - destruct (revoked st !! sn); split_and!; try constructor; auto; discriminate.
  - destruct (decide (sn = sn')) as [-> | Hne].
    + rewrite Hn, lookup_insert_eq. split_and!; [constructor | auto | intros ? [=]].
    + rewrite lookup_insert_ne by congruence.
      destruct (revoked st !! sn); split_and!; try constructor; auto; discriminate.
Qed.

(** (C9) Token replay: once an SSH revocation has succeeded with a token,
    presenting the same request again, after any sequence of requests, is
    refused by [Authorize] with 401 and changes nothing. *)
Theorem ssh_token_replay_refused st b r reqs :
  out_response (SSHRevoke st b) = SSHOK r ->
  let st2 := (run (out_state (SSHRevoke st b)) reqs).1 in
  out_state (SSHRevoke st2 b) = st2 /\
  out_response (SSHRevoke st2 b) =
    SSHErr (Errs.UnauthorizedErr "authority.Authorize: token already used").
Proof.
  intros Hok st2.
  destruct (SSHRevoke_store_ok st b r Hok) as (body & claims & -> & Hval & Hv & _ & _ & Hst).
  assert (Hin : tc_ID claims ∈ used_tokens st2).
  { apply run_tokens_mono. rewrite Hst. simpl. set_solver. }
  unfold SSHRevoke; cbv zeta. rewrite Hval. simpl. unfold AuthorizeSSHRevoke. rewrite Hv.
  rewrite decide_True by exact Hin. split; reflexivity.
Qed.

End System.

(** ** A concrete run: an SSH revocation of serial ["99"], then the ACME
    revocation of the test certificate, then the SSH request again *)

#[local] Existing Instance echo_tokens.

Definition ssh_first : AuthState := out_state (SSHRevoke ssh_store0 (BodyJSON ssh_req)).

Definition rci_99 : RevokedCertificateInfo :=
  mkRevokedCertificateInfo "99" "jwk-provisioner" 1 "key compromised" false false true "tok-9".

Definition later_reqs : list Request := [ReqAcme (ctx_account_key None); ReqSSH (BodyJSON ssh_req)].

Lemma run_preserves_records_witness :
  revoked ssh_first !! "99" = Some rci_99 /\
  revoked (run acme_db ssh_first later_reqs).1 !! "99" = Some rci_99.
Proof.
  assert (E : revoked ssh_first !! "99" = Some rci_99) by (vm_compute; reflexivity).
  split; [exact E | exact (run_preserves_records acme_db _ _ _ _ E)].
Defined.

Lemma ssh_token_replay_refused_witness :
  out_response (SSHRevoke ssh_store0 (BodyJSON ssh_req)) = SSHOK (mkSSHRevokeResponse "ok") /\
  let st2 := (run acme_db ssh_first [ReqAcme (ctx_account_key None)]).1 in
  out_state (SSHRevoke st2 (BodyJSON ssh_req)) = st2 /\
  out_response (SSHRevoke st2 (BodyJSON ssh_req)) =
    SSHErr (Errs.UnauthorizedErr "authority.Authorize: token already used").
Proof.
  assert (E : out_response (SSHRevoke ssh_store0 (BodyJSON ssh_req)) = SSHOK (mkSSHRevokeResponse "ok"))
    by (vm_compute; reflexivity).
  split; [exact E | exact (ssh_token_replay_refused acme_db _ _ _ [ReqAcme (ctx_account_key None)] E)].
Defined.
