(* ===== verification/Concurrency.v ===== *)
(** Concurrent revocations (section 5 of the specification).

    Each request, to either endpoint, runs its handler in a thread of its
    own.  The store is the only shared resource, and each handler reaches
    it at two points.  [Handler.RevokeCert] reads it in the checks of
    steps 1-8 (through [IsRevoked]) and writes it in the commit of step 9
    ([Revoke], an atomic put-if-absent).  [caHandler.SSHRevoke]
    ([src/api/sshRevoke.go]) reads it in [Authorize] (is the token used?)
    and writes it in [Revoke] (which consumes the token and adds the
    record).  A thread is therefore two atomic steps, [TStart] to
    [TChecked] or [TAuthorized] to [TDone].  A schedule is any sequence of
    thread indices, so the runs of a schedule are every interleaving of
    the two phases of every request.

    Lemma: run one after the other (a serial schedule), the threads
    answer and change the store as the sequential [run] of [System.v],
    for both endpoints.  Theorems: in every interleaving, at most one
    thread commits a given serial.  Copies of a request that would succeed
    alone end, once all have finished under any schedule, with exactly
    one success: for ACME every other copy is answered [alreadyRevoked]
    (scenario 6 of section 8); for SSH every other copy is refused as a
    replay of its token, with 401 by [Authorize] or, if it authorized
    before the commit, with 403 by [Revoke].  Both races are instances
    of one argument (Section [Race]): an invariant of the configurations
    kept by every step of the scheduler. *)

From S2P Require Import Prelude Crypto Errors Revocation Authority AcmeRevoke AcmeRevokeTests SshRevoke System.

(** The state of one request's thread. *)
Inductive Thread :=
| TStart (req : Request)
| TChecked (ctx : RevokeCtx) (c : Checked)
| TAuthorized (body : SSHRevokeRequest)
| TDone (r : Reply) (committed : option string).

(** The serial a finished thread committed, if any. *)
Definition committed (t : Thread) : option string :=
  match t with TDone _ cm => cm | _ => None end.

Definition thread_response (t : Thread) : option Reply :=
  match t with TDone r _ => Some r | _ => None end.

Section Concurrency.
Context `{X509} `{JWSVerifier} `{TokenValidator}.

(** The ACME database. *)
Variable db : gmap string AcmeCertificate.

(** The first phase of [SSHRevoke]: read, [Validate], log the token,
    [Authorize] under [SSHRevokeMethod]. *)
Definition ssh_authorize_step (st : AuthState) (b : Body) : Thread :=
  match b with
  | BodyMalformed err =>
      TDone (ReplySSH (SSHErr (Errs.BadRequestErr err "error reading request body")) []) None
  | BodyJSON body =>
      match Validate body with
      | Some e => TDone (ReplySSH (SSHErr e) []) None
      | None =>
          match ssh_Authorize st SSHRevokeMethod (req_OTT body) with
          | Err e => TDone (ReplySSH (SSHErr (Errs.UnauthorizedErr e)) (logOtt (req_OTT body))) None
          | Ok _ => TAuthorized body
          end
      end
  end.

(** The second phase of [SSHRevoke]: [Revoke] with the token, log the
    revocation, answer. *)
Definition ssh_commit_step (st : AuthState) (body : SSHRevokeRequest) : AuthState * Thread :=
  let opts := with_ott (sshRevokeOptions body) (req_OTT body) in
  let log := logOtt (req_OTT body) in
  match ssh_Revoke st SSHRevokeMethod opts with
  | (st', Err e) =>
      (st', TDone (ReplySSH (SSHErr (Errs.ForbiddenErr e "error revoking ssh certificate")) log) None)
  | (st', Ok _) =>
      (st', TDone (ReplySSH (SSHOK (mkSSHRevokeResponse "ok")) (log ++ logSSHRevoke opts))
                  (Some (Serial opts)))
  end.

(** The first phase of [RevokeCert]: the checks of steps 1-8. *)
Definition acme_check_step (st : AuthState) (ctx : RevokeCtx) : Thread :=
  match revokeCertChecks db st ctx with
  | Err e => TDone (ReplyAcme (RespErr e)) None
  | Ok c => TChecked ctx c
  end.

(** The second phase of [RevokeCert]: the commit of step 9, answer. *)
Definition acme_commit_step (st : AuthState) (ctx : RevokeCtx) (c : Checked) : AuthState * Thread :=
  match ca_Revoke st (Some (GetID (chk_prov c))) (commitOptions c) with
  | (st', Ok _) =>
      (st', TDone (ReplyAcme (RespOK (directory_link (default "" (ctx_baseURL ctx)) (chk_prov c))))
                  (Some (chk_serial c)))
  | (st', Err e) => (st', TDone (ReplyAcme (RespErr (wrapRevokeErr e))) None)
  end.

(** One atomic step of a thread against the store. *)
Definition thread_step (st : AuthState) (t : Thread) : AuthState * Thread :=
  match t with
  | TStart (ReqAcme ctx) => (st, acme_check_step st ctx)
  | TStart (ReqSSH b) => (st, ssh_authorize_step st b)
  | TChecked ctx c => acme_commit_step st ctx c
  | TAuthorized body => ssh_commit_step st body
  | TDone r cm => (st, TDone r cm)
  end.

(** The scheduler runs thread [i] for one step. *)
Definition sched_step (cfg : AuthState * list Thread) (i : nat) : AuthState * list Thread :=
  let '(st, ts) := cfg in
  match ts !! i with
  | Some t => let '(st', t') := thread_step st t in (st', <[i := t']> ts)
  | None => (st, ts)
  end.

Definition run_sched (cfg : AuthState * list Thread) (sch : list nat) : AuthState * list Thread :=
  fold_left sched_step sch cfg.

(** The number of threads that committed serial [sn]. *)
Definition count (sn : string) (ts : list Thread) : nat :=
  length (filter (fun t => committed t = Some sn) ts).

(** The invariant of every interleaving: at most one thread committed a
    serial, and a committed serial has its record in the store. *)
Definition sched_inv (cfg : AuthState * list Thread) : Prop :=
  forall sn, (count sn cfg.2 <= 1)%nat /\ ((0 < count sn cfg.2)%nat -> is_Some (revoked cfg.1 !! sn)).

(** The steps a thread has left. *)
Definition phase (t : Thread) : nat :=
  match t with TStart _ => 2 | TChecked _ _ | TAuthorized _ => 1 | TDone _ _ => 0 end.

(** ** Lemmas *)

Lemma filter_insert_length {A} (P : A -> Prop) `{forall x, Decision (P x)} (l : list A) i x y :
  l !! i = Some x ->
  (length (filter P (<[i := y]> l)) + (if bool_decide (P x) then 1 else 0) =
   length (filter P l) + (if bool_decide (P y) then 1 else 0))%nat.
Proof.
  revert i. induction l as [|z l IH]; intros [|i] Hi; simpl in *; try discriminate.
  - injection Hi as ->. rewrite !filter_cons. repeat case_decide; repeat case_bool_decide; simpl; try lia; contradiction.
  - rewrite !filter_cons. specialize (IH i Hi). case_decide; simpl; lia.
Qed.

(** A commit keeps every record, and a successful one adds the record of
    its serial, which had none. *)
Lemma Revoke_commit st c o :
  let '(st', r) := Revoke st c o in
  (forall sn x, revoked st !! sn = Some x -> revoked st' !! sn = Some x) /\
  (forall v, r = Ok v -> revoked st !! Serial o = None /\ is_Some (revoked st' !! Serial o)).
Proof.
  pose proof (Revoke_keeps_record st c o) as Hk.
  destruct (Revoke st c o) as [st' r] eqn:E. split; [exact Hk|]. intros v ->.
  destruct (Revoke_Ok_inv _ _ _ _ _ E) as (Hn & Hst & _). rewrite Hst, lookup_insert_eq. eauto.
Qed.

(** One step of a thread keeps every record, and either leaves what the
    thread committed unchanged or commits a serial that had no record. *)
Lemma thread_step_cases st t :
  (forall sn r, revoked st !! sn = Some r -> revoked (thread_step st t).1 !! sn = Some r) /\
  (committed (thread_step st t).2 = committed t \/
   (committed t = None /\ exists sn, committed (thread_step st t).2 = Some sn /\
      revoked st !! sn = None /\ is_Some (revoked (thread_step st t).1 !! sn))).
Proof.
  destruct t as [[ctx|b]|ctx c|body|r cm]; unfold thread_step, acme_check_step, acme_commit_step, ssh_authorize_step, ssh_commit_step.
  - destruct (revokeCertChecks db st ctx); simpl; auto.
  - destruct b as [body|err]; simpl; [repeat case_match|]; auto.
  - rewrite ca_Revoke_store.
    pose proof (Revoke_commit st (Some (GetID (chk_prov c))) (commitOptions c)) as Hc.
    rewrite commitOptions_Serial in Hc.
    destruct (Revoke st _ _) as [st' [r|e]]; destruct Hc as [Hk Hc]; simpl; split; auto.
    right. split; [done|]. exists (chk_serial c). eauto.
  - pose proof (Revoke_commit st None (with_ott (sshRevokeOptions body) (req_OTT body))) as Hc.
    simpl. destruct (Revoke st None _) as [st' [r|e]]; destruct Hc as [Hk Hc]; simpl; split; auto.
    right. split; [done|]. eexists. eauto.
  - auto.
Qed.

Lemma sched_inv_step cfg i : sched_inv cfg -> sched_inv (sched_step cfg i).
Proof.
  destruct cfg as [st ts]. unfold sched_step, sched_inv, count; simpl. intros Hinv sn.
  destruct (ts !! i) as [t|] eqn:Ht; [|exact (Hinv sn)].
  destruct (thread_step_cases st t) as [Hkeep Hc].
  destruct (thread_step st t) as [st' t'] eqn:E. simpl in *.
  pose proof (filter_insert_length (fun t => committed t = Some sn) ts i t t' Ht) as Hl. cbv beta in Hl.
  destruct (Hinv sn) as [Hle Hrec].
  destruct Hc as [Hc | (Hn & sn0 & Hc' & Hnone & Hsome)].
  - rewrite Hc in Hl. split; [lia|]. intros Hpos. destruct Hrec as [r Hr]; [lia|]. eauto.
  - rewrite Hn, Hc' in Hl. destruct (decide (sn = sn0)) as [->|Hne].
    + rewrite bool_decide_false in Hl by done. rewrite bool_decide_true in Hl by done.
      assert (length (filter (fun t => committed t = Some sn0) ts) = 0)%nat as Hz.
      { destruct (length _) eqn:?; [done|]. destruct Hrec as [r Hr]; [lia|]. congruence. }
      split; [lia | intros _; exact Hsome].
    + rewrite !bool_decide_false in Hl by congruence.
      split; [lia|]. intros Hpos. destruct Hrec as [r Hr]; [lia|]. eauto.
Qed.

Lemma run_sched_inv cfg sch : sched_inv cfg -> sched_inv (run_sched cfg sch).
Proof.
  revert cfg. induction sch as [|i sch IH]; intros cfg Hinv; [exact Hinv|].
  apply IH, sched_inv_step, Hinv.
Qed.

Lemma sched_inv_init st reqs : sched_inv (st, map TStart reqs).
Proof.
  intros sn. unfold count. simpl.
  replace (filter _ (map TStart reqs)) with (@nil Thread); [simpl; lia|].
  induction reqs as [|req reqs IH]; [reflexivity|]. simpl. rewrite filter_cons_False; done.
Qed.

(** ** Progress: every thread finishes after two of its steps *)

Lemma thread_step_phase st t : (phase (thread_step st t).2 <= phase t - 1)%nat.
Proof.
  destruct t as [[ctx|[body|err]]|ctx c|body|r cm]; unfold thread_step, acme_check_step, acme_commit_step, ssh_authorize_step, ssh_commit_step;
    [destruct (revokeCertChecks db st ctx)|..]; simpl; repeat case_match; simpl; lia.
Qed.

Lemma sched_step_lookup cfg j i :
  (sched_step cfg j).2 !! i =
    if decide (i = j) then (fun t => (thread_step cfg.1 t).2) <$> cfg.2 !! i else cfg.2 !! i.
Proof.
  destruct cfg as [st ts]. unfold sched_step. simpl.
  destruct (ts !! j) as [t|] eqn:Ht; case_decide; subst; rewrite ?Ht; try done;
    destruct (thread_step st t) as [st' t'] eqn:E; simpl.
  - rewrite list_lookup_insert_eq by (eapply lookup_lt_Some; eauto). by rewrite E.
  - by rewrite list_lookup_insert_ne.
Qed.

(** After a schedule, thread [i] has at most its phase less the number of
    times the schedule ran it. *)
Lemma run_sched_phase cfg sch i t :
  cfg.2 !! i = Some t ->
  exists t', (run_sched cfg sch).2 !! i = Some t' /\ (phase t' <= phase t - count_occ Nat.eq_dec sch i)%nat.
Proof.
  revert cfg t. induction sch as [|j sch IH]; intros cfg t Ht; simpl.
  - exists t. split; [exact Ht | lia].
  - pose proof (sched_step_lookup cfg j i) as Hl. rewrite Ht in Hl.
    destruct (decide (i = j)) as [->|Hne]; simpl in Hl.
    + destruct (IH _ _ Hl) as (t' & Ht' & Hp). exists t'. split; [exact Ht'|].
      pose proof (thread_step_phase cfg.1 t). destruct (Nat.eq_dec j j); [lia|done].
    + destruct (IH _ _ Hl) as (t' & Ht' & Hp). exists t'. split; [exact Ht'|].
      destruct (Nat.eq_dec j i); [congruence|lia].
Qed.

Lemma run_sched_length cfg sch : length (run_sched cfg sch).2 = length cfg.2.
Proof.
  revert cfg. induction sch as [|j sch IH]; intros [st ts]; [done|]. simpl. rewrite IH.
  unfold sched_step. destruct (ts !! j); [|done]. destruct (thread_step st t). simpl.
  apply length_insert.
Qed.

(** ** Serial schedules

    The schedule [i, i, i+1, i+1, ...] runs the threads from [i] on one
    after the other, each to its end. *)

Fixpoint serial (i n : nat) : list nat :=
  match n with O => [] | S n' => i :: i :: serial (S i) n' end.

(** A thread run alone, its first phase then its commit, is [serve]. *)
Lemma thread_two_steps st req :
  thread_response (thread_step (thread_step st (TStart req)).1 (thread_step st (TStart req)).2).2 =
    Some (serve db st req).2 /\
  (thread_step (thread_step st (TStart req)).1 (thread_step st (TStart req)).2).1 = (serve db st req).1.
Proof.
  destruct req as [ctx|[body|err]];
    unfold serve, thread_step, acme_check_step, acme_commit_step, ssh_authorize_step, ssh_commit_step; simpl.
  - unfold RevokeCert. destruct (revokeCertChecks db st ctx) as [c|e]; simpl; [|auto].
    destruct (Revoke st (Some (GetID (chk_prov c))) (commitOptions c)) as [st' [u|e]]; simpl; auto.
  - unfold SSHRevoke. destruct (Validate body); simpl; [auto|].
    destruct (AuthorizeSSHRevoke st _); simpl; [|auto].
    destruct (Revoke st None _) as [st' [u|e]]; simpl; auto.
  - auto.
Qed.

Lemma sched_step_middle st ds t rest :
  sched_step (st, ds ++ t :: rest) (length ds) =
    ((thread_step st t).1, ds ++ (thread_step st t).2 :: rest).
Proof.
  unfold sched_step. rewrite list_lookup_middle by done.
  destruct (thread_step st t) as [st' t']. by rewrite insert_app_r_alt, Nat.sub_diag by lia.
Qed.

Lemma run_snd_cons st req reqs :
  (run db st (req :: reqs)).2 = (serve db st req).2 :: (run db (serve db st req).1 reqs).2.
Proof. simpl. destruct (serve db st req), (run db _ reqs). reflexivity. Qed.

(** The threads before [length ds] are not touched by a serial schedule
    of the others, which answer as [run]. *)
Lemma run_sched_serial st ds reqs :
  (run_sched (st, ds ++ map TStart reqs) (serial (length ds) (length reqs))).1 = (run db st reqs).1 /\
  map thread_response (run_sched (st, ds ++ map TStart reqs) (serial (length ds) (length reqs))).2 =
    map thread_response ds ++ map Some (run db st reqs).2.
Proof.
  revert st ds. induction reqs as [|req reqs IH]; intros st ds.
  - unfold run_sched. simpl. rewrite !app_nil_r. auto.
  - unfold run_sched. cbn [map length serial fold_left]. rewrite !sched_step_middle. cbn [fst snd].
    destruct (thread_two_steps st req) as [Hr Hs].
    set (p1 := thread_step st (TStart req)) in *. set (p2 := thread_step p1.1 p1.2) in *.
    pose proof (IH p2.1 (ds ++ [p2.2])) as [IH1 IH2]. rewrite length_app, Nat.add_comm in IH1, IH2.
    rewrite <- app_assoc in IH1, IH2. simpl in IH1, IH2. unfold run_sched in IH1, IH2.
    rewrite IH1, IH2, Hs, map_app, <- app_assoc. split; [by rewrite run_cons|].
    rewrite run_snd_cons. simpl. by rewrite Hr.
Qed.

(** ** A race of identical requests

    Copies of one request, which alone would be answered with success
    and leave the store [st1].  Until one of them commits, the store is
    [st] and every thread is [pending]; a pending thread either stays
    pending without touching the store or commits, becoming [winner].
    Afterwards the store is [st1], exactly one thread is the winner and
    every other is a [loser], which the store [st1] keeps a loser. *)

Section Race.
Variables (st st1 : AuthState) (pending loser : Thread -> Prop) (winner : Thread).
Hypothesis Hpending : forall t, pending t ->
  (exists t', thread_step st t = (st, t') /\ pending t') \/ thread_step st t = (st1, winner).
Hypothesis Hloser : forall t, loser t -> exists t', thread_step st1 t = (st1, t') /\ loser t'.
Hypothesis Hpending_loser : forall t, pending t -> loser t.
Hypothesis Hwinner : thread_step st1 winner = (st1, winner).

Definition race_inv (cfg : AuthState * list Thread) : Prop :=
  (cfg.1 = st /\ Forall pending cfg.2) \/
  (cfg.1 = st1 /\ exists i, cfg.2 !! i = Some winner /\
     forall j t, j <> i -> cfg.2 !! j = Some t -> loser t).

Lemma race_inv_step cfg j : race_inv cfg -> race_inv (sched_step cfg j).
Proof.
  destruct cfg as [s ts]. unfold sched_step, race_inv. simpl.
  destruct (ts !! j) as [t|] eqn:Ht; [|done].
  assert (Hj : (j < length ts)%nat) by (eapply lookup_lt_Some; eauto).
  intros [[-> Hp] | [-> (i & Hi & Hl)]].
  - destruct (Hpending t (Forall_lookup_1 _ _ _ _ Hp Ht)) as [(t' & E & Ht')|E]; rewrite E; simpl.
    + left. split; [done|]. by apply Forall_insert.
    + right. split; [done|]. exists j. split; [by rewrite list_lookup_insert_eq|].
      intros k tk Hk. rewrite list_lookup_insert_ne by congruence. intros Hk'.
      apply Hpending_loser. eapply Forall_lookup_1; eauto.
  - destruct (decide (j = i)) as [->|Hne].
    + rewrite Hi in Ht. injection Ht as <-. rewrite Hwinner. simpl.
      rewrite list_insert_id by done. eauto.
    + destruct (Hloser t (Hl j t Hne Ht)) as (t' & E & Ht'). rewrite E. simpl.
      right. split; [done|]. exists i. split; [by rewrite list_lookup_insert_ne|].
      intros k tk Hk. destruct (decide (k = j)) as [->|Hkj].
      * rewrite list_lookup_insert_eq by done. by intros [= <-].
      * rewrite list_lookup_insert_ne by congruence. apply Hl, Hk.
Qed.

Lemma run_sched_race_inv cfg sch : race_inv cfg -> race_inv (run_sched cfg sch).
Proof.
  revert cfg. induction sch as [|j sch IH]; intros cfg Hinv; [exact Hinv|].
  apply IH, race_inv_step, Hinv.
Qed.

(** Once every copy has answered, one is the winner and the others are
    losers. *)
Lemma race_outcome t0 n sch :
  pending t0 -> (forall t, pending t -> thread_response t = None) ->
  let '(st', ts) := run_sched (st, replicate (S n) t0) sch in
  Forall (fun t => is_Some (thread_response t)) ts ->
  st' = st1 /\ exists i, ts !! i = Some winner /\
    forall j t, j <> i -> ts !! j = Some t -> loser t /\ is_Some (thread_response t).
Proof.
  intros Ht0 Hnone.
  assert (Hinit : race_inv (st, replicate (S n) t0)) by (left; split; [done|by apply Forall_replicate]).
  pose proof (run_sched_race_inv _ sch Hinit) as Hinv.
  pose proof (run_sched_length (st, replicate (S n) t0) sch) as Hlen.
  destruct (run_sched _ sch) as [st' ts]. unfold race_inv in Hinv. simpl in *.
  rewrite length_replicate in Hlen. intros Hfin.
  destruct Hinv as [[-> Hp] | [-> (i & Hi & Hw)]].
  - destruct (lookup_lt_is_Some_2 ts 0) as [t Ht]; [lia|].
    pose proof (Forall_lookup_1 _ _ _ _ Hfin Ht) as Hs. cbv beta in Hs.
    by rewrite (Hnone t (Forall_lookup_1 _ _ _ _ Hp Ht)) in Hs; destruct Hs.
  - split; [done|]. exists i. split; [done|]. intros j t Hj Ht.
    split; [exact (Hw j t Hj Ht) | exact (Forall_lookup_1 _ _ _ _ Hfin Ht)].
Qed.

End Race.

(** *** Copies of an ACME request: the losers are answered [alreadyRevoked] *)

Section AcmeRace.
Variables (st st1 : AuthState) (ctx : RevokeCtx) (c : Checked) (l : string).
Hypothesis Hchecks : revokeCertChecks db st ctx = Ok c.
Hypothesis Hcommit : ca_Revoke st (Some (GetID (chk_prov c))) (commitOptions c) = (st1, Ok tt).
Hypothesis Hlink : l = directory_link (default "" (ctx_baseURL ctx)) (chk_prov c).

Definition acme_pending (t : Thread) : Prop := t = TStart (ReqAcme ctx) \/ t = TChecked ctx c.

Definition acme_winner : Thread := TDone (ReplyAcme (RespOK l)) (Some (chk_serial c)).

Definition acme_loser (t : Thread) : Prop :=
  acme_pending t \/
  exists e, t = TDone (ReplyAcme (RespErr e)) None /\ Acme.Type_ e = Acme.ErrorAlreadyRevokedType.

Lemma acme_pending_step t : acme_pending t ->
  (exists t', thread_step st t = (st, t') /\ acme_pending t') \/ thread_step st t = (st1, acme_winner).
Proof.
  intros [-> | ->]; unfold thread_step, acme_check_step, acme_commit_step.
  - rewrite Hchecks. left. eexists. split; [reflexivity|]. by right.
  - rewrite Hcommit. right. unfold acme_winner. by rewrite Hlink.
Qed.

Lemma committed_revoked : IsRevoked st1 (chk_serial c) = true.
Proof.
  pose proof (ca_revoke_visible _ _ _ _ Hcommit) as Hv. rewrite commitOptions_Serial in Hv.
  simpl in Hv. by injection Hv.
Qed.

Lemma acme_loser_step t : acme_loser t -> exists t', thread_step st1 t = (st1, t') /\ acme_loser t'.
Proof.
  intros [[-> | ->] | (e & -> & He)]; unfold thread_step, acme_check_step, acme_commit_step.
  - rewrite (revokeCertChecks_other_state db st st1 ctx c true Hchecks)
      by (simpl; by rewrite committed_revoked).
    eexists. split; [reflexivity|]. right. eauto.
  - rewrite ca_Revoke_store.
    pose proof committed_revoked as Hr. rewrite <- (commitOptions_Serial c) in Hr.
    pose proof (authorizeRevoke_ack st1 (GetID (chk_prov c)) _ (chk_cert c)
                  (commitOptions_OTT c) (commitOptions_Crt c)) as Hack.
    destruct (Revoke_on_revoked st1 (Some (GetID (chk_prov c))) (commitOptions c) Hr)
      as [Hs [(e & He & _) | [He Hcont]]]; rewrite Hack in Hs; [rewrite Hack in He; discriminate|].
    simpl in Hs. rewrite He, Hs. eexists. split; [reflexivity|].
    right. eexists. split; [reflexivity|]. unfold wrapRevokeErr. by rewrite Hcont.
  - eexists. split; [reflexivity|]. right. eauto.
Qed.

End AcmeRace.

(** *** Copies of an SSH request: the losers are refused as replays

    A copy that authorizes after the commit is refused by [Authorize]
    (401); one that authorized before it is refused by [Revoke] (403),
    the token having been consumed in between. *)

Definition ssh_opts (body : SSHRevokeRequest) : RevokeOptions :=
  with_ott (sshRevokeOptions body) (req_OTT body).

Definition replay_401 (ott : string) : Thread :=
  TDone (ReplySSH (SSHErr (Errs.UnauthorizedErr "authority.Authorize: token already used"))
                  (logOtt ott)) None.

Definition replay_403 (ott : string) : Thread :=
  TDone (ReplySSH (SSHErr (Errs.ForbiddenErr "authority.Revoke: token already used"
                                             "error revoking ssh certificate"))
                  (logOtt ott)) None.

Section SSHRace.
Variables (st st1 : AuthState) (body : SSHRevokeRequest).
Hypothesis Hval : Validate body = None.
Hypothesis Hauth : ssh_Authorize st SSHRevokeMethod (req_OTT body) = Ok tt.
Hypothesis Hcommit : ssh_Revoke st SSHRevokeMethod (ssh_opts body) = (st1, Ok tt).

Definition ssh_pending (t : Thread) : Prop := t = TStart (ReqSSH (BodyJSON body)) \/ t = TAuthorized body.

Definition ssh_winner : Thread :=
  TDone (ReplySSH (SSHOK (mkSSHRevokeResponse "ok"))
                  (logOtt (req_OTT body) ++ logSSHRevoke (ssh_opts body)))
        (Some (req_Serial body)).

Definition ssh_loser (t : Thread) : Prop :=
  ssh_pending t \/ t = replay_401 (req_OTT body) \/ t = replay_403 (req_OTT body).

(** After the commit, the token of the request is consumed. *)
Lemma ssh_token_consumed :
  exists claims, ValidateToken (req_OTT body) = Ok claims /\ tc_ID claims ∈ used_tokens st1.
Proof.
  apply ssh_Revoke_store in Hcommit as (r & Hr & Hu). destruct r as [rci|]; [|discriminate].
  apply Validate_ok_fields in Hval as [Hott _].
  destruct (Revoke_with_ott st None (ssh_opts body) _ _ Hott Hr) as (claims & Hv & _ & _ & -> & _).
  exists claims. split; [exact Hv|]. simpl. set_solver.
Qed.

Lemma ssh_pending_step t : ssh_pending t ->
  (exists t', thread_step st t = (st, t') /\ ssh_pending t') \/ thread_step st t = (st1, ssh_winner).
Proof.
  intros [-> | ->]; unfold thread_step, ssh_authorize_step, ssh_commit_step.
  - rewrite Hval, Hauth. left. eexists. split; [reflexivity|]. by right.
  - fold (ssh_opts body). rewrite Hcommit. by right.
Qed.

Lemma ssh_loser_step t : ssh_loser t -> exists t', thread_step st1 t = (st1, t') /\ ssh_loser t'.
Proof.
  destruct ssh_token_consumed as (claims & Hv & Hu).
  pose proof Hval as Hott. apply Validate_ok_fields in Hott as [Hott _].
  intros [[-> | ->] | [-> | ->]]; unfold thread_step, ssh_authorize_step, ssh_commit_step;
    try (eexists; split; [reflexivity|]; right; first [by left | by right]).
  - rewrite Hval. simpl. unfold AuthorizeSSHRevoke. rewrite Hv, decide_True by exact Hu.
    eexists. split; [reflexivity|]. right. left. reflexivity.
  - simpl. unfold Revoke, authorizeRevoke. simpl. rewrite decide_True by exact Hott.
    rewrite Hv, decide_True by exact Hu. simpl. eexists. split; [reflexivity|]. right. right. reflexivity.
Qed.

End SSHRace.

(** What a request answered 200 alone gives the race. *)
Lemma RevokeCert_OK_race (st : AuthState) ctx l st1 :
  RevokeCert db st ctx = (RespOK l, st1) ->
  exists c, revokeCertChecks db st ctx = Ok c /\
    ca_Revoke st (Some (GetID (chk_prov c))) (commitOptions c) = (st1, Ok tt) /\
    l = directory_link (default "" (ctx_baseURL ctx)) (chk_prov c).
Proof.
  intros HR. destruct (RevokeCert_OK_inv _ _ _ _ _ HR) as (c & Hc & Hrev).
  exists c. split_and!; [done|done|].
  rewrite (RevokeCert_checked _ _ _ _ Hc), Hrev in HR. congruence.
Qed.

(** ** Theorems *)

(** (C12) Compare-and-set (section 5): in every interleaving of any number
    of concurrent requests, at most one thread commits a given serial, so
    at most one of them is answered 200 for it, and a committed serial
    has its record in the store. *)
Theorem at_most_one_commit st0 reqs sch sn :
  let '(st, ts) := run_sched (st0, map TStart reqs) sch in
  (count sn ts <= 1)%nat /\ ((0 < count sn ts)%nat -> is_Some (revoked st !! sn)).
Proof.
  pose proof (run_sched_inv (st0, map TStart reqs) sch (sched_inv_init st0 reqs) sn) as Hinv.
  destruct (run_sched _ sch). exact Hinv.
Qed.

(** (C10) A race of identical requests (scenario 6 of section 8): when any
    number of copies of a request that alone would be answered 200 run
    concurrently, then once all have finished, under any interleaving,
    exactly one is answered 200, every other is answered [alreadyRevoked],
    and the store is the one the request alone would have left. *)
Theorem identical_requests_one_winner (st : AuthState) ctx l st1 n sch :
  RevokeCert db st ctx = (RespOK l, st1) ->
  let '(st', ts) := run_sched (st, replicate (S n) (TStart (ReqAcme ctx))) sch in
  Forall (fun t => is_Some (thread_response t)) ts ->
  st' = st1 /\
  exists i, (ts !! i ≫= thread_response) = Some (ReplyAcme (RespOK l)) /\
    forall j t, j <> i -> ts !! j = Some t ->
      exists e, thread_response t = Some (ReplyAcme (RespErr e)) /\
        Acme.Type_ e = Acme.ErrorAlreadyRevokedType.
Proof.
  intros HR. destruct (RevokeCert_OK_race _ _ _ _ HR) as (c & Hc & Hrev & Hl).
  pose proof (race_outcome st st1 (acme_pending ctx c) (acme_loser ctx c) (acme_winner c l)
                (acme_pending_step st st1 ctx c l Hc Hrev Hl) (acme_loser_step st st1 ctx c Hc Hrev)
                (fun t Ht => or_introl Ht) eq_refl (TStart (ReqAcme ctx)) n sch
                (or_introl eq_refl) (fun t Ht => ltac:(by destruct Ht as [-> | ->]))) as W.
  destruct (run_sched _ sch) as [st' ts]. intros Hfin.
  destruct (W Hfin) as (-> & i & Hi & Hw). split; [done|]. exists i. rewrite Hi. split; [done|].
  intros j t Hj Ht. destruct (Hw j t Hj Ht) as [[[-> | ->] | (e & -> & He)] [? Hs]];
    simpl in Hs; [done|done|eauto].
Qed.

(** (C11) A race of identical SSH revocations: when any number of copies
    of an [/ssh/revoke] request that alone would be answered ok run
    concurrently, then once all have finished, under any interleaving,
    exactly one is answered ok, with the log the request alone would
    have written, the store is the one the request alone would have
    left, and every other copy is refused as a replay of its token, with
    the token logged: 401 by [Authorize] if it authorized after the
    commit, 403 by [Revoke] if before. *)
Theorem identical_ssh_requests_one_winner (st : AuthState) b n sch :
  out_response (SSHRevoke st b) = SSHOK (mkSSHRevokeResponse "ok") ->
  let '(st', ts) := run_sched (st, replicate (S n) (TStart (ReqSSH b))) sch in
  Forall (fun t => is_Some (thread_response t)) ts ->
  st' = out_state (SSHRevoke st b) /\
  exists body i, b = BodyJSON body /\
    (ts !! i ≫= thread_response) =
      Some (ReplySSH (SSHOK (mkSSHRevokeResponse "ok")) (out_log (SSHRevoke st b))) /\
    forall j t, j <> i -> ts !! j = Some t ->
      t = replay_401 (req_OTT body) \/ t = replay_403 (req_OTT body).
Proof.
  intros Hok.
  destruct (SSHRevoke_cases st b)
    as [(e & E & _) | [(body & e & _ & _ & _ & E) |
        [(body & e & s' & _ & _ & _ & _ & E) | (body & s' & -> & Hv & Ha & Hr & E)]]];
    rewrite E in Hok |- *; try discriminate. simpl.
  pose proof (race_outcome st s' (ssh_pending body) (ssh_loser body) (ssh_winner body)
                (ssh_pending_step st s' body Hv Ha Hr) (ssh_loser_step st s' body Hv Ha Hr)
                (fun t Ht => or_introl Ht) eq_refl (TStart (ReqSSH (BodyJSON body))) n sch
                (or_introl eq_refl) (fun t Ht => ltac:(by destruct Ht as [-> | ->]))) as W.
  destruct (run_sched _ sch) as [st' ts]. intros Hfin.
  destruct (W Hfin) as (-> & i & Hi & Hw). split; [done|]. exists body, i.
  rewrite Hi. split_and!; [done|done|].
  intros j t Hj Ht. destruct (Hw j t Hj Ht) as [[[-> | ->] | Hl] [? Hs]]; simpl in Hs; done.
Qed.

End Concurrency.


(** ** Two copies of a request, both checked before either commits *)

#[local] Existing Instance echo_tokens.

Definition race_sched : list nat := [0; 1; 0; 1]%nat.

(** The test's account-key revocation, twice. *)
Definition race_ctx : RevokeCtx := ctx_account_key None.

Definition race_run : AuthState * list Thread :=
  run_sched acme_db (store0, replicate 2 (TStart (ReqAcme race_ctx))) race_sched.

(** The second ACME commit is refused by the store itself and answered
    [alreadyRevoked] with the authority's message. *)
Example race_second_commit_refused :
  map thread_response race_run.2 =
    [Some (ReplyAcme (RespOK expected_link));
     Some (ReplyAcme (RespErr (Acme.NewError Acme.ErrorAlreadyRevokedType
       (already_revoked_msg (serial_string (SerialNumber cert))))))].
Proof. vm_compute. reflexivity. Qed.

(** The SSH revocation of [SshRevoke.v], twice: both pass [Authorize]
    (the token is not used yet), so the second is refused by [Revoke],
    403, where the same request after the first has finished is refused
    by [Authorize], 401 ([System.ssh_token_replay_refused]). *)
Example ssh_race_forbidden :
  map thread_response
    (run_sched acme_db (ssh_store0, replicate 2 (TStart (ReqSSH (BodyJSON ssh_req)))) race_sched).2 =
    [Some (ReplySSH (SSHOK (mkSSHRevokeResponse "ok"))
                    (logOtt "tok-9" ++ logSSHRevoke (ssh_opts ssh_req)));
     Some (ReplySSH (SSHErr (Errs.ForbiddenErr "authority.Revoke: token already used"
                                               "error revoking ssh certificate"))
                    (logOtt "tok-9"))].
Proof. vm_compute. reflexivity. Qed.

Lemma identical_requests_one_winner_witness :
  run_store store0 race_ctx = (RespOK expected_link, (run_store store0 race_ctx).2) /\
  (Forall (fun t => is_Some (thread_response t)) race_run.2 ->
   race_run.1 = (run_store store0 race_ctx).2 /\
   exists i, (race_run.2 !! i ≫= thread_response) = Some (ReplyAcme (RespOK expected_link)) /\
     forall j t, j <> i -> race_run.2 !! j = Some t ->
       exists e, thread_response t = Some (ReplyAcme (RespErr e)) /\
         Acme.Type_ e = Acme.ErrorAlreadyRevokedType).
Proof.
  assert (E : run_store store0 race_ctx = (RespOK expected_link, (run_store store0 race_ctx).2))
    by (vm_compute; reflexivity).
  split; [exact E|].
  pose proof (identical_requests_one_winner acme_db store0 race_ctx _ _ 1 race_sched E) as W.
  unfold race_run. destruct (run_sched _ _ _). exact W.
Defined.
Definition ssh_race_run : AuthState * list Thread :=
  run_sched acme_db (ssh_store0, replicate 2 (TStart (ReqSSH (BodyJSON ssh_req)))) race_sched.

Lemma identical_ssh_requests_one_winner_witness :
  out_response (SSHRevoke ssh_store0 (BodyJSON ssh_req)) = SSHOK (mkSSHRevokeResponse "ok") /\
  (Forall (fun t => is_Some (thread_response t)) ssh_race_run.2 ->
   ssh_race_run.1 = out_state (SSHRevoke ssh_store0 (BodyJSON ssh_req)) /\
   exists body i, BodyJSON ssh_req = BodyJSON body /\
     (ssh_race_run.2 !! i ≫= thread_response) =
       Some (ReplySSH (SSHOK (mkSSHRevokeResponse "ok")) (out_log (SSHRevoke ssh_store0 (BodyJSON ssh_req)))) /\
     forall j t, j <> i -> ssh_race_run.2 !! j = Some t ->
       t = replay_401 (req_OTT body) \/ t = replay_403 (req_OTT body)).
Proof.
  assert (E : out_response (SSHRevoke ssh_store0 (BodyJSON ssh_req)) = SSHOK (mkSSHRevokeResponse "ok"))
    by (vm_compute; reflexivity).
  split; [exact E|].
  pose proof (identical_ssh_requests_one_winner acme_db ssh_store0 (BodyJSON ssh_req) 1 race_sched E) as W.
  unfold ssh_race_run. destruct (run_sched _ _ _). exact W.
Defined.
