(* ===== verification/SameSerial.v ===== *)
(** Concurrent revocations of one serial by different requests (section 5
    of the specification: "the persistence layer must reject a conflicting
    second writer").

    [Concurrency.v] runs any requests to either endpoint as threads of two
    atomic steps.  Here the requests may differ (an ACME revocation by the
    account key, one by the certificate key, SSH revocations with
    different tokens) but each, run alone from the store [st], commits the
    same serial [sn].  Whatever the interleaving, once every thread has
    finished exactly one of them committed [sn] and was answered with
    success, and every ACME request among the others was answered
    [alreadyRevoked]: its check finds the record, or its commit is refused
    by the store with the authority's already-revoked message.

    The argument: until the first commit the store is [st] (the first
    phases only read it), so every thread is still at its start or past
    a first phase that, from [st], leads to a commit; the first commit
    therefore succeeds.  Commits are never undone, so at least one thread
    committed [sn] at the end; [at_most_one_commit] bounds it by one. *)

From S2P Require Import Prelude Crypto Errors Revocation Authority AcmeRevoke AcmeRevokeTests SshRevoke System Concurrency.

Section SameSerial.
Context `{X509} `{JWSVerifier} `{TokenValidator}.
Variable db : gmap string AcmeCertificate.
Variables (st : AuthState) (sn : string).

(** The thread of [req] after its first phase from [st]. *)
Definition first_phase (req : Request) : Thread := (thread_step db st (TStart req)).2.

(** [req], run alone from [st], commits [sn]. *)
Definition commits_alone (req : Request) : Prop :=
  committed (thread_step db st (first_phase req)).2 = Some sn.

Variable reqs : list Request.
Hypothesis Halone : Forall commits_alone reqs.

(** A thread of [reqs] that has not touched the store yet. *)
Definition fresh (t : Thread) : Prop :=
  exists req, req ∈ reqs /\ (t = TStart req \/ t = first_phase req).

Definition one_commit_inv (cfg : AuthState * list Thread) : Prop :=
  (cfg.1 = st /\ Forall fresh cfg.2) \/ (1 <= count sn cfg.2)%nat.

(** ** Lemmas *)

Lemma first_phase_state req : (thread_step db st (TStart req)).1 = st.
Proof.
  destruct req as [ctx|b]; unfold thread_step; simpl; reflexivity.
Qed.

(** A fresh thread steps from [st] to a fresh thread without changing the
    store, or commits [sn]. *)
Lemma fresh_step t : fresh t ->
  (fresh (thread_step db st t).2 /\ (thread_step db st t).1 = st) \/
  committed (thread_step db st t).2 = Some sn.
Proof.
  intros (req & Hin & [-> | ->]).
  - left. split; [|apply first_phase_state]. exists req. split; [exact Hin | by right].
  - right. exact (proj1 (Forall_forall _ _) Halone req Hin).
Qed.

(** A fresh thread has not answered. *)
Lemma fresh_no_response t : fresh t -> thread_response t = None.
Proof.
  intros (req & Hin & [-> | ->]); [reflexivity|].
  pose proof (proj1 (Forall_forall _ _) Halone req Hin) as Hc. unfold commits_alone in Hc.
  destruct (first_phase req) as [| | |r cm] eqn:E; try reflexivity.
  exfalso. revert Hc. unfold first_phase in E. destruct req as [ctx|[body|err]];
    unfold thread_step, acme_check_step, ssh_authorize_step in E; simpl in E;
    repeat case_match; simplify_eq; discriminate.
Qed.

(** The number of threads that committed [sn] never decreases. *)
Lemma count_sched_step cfg j : (count sn cfg.2 <= count sn (sched_step db cfg j).2)%nat.
Proof.
  destruct cfg as [s ts]. unfold sched_step, count. simpl.
  destruct (ts !! j) as [t|] eqn:Ht; [|simpl; lia].
  destruct (thread_step_cases db s t) as [_ Hc].
  destruct (thread_step db s t) as [s' t'] eqn:E. simpl in *.
  pose proof (filter_insert_length (fun t => committed t = Some sn) ts j t t' Ht) as Hl. cbv beta in Hl.
  destruct Hc as [Hc | (Hn & sn0 & Hc' & _)]; [rewrite Hc in Hl; lia|].
  rewrite Hn, bool_decide_false in Hl by done. case_bool_decide; lia.
Qed.

Lemma one_commit_inv_step cfg j : one_commit_inv cfg -> one_commit_inv (sched_step db cfg j).
Proof.
  intros [[Hs Hf] | Hc]; [|right; pose proof (count_sched_step cfg j); lia].
  destruct cfg as [s ts]. simpl in Hs, Hf. subst s. unfold sched_step.
  destruct (ts !! j) as [t|] eqn:Ht; [|by left].
  destruct (fresh_step t (Forall_lookup_1 _ _ _ _ Hf Ht)) as [[Hf' Hs'] | Hc].
  - destruct (thread_step db st t) as [s' t'] eqn:E. simpl in *. subst s'.
    left. split; [done|]. by apply Forall_insert.
  - destruct (thread_step db st t) as [s' t'] eqn:E. simpl in *. right. unfold count.
    assert (Hj : (j < length ts)%nat) by (eapply lookup_lt_Some; eauto).
    assert (Hin : t' ∈ <[j := t']> ts) by (apply list_elem_of_lookup_2 with j; by rewrite list_lookup_insert_eq).
    pose proof (proj2 (list_elem_of_filter (fun t => committed t = Some sn) _ t') (conj Hc Hin)) as Hf'.
    destruct (filter _ _); [set_solver | simpl; lia].
Qed.

Lemma run_sched_one_commit_inv cfg sch : one_commit_inv cfg -> one_commit_inv (run_sched db cfg sch).
Proof.
  revert cfg. induction sch as [|j sch IH]; intros cfg Hinv; [exact Hinv|].
  apply IH, one_commit_inv_step, Hinv.
Qed.

(** What a request that commits alone tells of its first phase. *)
Lemma commits_alone_acme ctx :
  commits_alone (ReqAcme ctx) -> exists c, revokeCertChecks db st ctx = Ok c /\ chk_serial c = sn.
Proof.
  unfold commits_alone, first_phase, thread_step, acme_check_step.
  destruct (revokeCertChecks db st ctx) as [c|e]; simpl; [|discriminate].
  unfold acme_commit_step. destruct (ca_Revoke _ _ _) as [s' [u|e]]; simpl; [|discriminate].
  intros [= <-]. eauto.
Qed.

Lemma commits_alone_ssh b :
  commits_alone (ReqSSH b) -> exists body, b = BodyJSON body /\ req_Serial body = sn.
Proof.
  unfold commits_alone, first_phase, thread_step, ssh_authorize_step.
  destruct b as [body|err]; simpl; [|discriminate].
  destruct (Validate body); simpl; [discriminate|].
  destruct (AuthorizeSSHRevoke st _ _); simpl; [|discriminate].
  unfold ssh_commit_step. destruct (ssh_Revoke _ _ _) as [s' [u|e]]; simpl; [|discriminate].
  intros [= <-]. eauto.
Qed.

(** The threads of [reqs] only ever commit [sn]. *)
Definition on_serial (t : Thread) : Prop :=
  match t with
  | TStart req => req ∈ reqs
  | TChecked _ c => chk_serial c = sn
  | TAuthorized body => req_Serial body = sn
  | TDone _ cm => cm = None \/ cm = Some sn
  end.

Lemma on_serial_step s t : on_serial t -> on_serial (thread_step db s t).2.
Proof.
  destruct t as [[ctx|b]|ctx c|body|r cm]; simpl; intros Ht.
  - destruct (commits_alone_acme ctx (proj1 (Forall_forall _ _) Halone _ Ht)) as (c & Hc & Hs).
    unfold acme_check_step.
    rewrite (revokeCertChecks_other_state db st s ctx c (IsRevoked s (chk_serial c)) Hc eq_refl).
    destruct (IsRevoked s (chk_serial c)); simpl; auto.
  - destruct (commits_alone_ssh b (proj1 (Forall_forall _ _) Halone _ Ht)) as (body & -> & Hs).
    unfold ssh_authorize_step. repeat case_match; simpl; auto.
  - unfold acme_commit_step. case_match; case_match; simpl; rewrite ?Ht; auto.
  - unfold ssh_commit_step. case_match; case_match; simpl; rewrite ?Ht; auto.
  - exact Ht.
Qed.

(** A finished thread answered with success exactly when it committed. *)
Definition thread_success (t : Thread) : bool :=
  match t with TDone r _ => reply_ok r | _ => false end.

Definition reply_matches (t : Thread) : Prop :=
  match t with TDone r cm => reply_ok r = bool_decide (is_Some cm) | _ => True end.

Lemma reply_matches_step s t : reply_matches t -> reply_matches (thread_step db s t).2.
Proof.
  destruct t as [[ctx|[body|err]]|ctx c|body|r cm]; simpl; intros Ht;
    unfold acme_check_step, ssh_authorize_step, acme_commit_step, ssh_commit_step;
    repeat case_match; simplify_eq; simpl; auto.
Qed.

Lemma run_sched_Forall (P : Thread -> Prop) cfg sch :
  (forall s t, P t -> P (thread_step db s t).2) -> Forall P cfg.2 -> Forall P (run_sched db cfg sch).2.
Proof.
  intros HP. revert cfg. induction sch as [|j sch IH]; intros [s ts] Hts; [exact Hts|].
  apply IH. unfold sched_step. simpl. destruct (ts !! j) as [t|] eqn:Ht; [|exact Hts].
  pose proof (HP s t (Forall_lookup_1 _ _ _ _ Hts Ht)) as Ht'.
  destruct (thread_step db s t) as [s' t']. by apply Forall_insert.
Qed.

Lemma success_iff_committed t :
  on_serial t -> reply_matches t -> thread_success t = true <-> committed t = Some sn.
Proof.
  destruct t as [req|ctx c|body|r cm]; simpl; try (split; discriminate).
  intros [-> | ->] ->; rewrite ?bool_decide_false, ?bool_decide_true by (by eauto || by intros []);
    split; congruence.
Qed.

(** An ACME commit authorizes from the context's provisioner, whatever
    the store; it fails only on a serial that already has a record, with
    the authority's already-revoked message. *)
Lemma acme_commit_Revoke_err s p c s' e :
  Revoke s (Some p) (commitOptions c) = (s', Err e) -> e = already_revoked_msg (chk_serial c).
Proof.
  assert (Ha : authorizeRevoke s (Some p) (commitOptions c) = (s, Ok (p, ""))).
  { unfold authorizeRevoke. rewrite commitOptions_OTT, commitOptions_Crt.
    rewrite decide_False by (intros Hn; exact (Hn eq_refl)). reflexivity. }
  unfold Revoke. rewrite Ha, commitOptions_Serial.
  destruct (revoked s !! chk_serial c); [by intros [= _ <-] | discriminate].
Qed.

Lemma wrapRevokeErr_already sn' :
  Acme.Type_ (wrapRevokeErr (already_revoked_msg sn')) = Acme.ErrorAlreadyRevokedType.
Proof.
  assert (Hc : contains "is already revoked" (already_revoked_msg sn') = true).
  { unfold already_revoked_msg. change "' is already revoked" with ("' " +:+ "is already revoked").
    rewrite !string_app_assoc. apply contains_suffix. }
  unfold wrapRevokeErr. by rewrite Hc.
Qed.

(** The refusals of the ACME threads of [reqs] are all [alreadyRevoked]. *)
Definition acme_refusal_ok (t : Thread) : Prop :=
  match t with
  | TDone (ReplyAcme (RespErr e)) _ => Acme.Type_ e = Acme.ErrorAlreadyRevokedType
  | _ => True
  end.

Lemma acme_refusal_step s t :
  on_serial t -> acme_refusal_ok t -> acme_refusal_ok (thread_step db s t).2.
Proof.
  destruct t as [[ctx|b]|ctx c|body|r cm]; simpl; intros Hs Ht.
  - destruct (commits_alone_acme ctx (proj1 (Forall_forall _ _) Halone _ Hs)) as (c & Hc & _).
    unfold acme_check_step.
    rewrite (revokeCertChecks_other_state db st s ctx c (IsRevoked s (chk_serial c)) Hc eq_refl).
    by destruct (IsRevoked s (chk_serial c)).
  - unfold ssh_authorize_step. by repeat case_match.
  - unfold acme_commit_step. rewrite ca_Revoke_store.
    destruct (Revoke s _ _) as [s' [u|e]] eqn:E; simpl; [done|].
    rewrite (acme_commit_Revoke_err _ _ _ _ _ E). apply wrapRevokeErr_already.
  - unfold ssh_commit_step. by repeat case_match.
  - exact Ht.
Qed.

Lemma filter_Forall_iff {A} (P Q : A -> Prop) `{forall x, Decision (P x)} `{forall x, Decision (Q x)} l :
  Forall (fun x => P x <-> Q x) l -> filter P l = filter Q l.
Proof.
  induction 1 as [|x l Hx Hl IH]; [done|]. rewrite !filter_cons, IH.
  repeat case_decide; naive_solver.
Qed.

(** (C13) Concurrent revocations of one serial by different requests:
    when requests to either endpoint, each of which alone would commit
    serial [sn] from the store [st], run concurrently, then under any
    interleaving, once all have finished, exactly one of them committed
    [sn], exactly one was answered with success (200, or ["ok"] for
    SSH), every ACME request that lost was answered [alreadyRevoked]
    (section 5: never a different error), and the store has the record
    of [sn]. *)
Theorem same_serial_one_winner sch :
  reqs <> [] ->
  let '(st', ts) := run_sched db (st, map TStart reqs) sch in
  Forall (fun t => is_Some (thread_response t)) ts ->
  count sn ts = 1%nat /\ length (filter (fun t => thread_success t = true) ts) = 1%nat /\
  (forall t e, t ∈ ts -> thread_response t = Some (ReplyAcme (RespErr e)) ->
     Acme.Type_ e = Acme.ErrorAlreadyRevokedType) /\
  is_Some (revoked st' !! sn).
Proof.
  intros Hne.
  assert (Hfresh : Forall fresh (map TStart reqs)).
  { apply Forall_forall. intros t (req & -> & Hin)%list_elem_of_fmap. exists req. auto. }
  assert (Hser : Forall on_serial (map TStart reqs)).
  { apply Forall_forall. intros t (req & -> & Hin)%list_elem_of_fmap. exact Hin. }
  assert (Hrep : Forall reply_matches (map TStart reqs)).
  { apply Forall_forall. intros t (req & -> & _)%list_elem_of_fmap. exact I. }
  pose proof (run_sched_one_commit_inv (st, map TStart reqs) sch (or_introl (conj eq_refl Hfresh))) as J.
  pose proof (run_sched_inv db (st, map TStart reqs) sch (sched_inv_init st reqs) sn) as Hinv.
  assert (Hacme : Forall (fun t => on_serial t /\ acme_refusal_ok t) (map TStart reqs)).
  { apply Forall_forall. intros t (req & -> & Hin)%list_elem_of_fmap. split; [exact Hin | exact I]. }
  pose proof (run_sched_Forall on_serial (st, map TStart reqs) sch on_serial_step Hser) as Hser'.
  pose proof (run_sched_Forall (fun t => on_serial t /\ acme_refusal_ok t) (st, map TStart reqs) sch
                (fun s t H => conj (on_serial_step s t (proj1 H))
                                   (acme_refusal_step s t (proj1 H) (proj2 H))) Hacme) as Hacme'.
  pose proof (run_sched_Forall reply_matches (st, map TStart reqs) sch reply_matches_step Hrep) as Hrep'.
  pose proof (run_sched_length db (st, map TStart reqs) sch) as Hlen.
  destruct (run_sched db _ sch) as [st' ts]. simpl in *. intros Hfin.
  assert (Hc : count sn ts = 1%nat).
  { destruct J as [[_ Hf] | Hc]; [|destruct Hinv; simpl in Hc; lia]. exfalso. simpl in Hf.
    destruct ts as [|t ts]; [apply Hne, length_zero_iff_nil; rewrite length_map in Hlen; simpl in Hlen; lia|].
    destruct (Forall_inv Hfin) as [r Hr]. by rewrite (fresh_no_response t (Forall_inv Hf)) in Hr. }
  split; [exact Hc|]. split_and!.
  - unfold count in Hc. rewrite <- Hc. f_equal. apply filter_Forall_iff.
    apply Forall_forall. intros t Ht.
    apply success_iff_committed; [exact (proj1 (Forall_forall _ _) Hser' t Ht) |
                                  exact (proj1 (Forall_forall _ _) Hrep' t Ht)].
  - intros t e Ht Hr. pose proof (proj2 (proj1 (Forall_forall _ _) Hacme' t Ht)) as Ha.
    destruct t as [| | |r cm]; simpl in Hr; try discriminate. injection Hr as ->. exact Ha.
  - destruct Hinv as [_ Hs]. apply Hs. lia.
Qed.

End SameSerial.

(** ** Account key, SSH token and account key again, on one serial *)

#[local] Existing Instance echo_tokens.

Definition cert_serial : string := serial_string (SerialNumber cert).

Definition mixed_reqs : list Request :=
  [ReqAcme race_ctx;
   ReqSSH (BodyJSON (mkSSHRevokeRequest cert_serial "tok-1" 1 "lost key" true));
   ReqAcme race_ctx].

(** All three check against the empty store, then commit. *)
Definition mixed_sched : list nat := [0; 1; 2; 0; 1; 2]%nat.

Definition mixed_run : AuthState * list Thread :=
  run_sched acme_db (store0, map TStart mixed_reqs) mixed_sched.

(** The first commit wins; the SSH request is refused by [Revoke] with
    403 and the authority's message, the second ACME one with
    [alreadyRevoked]. *)
Example mixed_run_replies :
  map (fun t => thread_success t) mixed_run.2 = [true; false; false].
Proof. vm_compute. reflexivity. Qed.

Lemma same_serial_one_winner_witness :
  Forall (commits_alone acme_db store0 cert_serial) mixed_reqs /\ mixed_reqs <> [] /\
  (Forall (fun t => is_Some (thread_response t)) mixed_run.2 ->
   count cert_serial mixed_run.2 = 1%nat /\
   length (filter (fun t => thread_success t = true) mixed_run.2) = 1%nat /\
   (forall t e, t ∈ mixed_run.2 -> thread_response t = Some (ReplyAcme (RespErr e)) ->
      Acme.Type_ e = Acme.ErrorAlreadyRevokedType) /\
   is_Some (revoked mixed_run.1 !! cert_serial)).
Proof.
  assert (Ha : Forall (commits_alone acme_db store0 cert_serial) mixed_reqs).
  { repeat apply Forall_cons_2; try apply Forall_nil_2; vm_compute; reflexivity. }
  assert (Hne : mixed_reqs <> []) by discriminate.
  split_and!; [exact Ha | exact Hne |].
  pose proof (same_serial_one_winner acme_db store0 cert_serial mixed_reqs Ha mixed_sched Hne) as W.
  unfold mixed_run. destruct (run_sched _ _ _). exact W.
Defined.
