(* ===== verification/Templates.v ===== *)
(** The [templates] package ([src/unnamed/part_002]): SSH configuration
    templates, their validation, loading, rendering and writing.

    The package calls the file system ([os.Stat], [ioutil.ReadFile],
    [os.MkdirAll], [utils.WriteFile], [utils.WriteSnippet]), the path
    helpers [config.StepAbs] and [filepath.Dir], and [text/template]; they
    are the interfaces [FileSystem], [StepPaths] and [TemplateEngine].

    Methods with a pointer receiver that assign a field ([Validate] sets
    the default [Comment], [Load] sets the parsed template) return the
    updated receiver, and so do [SSHTemplates.Validate], [Templates.Validate]
    and [LoadAll], which take their receiver by pointer.  The loops
    [for _, tt := range ...] of [SSHTemplates.Validate] and [LoadAll]
    assign to the loop variable a copy of each element and call those
    methods on it ([range_copy]); no statement writes the variable back,
    so the slice after the loop is the one the loop read.  [Template.Validate]
    is [Template_Validate] on a non-[nil] receiver, the loops' case, and
    [Template_Validate_ptr] with its [nil] case.

    A concrete file system ([MemFS], a [gmap] of files and directories)
    instantiates [FileSystem] for the round trip of [Output.Write]. *)

From S2P Require Import Prelude.

(** ** Template types *)

(** [TemplateType] is a Go [string] type: any string, three of them named. *)
Definition TemplateType := string.
Definition Snippet : TemplateType := "snippet".
Definition File : TemplateType := "file".
Definition Directory : TemplateType := "directory".

(** ** What the package calls *)

(** The file system: [Stat] gives [IsDir()]; errors are their texts. *)
Class FileSystem (F : Type) := {
  Stat : F -> string -> result string bool;
  ReadFile : F -> string -> result string string;
  MkdirAll : F -> string -> Z -> F * option string;
  WriteFile : F -> string -> string -> Z -> F * option string;
  WriteSnippet : F -> string -> string -> Z -> F * option string;
}.

(** [config.StepAbs] and [filepath.Dir]. *)
Class StepPaths := {
  StepAbs : string -> string;
  Dir : string -> string;
}.

(** [text/template] with the [sprig] functions: [New(name).Parse(text)] and
    [Execute(buf, data)]. *)
Class TemplateEngine := {
  Tmpl : Type;
  TData : Type;
  Parse : string -> string -> result string Tmpl;
  Execute : Tmpl -> TData -> result string string;
}.

(** [errors.Wrapf(err, format, arg)]: the message, then [": "] and the cause. *)
Definition wrapf (msg arg err : string) : string := msg +:+ arg +:+ ": " +:+ err.

(** ** Loops over a slice of structs *)

(** [for _, tt := range xs { if err = body(&tt); err != nil { return } }]
    over the slice [xs] of a receiver: each iteration assigns to the loop
    variable [tt] (here [tt']) a copy of the next element, and the body
    updates it through [&tt]; no statement writes it to the slice, so the slice
    after the loop is the slice [xs] the loop read, returned with the
    error that ended the loop.  [rest] is what is left to range over. *)
Fixpoint range_copy_go {A E} (body : A -> A * option E) (xs rest : list A) : list A * option E :=
  match rest with
  | [] => (xs, None)
  | x :: rest' =>
      let tt' := x in
      let '(tt', r) := body tt' in
      match r with
      | Some e => (xs, Some e)
      | None => range_copy_go body xs rest'
      end
  end.

Definition range_copy {A E} (body : A -> A * option E) (xs : list A) : list A * option E :=
  range_copy_go body xs xs.

Section Templates.
Context `{FileSystem F} `{StepPaths} `{TemplateEngine}.

(** ** [Template] and [Output] *)

(** [Template]: the embedded [*template.Template] ([None] for [nil]) and the
    JSON fields. *)
Record Template := mkTemplate {
  Tpl : option Tmpl;
  Name : string;
  Type_ : TemplateType;
  TemplatePath : string;
  Path : string;
  Comment : string;
}.

Definition set_Comment (t : Template) (c : string) : Template :=
  mkTemplate (Tpl t) (Name t) (Type_ t) (TemplatePath t) (Path t) c.

Definition set_Tpl (t : Template) (tm : Tmpl) : Template :=
  mkTemplate (Some tm) (Name t) (Type_ t) (TemplatePath t) (Path t) (Comment t).

(** [Output]: a rendered template. *)
Record Output := mkOutput {
  out_Name : string;
  out_Type : TemplateType;
  out_Path : string;
  out_Comment : string;
  out_Content : string;
}.

(** [SSHTemplates] and [Templates]; a [nil] pointer or map is [None]. *)
Record SSHTemplates := mkSSHTemplates { User : list Template; Host : list Template }.

Record Templates := mkTemplates {
  SSH : option SSHTemplates;
  Data : option (gmap string TData);
}.

(** ** [Template.Validate] *)

Definition valid_type (ty : TemplateType) : bool :=
  bool_decide (ty = Snippet \/ ty = File \/ ty = Directory).

(** [(t *Template) Validate() error] on a non-[nil] receiver: the
    [switch] in order after its [nil] case, then the file check and the
    default comment.  The loops of [SSHTemplates.Validate] call it on
    [&tt], never [nil]. *)
Definition Template_Validate (fs : F) (t : Template) : Template * option string :=
  if decide (Name t = "") then (t, Some "template name cannot be empty")
  else if negb (valid_type (Type_ t)) then
    (t, Some ("invalid template type " +:+ Type_ t +:+ ", it must be " +:+ Snippet +:+ ", " +:+
              File +:+ ", or " +:+ Directory))
  else if decide (TemplatePath t = "" /\ Type_ t <> Directory) then
    (t, Some "template template cannot be empty")
  else if decide (TemplatePath t <> "" /\ Type_ t = Directory) then
    (t, Some "template template must be empty with directory type")
  else if decide (Path t = "") then (t, Some "template path cannot be empty")
  else if decide (TemplatePath t <> "") then
    match Stat fs (StepAbs (TemplatePath t)) with
    | Err e => (t, Some (wrapf "error reading " (TemplatePath t) e))
    | Ok true => (t, Some ("error reading " +:+ TemplatePath t +:+ ": is not a file"))
    | Ok false => (if decide (Comment t = "") then set_Comment t "#" else t, None)
    end
  else (t, None).

(** The whole method, its receiver a pointer that may be [nil]: the
    first case of the [switch] accepts [nil]. *)
Definition Template_Validate_ptr (fs : F) (t : option Template) : option Template * option string :=
  match t with
  | None => (None, None)
  | Some t => let '(t', r) := Template_Validate fs t in (Some t', r)
  end.

(** ** [Load], [Render], [Output] *)

(** [(t *Template) Load() error] *)
Definition Template_Load (fs : F) (t : Template) : Template * option string :=
  if decide (Tpl t = None /\ Type_ t <> Directory) then
    let filename := StepAbs (TemplatePath t) in
    match ReadFile fs filename with
    | Err e => (t, Some (wrapf "error reading " filename e))
    | Ok b =>
        match Parse (Name t) b with
        | Err e => (t, Some (wrapf "error parsing " filename e))
        | Ok tmpl => (set_Tpl t tmpl, None)
        end
    end
  else (t, None).

(** The message of the panic a [nil] embedded template would cause. *)
Definition nil_template : string := "runtime error: invalid memory address or nil pointer dereference".

(** [t.Execute(buf, data)] and its error as [Render] reports it. *)
Definition render_exec (t : Template) (tm : Tmpl) (data : TData) : result string string :=
  match Execute tm data with
  | Err e => Err (wrapf "error executing " (TemplatePath t) e)
  | Ok b => Ok b
  end.

(** [(t *Template) Render(data) ([]byte, error)]; a directory renders to
    [nil], here [""]. *)
Definition Template_Render (fs : F) (t : Template) (data : TData) : Template * result string string :=
  if decide (Type_ t = Directory) then (t, Ok "")
  else
    match Template_Load fs t with
    | (t', Some e) => (t', Err e)
    | (t', None) =>
        match Tpl t' with
        | None => (t', Err nil_template)
        | Some tm => (t', render_exec t' tm data)
        end
    end.

(** [(t *Template) Output(data) (Output, error)] *)
Definition Template_Output (fs : F) (t : Template) (data : TData) : Template * result string Output :=
  match Template_Render fs t data with
  | (t', Err e) => (t', Err e)
  | (t', Ok b) => (t', Ok (mkOutput (Name t') (Type_ t') (Path t') (Comment t') b))
  end.

(** [mkdir(path, perm)] *)
Definition mkdir (fs : F) (path : string) (perm : Z) : F * option string :=
  match MkdirAll fs path perm with
  | (fs', Some e) => (fs', Some (wrapf "error creating " path e))
  | (fs', None) => (fs', None)
  end.

(** [(o *Output) Write() error] *)
Definition Output_Write (fs : F) (o : Output) : F * option string :=
  let path := StepAbs (out_Path o) in
  if decide (out_Type o = Directory) then mkdir fs path 448
  else
    match mkdir fs (Dir path) 448 with
    | (fs', Some e) => (fs', Some e)
    | (fs', None) =>
        if decide (out_Type o = File) then WriteFile fs' path (out_Content o) 384
        else WriteSnippet fs' path (out_Content o) 384
    end.

(** ** [SSHTemplates.Validate], [Templates.Validate], [LoadAll] *)

(** [(t *SSHTemplates) Validate() error]: the receiver after the call,
    and the error.  Both loops range over copies of the templates. *)
Definition SSHTemplates_Validate (fs : F) (t : option SSHTemplates) : option SSHTemplates * option string :=
  match t with
  | None => (None, None)
  | Some s =>
      match range_copy (Template_Validate fs) (User s) with
      | (us, Some e) => (Some (mkSSHTemplates us (Host s)), Some e)
      | (us, None) =>
          let '(hs, r) := range_copy (Template_Validate fs) (Host s) in
          (Some (mkSSHTemplates us hs), r)
      end
  end.

(** [(t *Templates) Validate() error]: [t.SSH.Validate()] runs on the
    [SSHTemplates] the field points to, which the result keeps. *)
Definition Templates_Validate (fs : F) (t : option Templates) : option Templates * option string :=
  match t with
  | None => (None, None)
  | Some t =>
      match SSHTemplates_Validate fs (SSH t) with
      | (s', Some e) => (Some (mkTemplates s' (Data t)), Some e)
      | (s', None) =>
          (Some (mkTemplates s' (Data t)),
           match Data t with
           | None => None
           | Some d =>
               if bool_decide (is_Some (d !! "Step")) then
                 Some "templates variables cannot contain 'Step' as a property"
               else if bool_decide (is_Some (d !! "User")) then
                 Some "templates variables cannot contain 'User' as a property"
               else None
           end)
      end
  end.

(** [LoadAll(t *Templates) error]: the templates [t] points to after the
    call, and the error.  Both loops range over copies. *)
Definition LoadAll (fs : F) (t : option Templates) : option Templates * option string :=
  match t with
  | Some t =>
      match SSH t with
      | Some s =>
          match range_copy (Template_Load fs) (User s) with
          | (us, Some e) => (Some (mkTemplates (Some (mkSSHTemplates us (Host s))) (Data t)), Some e)
          | (us, None) =>
              let '(hs, r) := range_copy (Template_Load fs) (Host s) in
              (Some (mkTemplates (Some (mkSSHTemplates us hs)) (Data t)), r)
          end
      | None => (Some t, None)
      end
  | None => (None, None)
  end.

End Templates.

Arguments Template {_}.
Arguments Output : clear implicits.
Arguments SSHTemplates {_}.
Arguments Templates {_}.

(** ** The loops over copies *)

(** The loop leaves the slice it ranges over as it was. *)
Lemma range_copy_go_slice {A E} (body : A -> A * option E) xs rest :
  (range_copy_go body xs rest).1 = xs.
Proof.
  induction rest as [|x rest IH]; simpl; [done|].
  destruct (body x) as [tt [e|]]; [done | exact IH].
Qed.

(** The loop ends without error exactly when the body succeeds on a copy
    of every element. *)
Lemma range_copy_go_None {A E} (body : A -> A * option E) xs rest :
  (range_copy_go body xs rest).2 = None <-> Forall (fun x => (body x).2 = None) rest.
Proof.
  induction rest as [|x rest IH]; simpl; [split; auto|].
  rewrite Forall_cons, <- IH. destruct (body x) as [tt [e|]]; simpl; [|tauto].
  split; [discriminate | intros [[=] _]].
Qed.

Lemma range_copy_ok {A E} (body : A -> A * option E) xs ys :
  range_copy body xs = (ys, None) -> ys = xs /\ Forall (fun x => (body x).2 = None) xs.
Proof.
  unfold range_copy. intros E1. split.
  - by rewrite <- (range_copy_go_slice body xs xs), E1.
  - apply (range_copy_go_None body xs xs). by rewrite E1.
Qed.

Section TemplateProps.
Context `{FileSystem F} `{StepPaths} `{TemplateEngine}.

(** A successful [Load] of a non-directory template leaves it parsed, and
    changes nothing else. *)
Lemma Template_Load_ok fs t t' :
  Template_Load fs t = (t', None) -> Type_ t <> Directory ->
  is_Some (Tpl t') /\ Type_ t' = Type_ t /\ TemplatePath t' = TemplatePath t /\
  Comment t' = Comment t.
Proof.
  unfold Template_Load. intros HL Hd. case_decide as Hc.
  - destruct (ReadFile fs _); [|discriminate]. destruct (Parse _ _); [|discriminate].
    injection HL as <-. simpl. eauto.
  - injection HL as <-. split; [|auto]. destruct (Tpl t) eqn:E; [eauto|]. tauto.
Qed.

(** A template that is already parsed is not loaded again. *)
Lemma Template_Load_parsed fs t : is_Some (Tpl t) -> Template_Load fs t = (t, None).
Proof. intros [tm E]. unfold Template_Load. rewrite decide_False; [done|]. rewrite E. naive_solver. Qed.

(** After a successful [LoadAll] the receiver holds the templates it
    held before, and [Load] succeeded on a copy of each of them. *)
Lemma LoadAll_ok fs t t' s :
  LoadAll fs (Some t) = (Some t', None) -> SSH t = Some s ->
  SSH t' = Some s /\ Forall (fun x => (Template_Load fs x).2 = None) (User s ++ Host s).
Proof.
  intros HL Hs. unfold LoadAll in HL. rewrite Hs in HL.
  destruct (range_copy _ (User s)) as [us [e|]] eqn:Eu; [discriminate|].
  destruct (range_copy _ (Host s)) as [hs r] eqn:Eh. injection HL as <- ->.
  apply range_copy_ok in Eu as [-> Fu], Eh as [-> Fh]. simpl.
  split; [by destruct s | by apply Forall_app].
Qed.

(** After a successful [SSHTemplates.Validate] the receiver holds the
    templates it held before, and [Template.Validate] succeeded on a copy
    of each of them. *)
Lemma SSHTemplates_Validate_ok fs s s' :
  SSHTemplates_Validate fs (Some s) = (Some s', None) ->
  s' = s /\ Forall (fun x => (Template_Validate fs x).2 = None) (User s ++ Host s).
Proof.
  simpl. destruct (range_copy _ (User s)) as [us [e|]] eqn:Eu; [discriminate|].
  destruct (range_copy _ (Host s)) as [hs r] eqn:Eh. intros [= <- ->].
  apply range_copy_ok in Eu as [-> Fu], Eh as [-> Fh].
  split; [by destruct s | by apply Forall_app].
Qed.

(** ** Theorems *)

(** (C20) Defaults lost by the range copy: [SSHTemplates.Validate] runs
    [Template.Validate] on a copy of each template.  On a template with a
    file and no comment, [Template.Validate] sets the default comment
    ["#"], but after [SSHTemplates.Validate] succeeds the receiver still
    holds the template with an empty comment at the same place, and every
    [Output] rendered from it has an empty comment. *)
Theorem SSHTemplates_Validate_drops_comment fs s s' i x :
  SSHTemplates_Validate fs (Some s) = (Some s', None) -> (User s ++ Host s) !! i = Some x ->
  TemplatePath x <> "" -> Comment x = "" ->
  Comment (Template_Validate fs x).1 = "#" /\
  (User s' ++ Host s') !! i = Some x /\
  (forall fs' data x' o, Template_Output fs' x data = (x', Ok o) -> out_Comment o = "").
Proof.
  intros Hv Hi Hp Hc. apply SSHTemplates_Validate_ok in Hv as [-> Hall]. split_and!; [|exact Hi|].
  - assert (Hx : (Template_Validate fs x).2 = None).
    { apply (proj1 (Forall_forall _ _) Hall). by eapply list_elem_of_lookup_2. }
    revert Hx. unfold Template_Validate.
    repeat case_decide; destruct (valid_type (Type_ x)); simpl; try discriminate; try tauto.
    all: destruct (Stat fs _) as [[]|e]; simpl; try discriminate; first [reflexivity | congruence].
  - intros fs' data x' o. unfold Template_Output.
    destruct (Template_Render fs' x data) as [x'' [b|e]] eqn:E; [|discriminate].
    intros [= <- <-]. simpl. revert E. unfold Template_Render.
    case_decide; [intros [= <- _]; exact Hc|].
    destruct (Template_Load fs' x) as [y [e|]] eqn:HL; [discriminate|].
    destruct (Template_Load_ok _ _ _ HL ltac:(done)) as (_ & _ & _ & Hcy).
    destruct (Tpl y); [|discriminate]. intros [= <- _]. congruence.
Qed.

(** (C19) The preload is lost: [LoadAll] loads copies of the templates.
    When it succeeds, it has parsed a copy of each unparsed non-directory
    template, but the receiver still holds the unparsed template at the
    same place, so rendering it reads the file system again: if the file
    has gone, [Render] fails although [LoadAll] succeeded. *)
Theorem LoadAll_does_not_cache fs fs' t t' s i x data e :
  LoadAll fs (Some t) = (Some t', None) -> SSH t = Some s -> (User s ++ Host s) !! i = Some x ->
  Tpl x = None -> Type_ x <> Directory ->
  (exists x1, Template_Load fs x = (x1, None) /\ is_Some (Tpl x1)) /\
  (exists s', SSH t' = Some s' /\ (User s' ++ Host s') !! i = Some x) /\
  (ReadFile fs' (StepAbs (TemplatePath x)) = Err e ->
   Template_Render fs' x data = (x, Err (wrapf "error reading " (StepAbs (TemplatePath x)) e))).
Proof.
  intros HL Hs Hi Ht Hd. destruct (LoadAll_ok fs t t' s HL Hs) as [Hs' Hall]. split_and!.
  - assert (Hx : (Template_Load fs x).2 = None).
    { apply (proj1 (Forall_forall _ _) Hall). by eapply list_elem_of_lookup_2. }
    destruct (Template_Load fs x) as [x1 r] eqn:E. simpl in Hx. subst r.
    exists x1. split; [done|]. destruct (Template_Load_ok _ _ _ E Hd) as (Hp & _). exact Hp.
  - eauto.
  - intros Hr. unfold Template_Render, Template_Load.
    rewrite decide_False by exact Hd. rewrite decide_True by done. by rewrite Hr.
Qed.

(** (C21) [Render] of a non-directory template: a parsed template is
    executed as it is; an unparsed one is read and parsed first, its
    errors reported as [Load] wraps them, and the parsed template is
    both executed and kept in the template ([t.Template = tmpl]), so the
    [nil] template is never executed. *)
Theorem Template_Render_loads fs t data :
  Type_ t <> Directory ->
  Template_Render fs t data =
    match Tpl t with
    | Some tm => (t, render_exec t tm data)
    | None =>
        let filename := StepAbs (TemplatePath t) in
        match ReadFile fs filename with
        | Err e => (t, Err (wrapf "error reading " filename e))
        | Ok text =>
            match Parse (Name t) text with
            | Err e => (t, Err (wrapf "error parsing " filename e))
            | Ok tm => (set_Tpl t tm, render_exec t tm data)
            end
        end
    end.
Proof.
  intros Hd. unfold Template_Render. rewrite decide_False by exact Hd.
  destruct (Tpl t) as [tm|] eqn:Ht.
  - rewrite Template_Load_parsed by (rewrite Ht; eauto). by rewrite Ht.
  - unfold Template_Load. rewrite decide_True by done.
    destruct (ReadFile fs _); [|done]. by destruct (Parse _ _).
Qed.

End TemplateProps.

(** ** A file system in memory *)

(** An entry of the file system: a file and its content, or a directory. *)
Inductive FsEntry := FsFile (content : string) | FsDir.

Abbreviation MemFS := (gmap string FsEntry).

(** [os.Stat], [ioutil.ReadFile], [os.MkdirAll] (of the leaf directory),
    [utils.WriteFile] and [utils.WriteSnippet] (which appends the snippet
    to the file, creating it if needed). *)
#[global] Instance MemFS_FileSystem : FileSystem MemFS := {
  Stat fs p :=
    match fs !! p with
    | Some FsDir => Ok true
    | Some (FsFile _) => Ok false
    | None => Err ("stat " +:+ p +:+ ": no such file or directory")
    end;
  ReadFile fs p :=
    match fs !! p with
    | Some (FsFile c) => Ok c
    | Some FsDir => Err ("read " +:+ p +:+ ": is a directory")
    | None => Err ("open " +:+ p +:+ ": no such file or directory")
    end;
  MkdirAll fs p _ :=
    match fs !! p with
    | Some (FsFile _) => (fs, Some ("mkdir " +:+ p +:+ ": not a directory"))
    | _ => (<[p := FsDir]> fs, None)
    end;
  WriteFile fs p c _ :=
    match fs !! p with
    | Some FsDir => (fs, Some ("open " +:+ p +:+ ": is a directory"))
    | _ => (<[p := FsFile c]> fs, None)
    end;
  WriteSnippet fs p c _ :=
    match fs !! p with
    | Some FsDir => (fs, Some ("open " +:+ p +:+ ": is a directory"))
    | Some (FsFile old) => (<[p := FsFile (old +:+ c)]> fs, None)
    | None => (<[p := FsFile c]> fs, None)
    end;
}.

Section WriteProps.
Context `{StepPaths}.

Lemma mkdir_ok (fs fs' : MemFS) p perm : mkdir fs p perm = (fs', None) -> fs' = <[p := FsDir]> fs.
Proof. unfold mkdir. simpl. destruct (fs !! p) as [[]|]; simpl; congruence. Qed.

Lemma WriteFile_ok (fs fs' : MemFS) p c perm :
  WriteFile fs p c perm = (fs', None) -> fs' = <[p := FsFile c]> fs.
Proof. simpl. destruct (fs !! p) as [[]|]; congruence. Qed.

(** (C22) Round trip of [Output.Write] on the file system: a [file] output
    whose directory is not the file itself can be read back with its
    content, and a [directory] output leaves a directory at its path. *)
Theorem Output_Write_roundtrip (fs fs' : MemFS) o :
  Output_Write fs o = (fs', None) ->
  (out_Type o = File -> Dir (StepAbs (out_Path o)) <> StepAbs (out_Path o) ->
   ReadFile fs' (StepAbs (out_Path o)) = Ok (out_Content o)) /\
  (out_Type o = Directory -> Stat fs' (StepAbs (out_Path o)) = Ok true).
Proof.
  unfold Output_Write. set (p := StepAbs (out_Path o)). case_decide as Hd.
  - intros ->%mkdir_ok. split; [intros Hf; rewrite Hd in Hf; discriminate|].
    intros _. simpl. by rewrite lookup_insert_eq.
  - destruct (mkdir fs (Dir p) 448) as [fs1 [e|]] eqn:Em; [discriminate|].
    apply mkdir_ok in Em as ->. case_decide as Hf; [|split; intros; congruence].
    intros ->%WriteFile_ok. split; [|intros; congruence]. intros _ _. simpl.
    by rewrite lookup_insert_eq.
Qed.

End WriteProps.


(** ** Concrete runs *)

(** A template engine whose templates are their text: parsing fails on an
    unclosed action, executing returns the text. *)
Definition toy_engine : TemplateEngine :=
  {| Tmpl := string; TData := unit;
     Parse _ text := if contains "{{" text && negb (contains "}}" text)
                     then Err "unclosed action" else Ok text;
     Execute tm _ := Ok tm |}.

(** The directory part of a path: everything before the last ['/']. *)
Fixpoint dir_aux (s : string) : option string :=
  match s with
  | EmptyString => None
  | String c s' =>
      match dir_aux s' with
      | Some d => Some (String c d)
      | None => if decide (c = "/"%char) then Some EmptyString else None
      end
  end.

(** [StepAbs] under the step path ["/home/step"], and [filepath.Dir]. *)
Definition step_paths : StepPaths :=
  {| StepAbs p := if has_prefix "/" p then p else "/home/step/" +:+ p;
     Dir p := match dir_aux p with Some "" => "/" | Some d => d | None => "." end |}.

#[local] Existing Instances toy_engine step_paths.

Definition tpl_path : string := "/home/step/templates/ssh/config.tpl".

Definition tpl_config : Template :=
  mkTemplate None "config.tpl" Snippet "templates/ssh/config.tpl" "ssh/config" "".

Definition fs0 : MemFS := {[ tpl_path := FsFile "Host *" ]}.

Definition ssh_tpls : SSHTemplates := mkSSHTemplates [tpl_config] [].

Definition tpls : Templates := mkTemplates (Some ssh_tpls) None.

Lemma SSHTemplates_Validate_drops_comment_witness :
  SSHTemplates_Validate fs0 (Some ssh_tpls) = (Some ssh_tpls, None) /\
  (User ssh_tpls ++ Host ssh_tpls) !! 0%nat = Some tpl_config /\
  Comment (Template_Validate fs0 tpl_config).1 = "#".
Proof.
  assert (E : SSHTemplates_Validate fs0 (Some ssh_tpls) = (Some ssh_tpls, None))
    by (vm_compute; reflexivity).
  assert (Hi : (User ssh_tpls ++ Host ssh_tpls) !! 0%nat = Some tpl_config) by reflexivity.
  split_and!; [exact E | exact Hi |].
  apply (SSHTemplates_Validate_drops_comment fs0 ssh_tpls ssh_tpls 0 tpl_config E Hi);
    [discriminate | reflexivity].
Defined.

Lemma LoadAll_does_not_cache_witness :
  LoadAll fs0 (Some tpls) = (Some tpls, None) /\
  Template_Render (delete tpl_path fs0) tpl_config tt =
    (tpl_config, Err (wrapf "error reading " tpl_path
                        ("open " +:+ tpl_path +:+ ": no such file or directory"))).
Proof.
  assert (E : LoadAll fs0 (Some tpls) = (Some tpls, None)) by (vm_compute; reflexivity).
  split; [exact E|].
  apply (LoadAll_does_not_cache fs0 (delete tpl_path fs0) tpls tpls ssh_tpls 0 tpl_config tt _ E);
    [reflexivity | reflexivity | reflexivity | discriminate | vm_compute; reflexivity].
Defined.

Lemma Template_Render_loads_witness :
  Type_ tpl_config <> Directory /\
  Template_Render fs0 tpl_config tt = (set_Tpl tpl_config "Host *", Ok "Host *").
Proof.
  assert (Hd : Type_ tpl_config <> Directory) by discriminate.
  split; [exact Hd|]. rewrite (Template_Render_loads fs0 tpl_config tt Hd). vm_compute. reflexivity.
Defined.

Definition known_hosts : Output := mkOutput "known_hosts" File "ssh/known_hosts" "#" "@cert-authority *".

Lemma Output_Write_roundtrip_witness :
  Output_Write fs0 known_hosts = ((Output_Write fs0 known_hosts).1, None) /\
  ReadFile (Output_Write fs0 known_hosts).1 "/home/step/ssh/known_hosts" = Ok "@cert-authority *".
Proof.
  assert (E : Output_Write fs0 known_hosts = ((Output_Write fs0 known_hosts).1, None))
    by (vm_compute; reflexivity).
  split; [exact E|].
  exact (proj1 (Output_Write_roundtrip fs0 _ known_hosts E) eq_refl ltac:(vm_compute; discriminate)).
Defined.

(** [Output.Write] writes an output of any type other than [directory] and
    [file] as a snippet: [Validate] rejects such a type, but [Output] does
    not check it. *)
Example write_unknown_type_is_snippet :
  let o := mkOutput "x" "bogus" "ssh/config" "#" "Match all" in
  ReadFile (Output_Write {[ "/home/step/ssh/config" := FsFile "Host *" ]} o).1
    "/home/step/ssh/config" = Ok "Host *Match all".
Proof. vm_compute. reflexivity. Qed.
