(* ===== verification/Release.v ===== *)
(** The release configuration [src/unnamed/part_001] ([.goreleaser.yml]):
    which binaries are built for which platforms, how the archives of a
    release are named, and the artifacts the release notes link to.

    The file is data for goreleaser.  Its behaviour lies in the Go
    templates it contains ([{{ .Version }}], [{{ if .Arm }}...{{ end }}]),
    which goreleaser renders with [text/template] against a context of
    the project, the target platform and the version.  [lex], [exec] and
    [render] are that rendering for the actions the file uses: fields,
    paths such as [.Env.DEB_VERSION], [if] and [end].  A template that
    uses another action, names a field the context lacks, or leaves an
    [if] open is refused, as [text/template] refuses it.

    Every build, archive and link is kept as written.  A target
    ["linux_arm_6"] is [GOOS_GOARCH_GOARM].  An archive is named by its
    [name_template], then ["."] and its format: [zip] for Windows by the
    [format_overrides], else goreleaser's default [tar.gz].

    Theorems: for every version, the archives of the release have
    pairwise distinct names, so none overwrites another; and the links of
    the release notes point at archives the release produces and show
    their file names, except the Windows link.  Its text names a
    [windows] [arm64] archive that no target builds, while its URL points
    at the [amd64] one. *)

From S2P Require Import Prelude.

(** ** Go templates *)

Inductive Token :=
| TText (s : string)
| TAction (a : string).

(** The text between actions, and the actions between [{{] and [}}]. *)
Fixpoint lex (in_action : bool) (cs : list Ascii.ascii) (acc : list Ascii.ascii) : option (list Token) :=
  match cs with
  | [] => if in_action then None else Some [TText (String.string_of_list_ascii (rev acc))]
  | c1 :: rest =>
      match rest with
      | c2 :: rest' =>
          if negb in_action && bool_decide (c1 = "{"%char /\ c2 = "{"%char) then
            ts ← lex true rest' []; Some (TText (String.string_of_list_ascii (rev acc)) :: ts)
          else if in_action && bool_decide (c1 = "}"%char /\ c2 = "}"%char) then
            ts ← lex false rest' []; Some (TAction (String.string_of_list_ascii (rev acc)) :: ts)
          else lex in_action rest (c1 :: acc)
      | [] => lex in_action rest (c1 :: acc)
      end
  end.

Inductive Action :=
| AField (path : list string)
| AIf (path : list string)
| AEnd.

(** [.A.B] is the path [["A"; "B"]]. *)
Definition field_path (w : string) : option (list string) :=
  match split_on "." w with
  | "" :: (_ :: _) as p => Some p
  | _ => None
  end.

(** An action, its words separated by spaces. *)
Definition parse_action (a : string) : option Action :=
  match filter (fun w => w <> "") (split_on " " a) with
  | ["end"] => Some AEnd
  | ["if"; w] => AIf <$> field_path w
  | [w] => AField <$> field_path w
  | _ => None
  end.

(** The context a template is rendered against: a path to its value. *)
Definition Context := list string -> option string.

(** Rendering: [stack] holds the conditions of the open [if]s; text and
    fields are written when all of them hold.  An empty string is false. *)
Fixpoint exec (ctx : Context) (ts : list Token) (stack : list bool) : option string :=
  match ts with
  | [] => match stack with [] => Some "" | _ => None end
  | TText s :: ts' =>
      r ← exec ctx ts' stack; Some (if forallb id stack then s +:+ r else r)
  | TAction a :: ts' =>
      match parse_action a with
      | Some (AField p) =>
          v ← ctx p; r ← exec ctx ts' stack; Some (if forallb id stack then v +:+ r else r)
      | Some (AIf p) => v ← ctx p; exec ctx ts' (bool_decide (v <> "") :: stack)
      | Some AEnd => match stack with _ :: st => exec ctx ts' st | [] => None end
      | None => None
      end
  end.

Definition render (ctx : Context) (tpl : string) : option string :=
  ts ← lex false (String.list_ascii_of_string tpl) []; exec ctx ts [].

(** ** The file *)

Definition project_name : string := "step-ca".

(** [before.hooks] *)
Definition before_hooks : list string := ["go mod download"].

(** An element of [builds]. *)
Record Build := mkBuild {
  b_id : string;
  b_env : list string;
  b_targets : list string;
  b_flags : list string;
  b_main : string;
  b_binary : string;
  b_ldflags : list string;
}.

Definition all_targets : list string :=
  ["darwin_amd64"; "darwin_arm64"; "freebsd_amd64"; "linux_386"; "linux_amd64";
   "linux_arm64"; "linux_arm_6"; "linux_arm_7"; "windows_amd64"].

Definition version_ldflags : list string :=
  ["-w -X main.Version={{.Version}} -X main.BuildTime={{.Date}}"].

Definition builds : list Build :=
  [mkBuild "step-ca" ["CGO_ENABLED=0"] all_targets ["-trimpath"]
     "./cmd/step-ca/main.go" "bin/step-ca" version_ldflags;
   mkBuild "step-cloudkms-init" ["CGO_ENABLED=0"] all_targets ["-trimpath"]
     "./cmd/step-cloudkms-init/main.go" "bin/step-cloudkms-init" version_ldflags;
   mkBuild "step-awskms-init" ["CGO_ENABLED=0"] all_targets ["-trimpath"]
     "./cmd/step-awskms-init/main.go" "bin/step-awskms-init" version_ldflags].

(** The element of [archives]. *)
Record ArchiveConfig := mkArchiveConfig {
  ar_name_template : string;
  ar_format_overrides : list (string * string);
  ar_wrap_in_directory : string;
  ar_files : list string;
}.

Definition archive : ArchiveConfig :=
  mkArchiveConfig
    "{{ .ProjectName }}_{{ .Os }}_{{ .Version }}_{{ .Arch }}{{ if .Arm }}v{{ .Arm }}{{ end }}{{ if .Mips }}_{{ .Mips }}{{ end }}"
    [("windows", "zip")] "{{ .ProjectName }}_{{ .Version }}" ["README.md"; "LICENSE"].

(** [source], [checksum], [signs], [snapshot]. *)
Record Pipes := mkPipes {
  source_enabled : bool;
  source_name_template : string;
  checksum_name_template : string;
  checksum_extra_files : list string;
  sign_cmd : string;
  sign_stdin : string;
  sign_args : list string;
  sign_artifacts : string;
  snapshot_name_template : string;
}.

Definition pipes : Pipes :=
  mkPipes true "{{ .ProjectName }}_{{ .Version }}" "checksums.txt" ["./.releases/*"]
    "cosign" "{{ .Env.COSIGN_PWD }}"
    ["sign-blob"; "-key=/tmp/cosign.key"; "-output=${signature}"; "${artifact}"] "all"
    "{{ .Tag }}-next".

(** A link of the release notes' header: its text and its URL. *)
Record Link := mkLink { link_text : string; link_url : string }.

Definition header_base : string := "https://dl.step.sm/gh-release/certificates/gh-release-header/{{ .Tag }}/".

Definition header_links : list Link :=
  [mkLink "step-ca_linux_{{ .Version }}_amd64.tar.gz"
          (header_base +:+ "step-ca_linux_{{ .Version }}_amd64.tar.gz");
   mkLink "step-ca_{{ .Env.DEB_VERSION }}_amd64.deb"
          (header_base +:+ "step-ca_{{ .Env.DEB_VERSION }}_amd64.deb");
   mkLink "step-ca_darwin_{{ .Version }}_amd64.tar.gz"
          (header_base +:+ "step-ca_darwin_{{ .Version }}_amd64.tar.gz");
   mkLink "step-ca_darwin_{{ .Version }}_arm64.tar.gz"
          (header_base +:+ "step-ca_darwin_{{ .Version }}_arm64.tar.gz");
   mkLink "step-ca_windows_{{ .Version }}_arm64.zip"
          (header_base +:+ "step-ca_windows_{{ .Version }}_amd64.zip")].

(** [release], without its [header] and [footer] texts (the links of
    the header are [header_links]). *)
Record GitHubRelease := mkGitHubRelease {
  release_owner : string;
  release_name : string;
  release_draft : bool;
  release_prerelease : string;
  release_name_template : string;
  release_extra_files : list string;
}.

Definition release : GitHubRelease :=
  mkGitHubRelease "smallstep" "certificates" false "auto" "Step CA {{ .Tag }} ({{ .Env.RELEASE_DATE }})"
    ["./.releases/*"].

(** [scoop]. *)
Record Scoop := mkScoop {
  scoop_url_template : string;
  scoop_bucket : string * string;
  scoop_commit_author : string * string;
  scoop_commit_msg_template : string;
  scoop_homepage : string;
  scoop_skip_upload : string;
  scoop_description : string;
  scoop_license : string;
}.

Definition scoop : Scoop :=
  mkScoop "http://github.com/smallstep/certificates/releases/download/{{ .Tag }}/{{ .ArtifactName }}"
    ("smallstep", "scoop-bucket") ("goreleaserbot", "goreleaser@smallstep.com")
    "Scoop update for {{ .ProjectName }} version {{ .Tag }}"
    "https://smallstep.com/docs/step-ca" "auto"
    "A private certificate authority (X.509 & SSH) & ACME server for secure automated certificate management, so you can use TLS everywhere & SSO for SSH."
    "Apache-2.0".

(** ** Targets and archives *)

(** A target [GOOS_GOARCH] or [GOOS_GOARCH_GOARM]. *)
Record Target := mkTarget { goos : string; goarch : string; goarm : string }.

#[export] Instance Target_eq_dec : EqDecision Target.
Proof. solve_decision. Defined.

Definition parse_target (s : string) : option Target :=
  match split_on "_" s with
  | [os; arch] => Some (mkTarget os arch "")
  | [os; arch; arm] => Some (mkTarget os arch arm)
  | _ => None
  end.

(** The platforms of the release: the targets of all builds; the
    archives of one platform hold the binaries of every build. *)
Definition release_targets : list Target :=
  omap parse_target (remove_dups (mjoin (map b_targets builds))).

(** The context of an archive's templates. *)
Definition archive_ctx (version tag : string) (t : Target) : Context :=
  fun p => assoc p [(["ProjectName"], project_name); (["Os"], goos t); (["Arch"], goarch t);
                    (["Arm"], goarm t); (["Mips"], ""); (["Version"], version); (["Tag"], tag)].

Definition archive_format (t : Target) : string :=
  default "tar.gz" (assoc (goos t) (ar_format_overrides archive)).

(** The file name of the archive of target [t]. *)
Definition archive_file (version tag : string) (t : Target) : option string :=
  name ← render (archive_ctx version tag t) (ar_name_template archive);
  Some (name +:+ "." +:+ archive_format t).

(** The two parts of an archive name around the version. *)
Definition arm_suffix (t : Target) : string := if decide (goarm t = "") then "" else "v" +:+ goarm t.

Definition name_prefix (t : Target) : string := project_name +:+ "_" +:+ goos t +:+ "_".

Definition name_suffix (t : Target) : string := "_" +:+ goarch t +:+ arm_suffix t.

(** Distinct names whatever the version: two targets whose prefixes are
    not prefixes of one another, or with one prefix and different
    suffixes. *)
Definition parts_sep (a b : string * string) : bool :=
  negb (has_prefix a.1 b.1 || has_prefix b.1 a.1) ||
  (bool_decide (a.1 = b.1) && bool_decide (a.2 <> b.2)).

Fixpoint pairwise_sep (l : list (string * string)) : bool :=
  match l with
  | [] => true
  | a :: l' => forallb (parts_sep a) l' && pairwise_sep l'
  end.

(** The context of the release notes. *)
Definition header_ctx (version tag deb : string) : Context :=
  fun p => assoc p [(["Version"], version); (["Tag"], tag); (["Env"; "DEB_VERSION"], deb)].

Definition header_prefix : string := "https://dl.step.sm/gh-release/certificates/gh-release-header/".

(** Link [l] shows file [f] and points at the download of [f]. *)
Definition link_to (version tag deb : string) (l : Link) (f : option string) : Prop :=
  render (header_ctx version tag deb) (link_text l) = f /\
  render (header_ctx version tag deb) (link_url l) = (fun x => header_prefix +:+ (tag +:+ ("/" +:+ x))) <$> f.

(** ** Lemmas *)

Lemma string_app_cancel_l (p a b : string) : (p +:+ a = p +:+ b)%string -> a = b.
Proof. induction p as [|c p IH]; [done|]. rewrite !string_app_cons. intros [= H]. auto. Qed.

Lemma string_app_prefixes (p1 p2 a b : string) :
  (p1 +:+ a = p2 +:+ b)%string -> has_prefix p1 p2 = true \/ has_prefix p2 p1 = true.
Proof.
  revert p2. induction p1 as [|c p1 IH]; intros [|c' p2]; simpl; auto.
  rewrite !string_app_cons. intros [= -> H]. rewrite !bool_decide_true by done. simpl. eauto.
Qed.

Lemma parts_sep_neq a b v : parts_sep a b = true -> a.1 +:+ (v +:+ a.2) <> b.1 +:+ (v +:+ b.2).
Proof.
  unfold parts_sep. intros Hs E. apply orb_true_iff in Hs as [Hs | Hs].
  - apply negb_true_iff, orb_false_iff in Hs as [H1 H2].
    destruct (string_app_prefixes _ _ _ _ E); congruence.
  - apply andb_true_iff in Hs as [H1 H2]. apply bool_decide_eq_true in H1, H2.
    rewrite H1 in E. by apply string_app_cancel_l, string_app_cancel_l in E.
Qed.

Lemma pairwise_sep_NoDup l v :
  pairwise_sep l = true -> NoDup (map (fun a => a.1 +:+ (v +:+ a.2)) l).
Proof.
  induction l as [|a l IH]; simpl; [constructor|]. intros [Ha Hl]%andb_true_iff.
  constructor; [|auto]. intros (b & E & Hb)%list_elem_of_fmap.
  rewrite forallb_forall in Ha. apply list_elem_of_In in Hb.
  exact (parts_sep_neq a b v (Ha b Hb) E).
Qed.

Lemma mapM_Some_map {A B} (f : A -> option B) (g : A -> B) l :
  Forall (fun x => f x = Some (g x)) l -> mapM f l = Some (map g l).
Proof. induction 1 as [|x l Hx _ IH]; [done|]. simpl. by rewrite Hx, IH. Qed.

(** The name of every archive of the release, around the version. *)
Lemma archive_name_parts v tag :
  Forall (fun t => render (archive_ctx v tag t) (ar_name_template archive) =
                   Some (name_prefix t +:+ (v +:+ name_suffix t))) release_targets.
Proof. vm_compute. repeat constructor. Qed.

Lemma archive_file_parts v tag :
  Forall (fun t => archive_file v tag t =
                   Some (name_prefix t +:+ (v +:+ (name_suffix t +:+ "." +:+ archive_format t))))
         release_targets.
Proof.
  eapply Forall_impl; [apply archive_name_parts|]. intros t Ht. unfold archive_file.
  rewrite Ht. simpl. by rewrite <- !string_app_assoc.
Qed.

Lemma archive_file_of v tag t :
  t ∈ release_targets ->
  archive_file v tag t = Some (name_prefix t +:+ (v +:+ (name_suffix t +:+ "." +:+ archive_format t))).
Proof. intros Ht. exact (proj1 (Forall_forall _ _) (archive_file_parts v tag) t Ht). Qed.


(** ** Theorems *)

(** (C27) Whatever the version, the release names an archive for each of
    its nine platforms and no two of those names are equal, so no
    archive of a platform overwrites another's (in particular
    [linux_arm_6] and [linux_arm_7] differ by [v6] and [v7]). *)
Theorem archive_names_distinct v tag :
  exists names, mapM (archive_file v tag) release_targets = Some names /\
    NoDup names /\ length names = 9%nat.
Proof.
  eexists. split; [apply mapM_Some_map, archive_file_parts|]. split; [|reflexivity].
  refine (eq_ind _ NoDup (pairwise_sep_NoDup
            (map (fun t => (name_prefix t, name_suffix t +:+ "." +:+ archive_format t)) release_targets) v
            ltac:(vm_compute; reflexivity)) _ _).
  by rewrite map_map.
Qed.

(** (C28) The links of the release notes: for every version, tag and
    Debian version, the Linux and the two macOS links show the name of
    the archive the release builds for their platform and point at its
    download, and the Windows link points at the Windows [amd64] archive
    but shows the name of a Windows [arm64] archive, which no target of
    the release builds. *)
Theorem header_links_check v tag deb :
  link_to v tag deb (nth 0 header_links (mkLink "" "")) (archive_file v tag (mkTarget "linux" "amd64" "")) /\
  link_to v tag deb (nth 2 header_links (mkLink "" "")) (archive_file v tag (mkTarget "darwin" "amd64" "")) /\
  link_to v tag deb (nth 3 header_links (mkLink "" "")) (archive_file v tag (mkTarget "darwin" "arm64" "")) /\
  render (header_ctx v tag deb) (link_url (nth 4 header_links (mkLink "" ""))) =
    (fun x => header_prefix +:+ (tag +:+ ("/" +:+ x))) <$> archive_file v tag (mkTarget "windows" "amd64" "") /\
  render (header_ctx v tag deb) (link_text (nth 4 header_links (mkLink "" ""))) =
    Some ("step-ca_windows_" +:+ v +:+ "_arm64.zip") /\
  (forall t, t ∈ release_targets -> goos t = "windows" -> goarch t <> "arm64").
Proof.
  rewrite !archive_file_of by decide_goal.
  split_and!; try split; try (vm_compute; reflexivity).
  intros t Ht. apply list_elem_of_In in Ht. vm_compute in Ht.
  repeat destruct Ht as [<-|Ht]; try done; vm_compute; congruence.
Qed.
