(* ===== verification/ReleaseNotes.v ===== *)
(** The signing of release artifacts and the verification example of the
    release notes in [.goreleaser.yml] ([src/unnamed/part_001]): the
    [signs] entry, which runs [cosign sign-blob] on every artifact, and
    the [cosign verify-blob] example of the [release.header] text.

    goreleaser runs [cmd] with [args] once per artifact, [${artifact}]
    and [${signature}] expanded in each argument ([expand]); the
    signature path is the [signature] template, by default
    [${artifact}.sig].  The example of the release notes is text that a
    reader pastes into a POSIX shell: the shell joins a line that ends
    with a backslash to the next one ([shell_lines]) and runs each
    resulting line as a command.

    Theorems: signing an archive writes the file its name followed by
    [.sig], and the command lists the archive itself as the blob; the
    example of the release notes names that signature for the macOS
    [amd64] archive, but its third line has no backslash, so the shell
    runs [cosign verify-blob] without the blob and then tries to run
    the archive's path as a second command. *)

From S2P Require Import Prelude Release.

(** ** Expansion of [${name}] in the arguments of [signs] *)

(** Scan of [s] that replaces each [${k}] of [env] by its value, left to
    right; [skip] counts the characters of a replaced reference still to
    drop. *)
Fixpoint expand_go (env : list (string * string)) (skip : nat) (s : string) : string :=
  match s with
  | EmptyString => EmptyString
  | String c s' =>
      match skip with
      | S k => expand_go env k s'
      | O =>
          match List.find (fun kv => has_prefix ("${" +:+ kv.1 +:+ "}") s) env with
          | Some (k, v) => v +:+ expand_go env (String.length k + 2) s'
          | None => String c (expand_go env 0 s')
          end
      end
  end.

Definition expand (env : list (string * string)) (s : string) : string := expand_go env 0 s.

(** The default [signature] template of a [signs] entry. *)
Definition sign_signature : string := "${artifact}.sig".

(** The signature file of [artifact]. *)
Definition signature_of (artifact : string) : string :=
  expand [("artifact", artifact)] sign_signature.

(** The command goreleaser runs for [artifact]: [cmd] then the expanded
    [args]. *)
Definition sign_command (artifact : string) : list string :=
  sign_cmd pipes ::
  map (expand [("artifact", artifact); ("signature", signature_of artifact)]) (sign_args pipes).

(** ** The example of the release notes *)

Definition backslash : string := String (Ascii.ascii_of_nat 92) EmptyString.

Definition cosign_pub : string :=
  "https://raw.githubusercontent.com/smallstep/certificates/master/cosign.pub".

(** The lines between the code fences of [release.header], as the block
    scalar [|] keeps them (its indentation removed). *)
Definition cosign_example : list string :=
  ["cosign verify-blob " +:+ backslash;
   "  -key " +:+ cosign_pub +:+ " " +:+ backslash;
   "  -signature ~/Downloads/step-ca_darwin_{{ .Version }}_amd64.tar.gz.sig";
   "  ~/Downloads/step-ca_darwin_{{ .Version }}_amd64.tar.gz"].

(** [release.footer], line by line as the block scalar keeps them. *)
Definition footer : list string :=
  ["## Thanks!"; "";
   "Those were the changes on {{ .Tag }}!"; "";
   "Come join us on [Discord](https://discord.gg/X2RKGwEbV9) to ask questions, chat about PKI, or get a sneak peak at the freshest PKI memes."].

(** Whether a line ends with a backslash, and the line without its last
    character. *)
Fixpoint ends_bs (s : string) : bool :=
  match s with
  | EmptyString => false
  | String c EmptyString => bool_decide (c = Ascii.ascii_of_nat 92)
  | String _ s' => ends_bs s'
  end.

Fixpoint drop_last (s : string) : string :=
  match s with
  | EmptyString | String _ EmptyString => EmptyString
  | String c s' => String c (drop_last s')
  end.

(** The commands a POSIX shell reads from [ls]: a backslash at the end of
    a line removes itself and the line break; [acc] is the command read
    so far. *)
Fixpoint shell_lines (acc : string) (ls : list string) : list string :=
  match ls with
  | [] => if decide (acc = "") then [] else [acc]
  | l :: ls' =>
      if ends_bs l then shell_lines (acc +:+ drop_last l) ls'
      else (acc +:+ l) :: shell_lines "" ls'
  end.

(** What the reader of the release notes of [tag] runs. *)
Definition example_commands (version tag deb : string) : option (list string) :=
  ls ← mapM (render (header_ctx version tag deb)) cosign_example; Some (shell_lines "" ls).

(** ** Lemmas *)

Lemma ends_bs_app a b : b <> "" -> ends_bs (a +:+ b) = ends_bs b.
Proof.
  intros Hb. induction a as [|c a IH]; [reflexivity|].
  rewrite string_app_cons. simpl. destruct (a +:+ b) as [|c' s] eqn:E.
  - destruct a; [rewrite string_app_empty in E; done | rewrite string_app_cons in E; discriminate].
  - first [exact IH | by rewrite E in IH].
Qed.

Lemma ends_bs_app2 p v s : s <> "" -> ends_bs (p +:+ (v +:+ s)) = ends_bs s.
Proof.
  intros Hs. assert (v +:+ s <> "") by (destruct v; [exact Hs | rewrite string_app_cons; discriminate]).
  rewrite ends_bs_app by done. by apply ends_bs_app.
Qed.

Lemma shell_lines_cont acc l ls :
  ends_bs l = true -> shell_lines acc (l :: ls) = shell_lines (acc +:+ drop_last l) ls.
Proof. intros H. simpl. by rewrite H. Qed.

Lemma shell_lines_line acc l ls :
  ends_bs l = false -> shell_lines acc (l :: ls) = (acc +:+ l) :: shell_lines "" ls.
Proof. intros H. simpl. by rewrite H. Qed.

(** The signature of an artifact is its path followed by [.sig]. *)
Lemma signature_of_eq a : signature_of a = a +:+ ".sig".
Proof. vm_compute. reflexivity. Qed.

(** The command that signs [a]: [cosign sign-blob] with the key, the
    signature of [a] as output and [a] as the blob. *)
Lemma sign_command_eq a :
  sign_command a = ["cosign"; "sign-blob"; "-key=/tmp/cosign.key"; "-output=" +:+ (a +:+ ".sig"); a].
Proof.
  transitivity ["cosign"; "sign-blob"; "-key=/tmp/cosign.key";
                "-output=" +:+ ((a +:+ ".sig") +:+ ""); a +:+ ""].
  - vm_compute. reflexivity.
  - by rewrite !string_app_nil_r.
Qed.

(** The commands of the example, for any version. *)
Lemma example_commands_eq v tag deb :
  example_commands v tag deb =
    Some ["cosign verify-blob   -key " +:+ cosign_pub +:+
            "   -signature ~/Downloads/step-ca_darwin_" +:+ (v +:+ "_amd64.tar.gz.sig");
          "  ~/Downloads/step-ca_darwin_" +:+ (v +:+ "_amd64.tar.gz")].
Proof.
  unfold example_commands.
  assert (E : mapM (render (header_ctx v tag deb)) cosign_example =
    Some ["cosign verify-blob " +:+ backslash; "  -key " +:+ cosign_pub +:+ " " +:+ backslash;
          "  -signature ~/Downloads/step-ca_darwin_" +:+ (v +:+ "_amd64.tar.gz.sig");
          "  ~/Downloads/step-ca_darwin_" +:+ (v +:+ "_amd64.tar.gz")])
    by (vm_compute; reflexivity).
  rewrite E. cbv [mbind option_bind].
  rewrite shell_lines_cont, shell_lines_cont, shell_lines_line, shell_lines_line
    by first [vm_compute; reflexivity | rewrite ends_bs_app2; [reflexivity | discriminate]].
  vm_compute. reflexivity.
Qed.

(** The footer renders for every release, naming its tag. *)
Lemma footer_render v tag deb :
  mapM (render (header_ctx v tag deb)) footer =
    Some ["## Thanks!"; ""; "Those were the changes on " +:+ (tag +:+ "!"); "";
          "Come join us on [Discord](https://discord.gg/X2RKGwEbV9) to ask questions, chat about PKI, or get a sneak peak at the freshest PKI memes."].
Proof. vm_compute. reflexivity. Qed.

(** ** Theorems *)

(** (C29) The verification example of the release notes, for every
    version, tag and Debian version: it names the signature that the
    [signs] pipe writes for the macOS [amd64] archive (the archive's name
    followed by [.sig], the [-output] of [cosign sign-blob]), but the
    shell reads it as two commands, since the [-signature] line does not
    end with a backslash: [cosign verify-blob] with a key and a signature
    and no blob, then the archive's path on its own, run as a program. *)
Theorem cosign_example_commands v tag deb :
  exists f, archive_file v tag (mkTarget "darwin" "amd64" "") = Some f /\
    sign_command f = ["cosign"; "sign-blob"; "-key=/tmp/cosign.key"; "-output=" +:+ signature_of f; f] /\
    signature_of f = f +:+ ".sig" /\
    example_commands v tag deb =
      Some ["cosign verify-blob   -key " +:+ cosign_pub +:+ "   -signature ~/Downloads/" +:+ signature_of f;
            "  ~/Downloads/" +:+ f].
Proof.
  rewrite archive_file_of by decide_goal. eexists. split; [reflexivity|].
  rewrite sign_command_eq, !signature_of_eq. split_and!; [reflexivity | reflexivity |].
  rewrite example_commands_eq, <- !string_app_assoc. vm_compute. reflexivity.
Qed.

(** The example for version [0.20.0]: the second command is the path of
    the archive. *)
Example cosign_example_0_20_0 :
  example_commands "0.20.0" "v0.20.0" "0.20.0-1" =
    Some ["cosign verify-blob   -key https://raw.githubusercontent.com/smallstep/certificates/master/cosign.pub   -signature ~/Downloads/step-ca_darwin_0.20.0_amd64.tar.gz.sig";
          "  ~/Downloads/step-ca_darwin_0.20.0_amd64.tar.gz"].
Proof. vm_compute. reflexivity. Qed.
